(** * alicloudapislim: the Wuliu and Market clients

    A shallow embedding of the two clients of the package: the Market client
    of [market.go] and the Wuliu client, followed by the statements of their
    specification, proved or refuted on the embedding.

    Conventions.
    - A Go [string] is a [string] (a sequence of bytes); [<] on Go strings is
      the bytewise lexicographic order ([String.ltb], [String.le]).
    - A Go [int] is a [Z] in the signed 64-bit range, its wrap-around written
      with [wrap64].
    - [url.Values] (a [map[string][]string]) is a [gmap string (list string)];
      a JSON object decoded into a [map[string]string] is a
      [gmap string string]. A [range] over a map takes the order stdpp
      enumerates the map in; the results are shown not to depend on it.
    - A Go [error] is the text of its message; a call ends in an [outcome].
    - Time, randomness, standard output and the HTTP exchange are the
      [World.t] that every operation reads and changes; the server is a
      function from the request to what becomes of the exchange, the body of
      a response given by what [json.Decoder.Decode] makes of it.
    - A function that can run forever takes fuel: [OutOfFuel] says that the
      call has not returned yet.
    - The standard-library routines the clients call (query escaping, SHA-1,
      HMAC, base64, sorting, time parsing) are modelled in the first part and
      checked on test vectors. *)

From Stdlib Require Import ZArith List String Ascii Lia Bool.
From stdpp Require Import base option list gmap strings sorting pretty.

Local Open Scope string_scope.
Local Open Scope list_scope.
Local Open Scope Z_scope.

(** ** Bytes and strings *)

Definition byte_of (c : ascii) : Z := Z.of_N (N_of_ascii c).
Definition char_of (b : Z) : ascii := ascii_of_N (Z.to_N b).

(** [[]byte(s)] *)
Definition bytes (s : string) : list Z := byte_of <$> list_ascii_of_string s.
(** [string(bs)] *)
Definition of_bytes (bs : list Z) : string := string_of_list_ascii (char_of <$> bs).

(** [strings.Join(parts, sep)] *)
Fixpoint Join (parts : list string) (sep : string) : string :=
  match parts with
  | [] => ""
  | [p] => p
  | p :: rest => p +:+ sep +:+ Join rest sep
  end.

(** [strings.Replace(s, old, new, -1)] for a one-byte [old]. *)
Fixpoint ReplaceAll (s : string) (old : ascii) (new : string) : string :=
  match s with
  | EmptyString => ""
  | String c rest =>
      if Ascii.eqb c old then new +:+ ReplaceAll rest old new
      else String c (ReplaceAll rest old new)
  end.

(** [strconv.Itoa], and [%d] of [fmt]. *)
Definition Itoa (n : Z) : string := pretty n.

(** ** Machine integers *)

Definition wrap64 (x : Z) : Z := (x + 2^63) mod 2^64 - 2^63.
Definition int_range (x : Z) : Prop := - 2^63 <= x < 2^63.

(** ** crypto/sha1, crypto/hmac, encoding/base64 *)

Module Crypto.

Definition w32 (x : Z) : Z := x mod 2^32.
Definition rotl (n x : Z) : Z :=
  w32 (Z.lor (Z.shiftl x n) (Z.shiftr x (32 - n))).
Definition not32 (x : Z) : Z := Z.lxor x (2^32 - 1).

Definition be32 (bs : list Z) : Z :=
  fold_left (fun acc b => acc * 256 + b) bs 0.
Definition be_bytes (n : nat) (x : Z) : list Z :=
  (fun i => Z.land (Z.shiftr x (8 * Z.of_nat i)) 255) <$> rev (seq 0 n).

(** Padding: a 1 bit, zeros up to 56 mod 64, the bit length on 8 bytes. *)
Definition pad (msg : list Z) : list Z :=
  let len := Z.of_nat (length msg) in
  msg ++ [128] ++ replicate (Z.to_nat ((55 - len) mod 64)) 0
      ++ be_bytes 8 (8 * len).

Fixpoint chunks {A} (fuel n : nat) (l : list A) : list (list A) :=
  match fuel with
  | O => []
  | S fuel =>
      match l with
      | [] => []
      | _ => take n l :: chunks fuel n (drop n l)
      end
  end.

Definition word (ws : list Z) (i : nat) : Z := nth i ws 0.

(** The 80-word message schedule of one 64-byte block. *)
Definition schedule (block : list Z) : list Z :=
  let w0 : list Z := be32 <$> chunks 16 4 block in
  fold_left
    (fun (ws : list Z) (i : nat) =>
       ws ++ [rotl 1 (Z.lxor (Z.lxor (word ws (i - 3)%nat) (word ws (i - 8)%nat))
                             (Z.lxor (word ws (i - 14)%nat) (word ws (i - 16)%nat)))])
    (seq 16 64) w0.

Record digest := Digest { h0 : Z; h1 : Z; h2 : Z; h3 : Z; h4 : Z }.

Definition init : digest :=
  Digest 0x67452301 0xEFCDAB89 0x98BADCFE 0x10325476 0xC3D2E1F0.

Definition round (st : digest) (iw : nat * Z) : digest :=
  let '(i, w) := iw in
  let '(Digest a b c d e) := st in
  let '(f, k) :=
    if (i <? 20)%nat then
      (Z.lor (Z.land b c) (Z.land (not32 b) d), 0x5A827999)
    else if (i <? 40)%nat then
      (Z.lxor (Z.lxor b c) d, 0x6ED9EBA1)
    else if (i <? 60)%nat then
      (Z.lor (Z.lor (Z.land b c) (Z.land b d)) (Z.land c d), 0x8F1BBCDC)
    else
      (Z.lxor (Z.lxor b c) d, 0xCA62C1D6) in
  Digest (w32 (rotl 5 a + f + e + k + w)) a (rotl 30 b) c d.

Definition block (st : digest) (blk : list Z) : digest :=
  let '(Digest a b c d e) :=
    fold_left round (zip (seq 0 80) (schedule blk)) st in
  Digest (w32 (h0 st + a)) (w32 (h1 st + b)) (w32 (h2 st + c))
         (w32 (h3 st + d)) (w32 (h4 st + e)).

(** [sha1.Sum] *)
Definition sha1 (msg : list Z) : list Z :=
  let p := pad msg in
  let '(Digest a b c d e) :=
    fold_left block (chunks (length p) 64 p) init in
  be_bytes 4 a ++ be_bytes 4 b ++ be_bytes 4 c ++ be_bytes 4 d ++ be_bytes 4 e.

(** [hmac.New(sha1.New, key)], [Write(msg)], [Sum(nil)] *)
Definition hmac_sha1 (key msg : list Z) : list Z :=
  let key := if (64 <? length key)%nat then sha1 key else key in
  let key := key ++ replicate (64 - length key)%nat 0 in
  sha1 ((Z.lxor 0x5c <$> key) ++ sha1 ((Z.lxor 0x36 <$> key) ++ msg)).

Definition alphabet : string :=
  "ABCDEFGHIJKLMNOPQRSTUVWXYZabcdefghijklmnopqrstuvwxyz0123456789+/".

Definition sextet (x : Z) : ascii :=
  match String.get (Z.to_nat x) alphabet with Some c => c | None => "="%char end.

(** [base64.StdEncoding.EncodeToString] *)
Fixpoint base64 (bs : list Z) : string :=
  match bs with
  | [] => ""
  | [a] =>
      String (sextet (a / 4)) (String (sextet (a mod 4 * 16)) "==")
  | [a; b] =>
      String (sextet (a / 4)) (String (sextet (a mod 4 * 16 + b / 16))
        (String (sextet (b mod 16 * 4)) "="))
  | a :: b :: c :: rest =>
      String (sextet (a / 4)) (String (sextet (a mod 4 * 16 + b / 16))
        (String (sextet (b mod 16 * 4 + c / 64))
          (String (sextet (c mod 64)) (base64 rest))))
  end.

End Crypto.


(** ** sort *)

(** [sort.Strings]: ascending in the bytewise order of Go's [<] on strings. *)
Definition sort_Strings (l : list string) : list string := merge_sort String.le l.

(** ** net/url *)

Module Url.

(** [url.Values] *)
Abbreviation Values := (gmap string (list string)).

(** [v.Set(key, value)] *)
Definition Set_ (key value : string) (v : Values) : Values := <[key := [value]]> v.

(** [v.Get(key)]: the first value of the key, or the empty string. *)
Definition Get (v : Values) (key : string) : string :=
  match v !! key with
  | Some (x :: _) => x
  | _ => ""
  end.

Definition between (lo hi c : ascii) : bool :=
  (byte_of lo <=? byte_of c) && (byte_of c <=? byte_of hi).

(** [shouldEscape(c, encodeQueryComponent)]: everything but the unreserved
    characters of RFC 3986 is escaped. *)
Definition shouldEscape (c : ascii) : bool :=
  if between "a" "z" c || between "A" "Z" c || between "0" "9" c then false
  else if Ascii.eqb c "-" || Ascii.eqb c "_" || Ascii.eqb c "." || Ascii.eqb c "~"
  then false
  else true.

Definition upperhex : string := "0123456789ABCDEF".

Definition hexdigit (x : Z) : ascii :=
  match String.get (Z.to_nat x) upperhex with Some c => c | None => "0"%char end.

(** The three bytes [%XX] of an escaped byte. *)
Definition pct (c : ascii) : string :=
  String "%" (String (hexdigit (Z.shiftr (byte_of c) 4))
               (String (hexdigit (Z.land (byte_of c) 15)) "")).

(** [url.QueryEscape] *)
Fixpoint QueryEscape (s : string) : string :=
  match s with
  | EmptyString => ""
  | String c rest =>
      if shouldEscape c then
        if Ascii.eqb c " " then String "+" (QueryEscape rest)
        else pct c +:+ QueryEscape rest
      else String c (QueryEscape rest)
  end.

(** The keys of a map, in the order stdpp enumerates them. A Go [range]
    over a map yields them in an unspecified order; every function below
    that ranges over a map takes the order as an argument first (its
    [..From] form) and is shown not to depend on it. *)
Definition keys {V} (v : gmap string V) : list string := (map_to_list v).*1.

(** [v.Encode()] *)
Definition EncodeFrom (order : list string) (v : Values) : string :=
  Join (concat ((fun k =>
                   (fun x => QueryEscape k +:+ "=" +:+ QueryEscape x)
                     <$> default [] (v !! k))
                  <$> sort_Strings order)) "&".
Definition Encode (v : Values) : string := EncodeFrom (keys v) v.

End Url.

(** ** time *)

Module Time.

Record Location := { zone : string; offset : Z }.

Definition UTC : Location := {| zone := "UTC"; offset := 0 |}.

(** [time.FixedZone(name, offset)] *)
Definition FixedZone (name : string) (off : Z) : Location :=
  {| zone := name; offset := off |}.

(** A [time.Time] as its wall-clock reading in its location. *)
Record Time := {
  year : Z; month : Z; day : Z;
  hour : Z; minute : Z; second : Z; nanosecond : Z;
  loc : Location
}.

(** [time.Time{}]: January 1, year 1, 00:00:00 UTC. *)
Definition zero : Time :=
  {| year := 1; month := 1; day := 1;
     hour := 0; minute := 0; second := 0; nanosecond := 0; loc := UTC |}.

Definition isDigit (c : ascii) : bool := (48 <=? byte_of c) && (byte_of c <=? 57).
Definition digit (c : ascii) : Z := byte_of c - 48.

(** [getnum(s, fixed)]: one or two digits, two when [fixed]. *)
Definition getnum (s : string) (fixed : bool) : option (Z * string) :=
  match s with
  | String a (String b rest) =>
      if isDigit a then
        if isDigit b then Some (digit a * 10 + digit b, rest)
        else if fixed then None else Some (digit a, String b rest)
      else None
  | String a EmptyString =>
      if isDigit a && negb fixed then Some (digit a, "") else None
  | EmptyString => None
  end.

(** Four digits of a year. *)
Definition getyear (s : string) : option (Z * string) :=
  match s with
  | String a (String b (String c (String d rest))) =>
      if isDigit a && isDigit b && isDigit c && isDigit d
      then Some (((digit a * 10 + digit b) * 10 + digit c) * 10 + digit d, rest)
      else None
  | _ => None
  end.

(** [cutspace(s)]: [s] without its leading spaces. *)
Fixpoint cutspace (s : string) : string :=
  match s with
  | String c rest => if Ascii.eqb c " " then cutspace rest else s
  | EmptyString => ""
  end.

(** The loop of [skip(value, prefix)], which removes the literal text
    [prefix] of the layout from the value: a space of the prefix stands
    for a run of spaces of the value, or for its end, and every other
    byte for itself. One unit of fuel for each round; every round shortens
    the prefix. *)
Fixpoint skipLoop (fuel : nat) (value prefix : string) : option string :=
  match prefix with
  | EmptyString => Some value
  | String p prefix' =>
      match fuel with
      | O => None
      | S fuel =>
          if Ascii.eqb p " " then
            match value with
            | String v _ =>
                if negb (Ascii.eqb v " ") then None
                else skipLoop fuel (cutspace value) (cutspace prefix)
            | EmptyString => skipLoop fuel (cutspace value) (cutspace prefix)
            end
          else
            match value with
            | String v value' =>
                if Ascii.eqb v p then skipLoop fuel value' prefix' else None
            | EmptyString => None
            end
      end
  end.

Definition skip (value prefix : string) : option string :=
  skipLoop (String.length prefix) value prefix.

Fixpoint digits (s : string) : list Z * string :=
  match s with
  | String a rest =>
      if isDigit a then let '(ds, r) := digits rest in (digit a :: ds, r)
      else ([], s)
  | EmptyString => ([], "")
  end.

(** A fractional second after the seconds field, which the parser accepts
    even though the layout has none: at most nine digits count. *)
Definition fraction (s : string) : Z * string :=
  match s with
  | String sep (String d rest) =>
      if (Ascii.eqb sep "." || Ascii.eqb sep ",") && isDigit d then
        let '(ds, r) := digits (String d rest) in
        let ds9 := take 9 ds in
        (fold_left (fun acc x => acc * 10 + x) ds9 0 * 10 ^ (9 - Z.of_nat (length ds9)), r)
      else (0, s)
  | _ => (0, s)
  end.

Definition isLeap (y : Z) : bool :=
  (y mod 4 =? 0) && (negb (y mod 100 =? 0) || (y mod 400 =? 0)).

Definition daysIn (m y : Z) : Z :=
  if m =? 2 then (if isLeap y then 29 else 28)
  else if (m =? 4) || (m =? 6) || (m =? 9) || (m =? 11) then 30
  else 31.

(** The parse of a value in the layout ["2006-01-02 15:04:05"]: the
    elements of the layout in turn, each after the literal text that
    precedes it. *)
Definition parseDateTime (value : string) (l : Location) : option Time :=
  '(y, s) ← getyear value;
  s ← skip s "-";
  '(mo, s) ← getnum s true;
  s ← skip s "-";
  '(d, s) ← getnum s true;
  s ← skip s " ";
  '(h, s) ← getnum s false;
  s ← skip s ":";
  '(mi, s) ← getnum s true;
  s ← skip s ":";
  '(sec, s) ← getnum s true;
  let '(ns, s) := fraction s in
  if negb (String.eqb s "") then None
  else if (mo <? 1) || (12 <? mo) then None
  else if 24 <=? h then None
  else if 60 <=? mi then None
  else if 60 <=? sec then None
  else if (d <? 1) || (daysIn mo y <? d) then None
  else Some {| year := y; month := mo; day := d; hour := h; minute := mi;
               second := sec; nanosecond := ns; loc := l |}.

(** A [*time.ParseError], by the layout and the value it names. The
    client drops the error, so the elements that did not match and the
    message are left out. *)
Record ParseError := { Layout : string; Value : string }.

(** [time.ParseInLocation("2006-01-02 15:04:05", value, loc)]: the time and
    the error; on an error the time is [Time{}]. *)
Definition ParseInLocation (value : string) (l : Location) : Time * option ParseError :=
  match parseDateTime value l with
  | Some t => (t, None)
  | None => (zero, Some {| Layout := "2006-01-02 15:04:05"; Value := value |})
  end.

End Time.

(** ** Results and the outside world *)

(** The text of a Go [error]. *)
Abbreviation error := string (only parsing).

(** How a call ends. *)
Inductive outcome (A : Type) : Type :=
  | Return (a : A)       (* the value and a nil error *)
  | Fail (e : error)     (* a non-nil error *)
  | Panic (e : string)   (* a run-time panic *)
  | OutOfFuel.           (* the call has not returned within the fuel given *)
Arguments Return {A} a.
Arguments Fail {A} e.
Arguments Panic {A} e.
Arguments OutOfFuel {A}.

(** What [json.NewDecoder(resp.Body).Decode(target)] makes of a body. *)
Inductive Decoded (T : Type) : Type :=
  | Malformed (e : error)   (* the decoder's error *)
  | Json (t : T).           (* the target it fills *)
Arguments Malformed {T} e.
Arguments Json {T} t.

(** The [{Code, Message}] struct of the Market client's non-200 branch, as the
    body leaves it (empty strings where the body does not give them). *)
Module ApiError.
Record t := mk { Code : string; Message : string }.
End ApiError.

Module Response.
Record t (T : Type) := mk {
  StatusCode : Z;
  Body : Decoded T;
  ErrorBody : ApiError.t
}.
Arguments mk {T}.
Arguments StatusCode {T}.
Arguments Body {T}.
Arguments ErrorBody {T}.
End Response.

(** What becomes of one HTTP exchange. *)
Inductive Transport (T : Type) : Type :=
  | BadRequest (e : error)        (* [http.NewRequestWithContext] fails *)
  | NetworkFailure (e : error)    (* [http.DefaultClient.Do] fails *)
  | Responded (r : Response.t T). (* a response arrives *)
Arguments BadRequest {T} e.
Arguments NetworkFailure {T} e.
Arguments Responded {T} r.

(** A request handed to [http.DefaultClient.Do]. *)
Inductive Request : Type :=
  | WuliuGET (path : string) (authorization : string)
      (* GET https://wuliu.market.alicloudapi.com ++ path *)
  | MarketGET (params : Url.Values).
      (* GET https://market.aliyuncs.com/? ++ params.Encode() *)

Module World.
Record t := mk {
  clock : nat -> string;  (* the readings of time.Now().UTC(), formatted *)
  entropy : nat -> Z;     (* the bytes crypto/rand delivers *)
  clock_reads : nat;
  entropy_reads : nat;
  sent : list Request;    (* the requests handed to Do, oldest first *)
  stdout : list Url.Values  (* the values printed *)
}.

(** One more reading of the clock. *)
Definition tick (w : t) : t :=
  mk (clock w) (entropy w) (S (clock_reads w)) (entropy_reads w) (sent w) (stdout w).
(** [n] more random bytes. *)
Definition draw (n : nat) (w : t) : t :=
  mk (clock w) (entropy w) (clock_reads w) (entropy_reads w + n) (sent w) (stdout w).
(** One more request handed to Do. *)
Definition send (req : Request) (w : t) : t :=
  mk (clock w) (entropy w) (clock_reads w) (entropy_reads w) (sent w ++ [req]) (stdout w).
(** One more value printed. *)
Definition print (v : Url.Values) (w : t) : t :=
  mk (clock w) (entropy w) (clock_reads w) (entropy_reads w) (sent w) (stdout w ++ [v]).
End World.

(** Computations that read and change the world. *)
Definition IO (A : Type) : Type := World.t -> A * World.t.

Definition ret {A} (a : A) : IO A := fun w => (a, w).
Definition bind {A B} (m : IO A) (k : A -> IO B) : IO B :=
  fun w => let '(a, w') := m w in k a w'.

Global Instance IO_ret : MRet IO := @ret.
Global Instance IO_bind : MBind IO := fun A B k m => bind m k.

(** [time.Now().UTC().Format("2006-01-02T15:04:05Z")] *)
Definition now : IO string := fun w =>
  (World.clock w (World.clock_reads w), World.tick w).

(** [rand.Read(bytes)] for a slice of [n] bytes. *)
Definition rand_Read (n : nat) : IO (list Z) := fun w =>
  ((fun i => World.entropy w i mod 256) <$> seq (World.entropy_reads w) n,
   World.draw n w).

(** [fmt.Println(params)] *)
Definition Println (v : Url.Values) : IO unit := fun w => (tt, World.print v w).

(** [http.NewRequestWithContext] then [http.DefaultClient.Do]: a request that
    cannot be built is not sent. *)
Definition exchange {T} (server : Request -> Transport T) (req : Request)
  : IO (Transport T) := fun w =>
  match server req with
  | BadRequest e => (BadRequest e, w)
  | reply => (reply, World.send req w)
  end.

(** The double quote, and a text between double quotes. *)
Definition dquote : string := String (ascii_of_nat 34) "".

(** ** The Market client *)

Module MarketClient.
Record t := mk { accessKeyId : string; accessKeySecret : string }.
End MarketClient.

Module MarketProduct.
Record t := mk {
  Id : string; Name : string; Remaining : Z; Used : Z; Unit : string
}.
End MarketProduct.

Module MarketProductOption.
Record t := mk { Code : string; Name : string }.
End MarketProductOption.

Module MarketProductDetails.
Record t := mk {
  Id : string; Name : string; Description : string;
  Options : list MarketProductOption.t
}.
End MarketProductDetails.

Module MarketProductOptionWithPrice.
Record t := mk {
  Id : string; Code : string; Duration : Z; Cycle : string; Price : string
}.
End MarketProductOptionWithPrice.

(** The response of DescribeApiMetering, and an entry of its [Result]. *)
Module MeteringItem.
Record t := mk {
  ProductName : string; AliyunPk : Z; ProductCode : string;
  TotalQuota : Z; TotalUsage : Z; Unit : string
}.
End MeteringItem.

Module MeteringResp.
Record t := mk {
  PageSize : Z; Message : string; PageNumber : Z; Version : string;
  Count : Z; Fatal : bool; Code : string; Success : bool;
  Result : list MeteringItem.t
}.
End MeteringResp.

(** The response of DescribeProduct; a struct that only wraps one slice
    ([ProductSkus], [Modules], [Properties], [PropertyValues]) is that
    slice. *)
Module PropertyValue.
Record t := mk { Type_ : string; DisplayName : string; Value : string }.
End PropertyValue.

Module Property.
Record t := mk { PropertyValues : list PropertyValue.t; Key : string }.
End Property.

Module SkuModule.
Record t := mk { Properties : list Property.t; Code : string }.
End SkuModule.

Module ProductSku.
Record t := mk { ChargeType : string; Modules : list SkuModule.t }.
End ProductSku.

Module ProductResp.
Record t := mk {
  ProductSkus : list ProductSku.t;
  Code : string; ShortDescription : string; Name : string; Type_ : string
}.
End ProductResp.

(** The response of DescribePrice, over the type of its [float64] fields. *)
Module PriceResp.
Record t (float64 : Type) := mk {
  ProductCode : string;
  TradePrice : float64; OriginalPrice : float64; DiscountPrice : float64;
  Currency : string; Duration : Z; Cycle : string
}.
Arguments mk {float64}.
Arguments ProductCode {float64}.
Arguments TradePrice {float64}.
Arguments OriginalPrice {float64}.
Arguments DiscountPrice {float64}.
Arguments Currency {float64}.
Arguments Duration {float64}.
Arguments Cycle {float64}.
End PriceResp.

Module OrderResp.
Record t := mk { OrderId : string }.
End OrderResp.

(** A value of type [interface{}], by its dynamic type. *)
Inductive any : Type :=
  | AnyNil
  | AnyString (s : string)
  | AnyInt (n : Z)
  | AnyBool (b : bool)
  | AnyBytes (bs : list Z).

(** The library routines of the Market client whose results no statement
    below depends on: [fmt.Sprintf("%.2f", x)] and the JSON text that
    [json.Marshal] gives a string. *)
Module GoLib.
Record t (float64 : Type) := mk {
  Sprintf_2f : float64 -> string;
  MarshalString : string -> string
}.
Arguments Sprintf_2f {float64}.
Arguments MarshalString {float64}.
End GoLib.

Module Market.

Definition alphanum : string :=
  "0123456789ABCDEFGHIJKLMNOPQRSTUVWXYZabcdefghijklmnopqrstuvwxyz".

(** [randomString(n)] *)
Definition randomString (n : nat) : IO string :=
  bs ← rand_Read n;
  mret (string_of_list_ascii
          ((fun b => default "0"%char
                       (String.get (Z.to_nat (b mod Z.of_nat (String.length alphanum)))
                                   alphanum)) <$> bs)).

(** [sign(secret, query)] *)
Definition sign (secret query : string) : string :=
  Crypto.base64 (Crypto.hmac_sha1 (bytes (secret +:+ "&")) (bytes ("GET&%2F&" +:+ query))).

(** [urlEncode(input)] *)
Definition urlEncode (input : string) : string :=
  ReplaceAll (Url.QueryEscape input) "+" "%20".

(** [buildQueryString(params)], the keys ranged over in the order [order]. *)
Definition buildQueryStringFrom (order : list string) (params : Url.Values) : string :=
  let keys := filter (fun key => key ≠ "Signature") order in
  let keys := sort_Strings keys in
  let queries :=
    (fun key => urlEncode key +:+ "=" +:+ urlEncode (Url.Get params key)) <$> keys in
  Join queries "&".

Definition buildQueryString (params : Url.Values) : string :=
  buildQueryStringFrom (Url.keys params) params.

(** The parameters [request] sets before it signs. *)
Definition prepare (client : MarketClient.t) (ts nonce : string) (params : Url.Values)
  : Url.Values :=
  Url.Set_ "SignatureNonce" nonce
    (Url.Set_ "SignatureVersion" "1.0"
      (Url.Set_ "Timestamp" ts
        (Url.Set_ "SignatureMethod" "HMAC-SHA1"
          (Url.Set_ "AccessKeyId" (MarketClient.accessKeyId client)
            (Url.Set_ "Version" "2015-11-01"
              (Url.Set_ "Format" "json" params)))))).

(** The signature [request] computes for the prepared parameters. *)
Definition signature (secret : string) (params : Url.Values) : string :=
  let query := buildQueryString params in
  sign secret (urlEncode query).

(** [client.request(ctx, params, target)] *)
Definition request {T} (client : MarketClient.t) (server : Request -> Transport T)
    (params : Url.Values) : IO (error + T) :=
  ts ← now;
  nonce ← randomString 64;
  let params := prepare client ts nonce params in
  let params :=
    Url.Set_ "Signature" (signature (MarketClient.accessKeySecret client) params) params in
  reply ← exchange server (MarketGET params);
  mret match reply with
       | BadRequest err => inl err
       | NetworkFailure err => inl err
       | Responded resp =>
           if negb (Response.StatusCode resp =? 200) then
             let err := Response.ErrorBody resp in
             inl ("server responded status " +:+ Itoa (Response.StatusCode resp)
                  +:+ " with code " +:+ ApiError.Code err
                  +:+ " and message " +:+ ApiError.Message err +:+ " returned")
           else
             match Response.Body resp with
             | Malformed err => inl err
             | Json target => inr target
             end
       end.

Definition toProduct (item : MeteringItem.t) : MarketProduct.t :=
  MarketProduct.mk (MeteringItem.ProductCode item) (MeteringItem.ProductName item)
                   (MeteringItem.TotalQuota item) (MeteringItem.TotalUsage item)
                   (MeteringItem.Unit item).

(** The loop [for i := 2; i <= totalPages; i++] of [getProducts], over the
    recursive call [rec]; one unit of fuel for each test of the condition. *)
Fixpoint pageLoop (rec : Z -> IO (outcome (list MarketProduct.t)))
    (fuel : nat) (totalPages i : Z) (products : list MarketProduct.t)
  : IO (outcome (list MarketProduct.t)) :=
  match fuel with
  | O => mret OutOfFuel
  | S fuel =>
      if i <=? totalPages then
        r ← rec i;
        match r with
        | Return prods => pageLoop rec fuel totalPages (wrap64 (i + 1)) (products ++ prods)
        | Fail err => mret (Fail err)
        | Panic e => mret (Panic e)
        | OutOfFuel => mret OutOfFuel
        end
      else mret (Return products)
  end.

(** [client.getProducts(ctx, pageNum)]; one unit of fuel for each call. *)
Fixpoint getProducts (fuel : nat) (client : MarketClient.t)
    (server : Request -> Transport MeteringResp.t) (pageNum : Z)
  : IO (outcome (list MarketProduct.t)) :=
  match fuel with
  | O => mret OutOfFuel
  | S fuel =>
      let params :=
        Url.Set_ "pageNum" (Itoa pageNum)
          (Url.Set_ "type" "1" (Url.Set_ "Action" "DescribeApiMetering" ∅)) in
      r ← request client server params;
      match r with
      | inl err => mret (Fail err)
      | inr resp =>
          if negb (MeteringResp.Success resp) then
            mret (Fail ("failed to get metering info: code " +:+ MeteringResp.Code resp
                        +:+ ", message " +:+ MeteringResp.Message resp +:+ " returned"))
          else
            let products := toProduct <$> MeteringResp.Result resp in
            if MeteringResp.PageSize resp =? 0 then
              mret (Panic "runtime error: integer divide by zero")
            else
              let totalPages :=
                wrap64 (MeteringResp.Count resp ÷ MeteringResp.PageSize resp) in
              pageLoop (getProducts fuel client server) fuel totalPages 2 products
      end
  end.

(** [client.GetProducts(ctx)] *)
Definition GetProducts (fuel : nat) (client : MarketClient.t)
    (server : Request -> Transport MeteringResp.t)
  : IO (outcome (list MarketProduct.t)) :=
  getProducts fuel client server 1.

(** The options that the nested loops of [GetProduct] collect. *)
Definition productOptions (resp : ProductResp.t) : list MarketProductOption.t :=
  flat_map (fun sku =>
    flat_map (fun module =>
      if String.eqb (SkuModule.Code module) "package_version" then
        flat_map (fun option =>
          if String.eqb (Property.Key option) "package_version" then
            (fun value =>
               MarketProductOption.mk (PropertyValue.Value value)
                                      (PropertyValue.DisplayName value))
              <$> Property.PropertyValues option
          else [])
          (SkuModule.Properties module)
      else [])
      (ProductSku.Modules sku))
    (ProductResp.ProductSkus resp).

(** [client.GetProduct(ctx, id)] *)
Definition GetProduct (client : MarketClient.t)
    (server : Request -> Transport ProductResp.t) (id : string)
  : IO (outcome MarketProductDetails.t) :=
  let params := Url.Set_ "Code" id (Url.Set_ "Action" "DescribeProduct" ∅) in
  r ← request client server params;
  match r with
  | inl err => mret (Fail err)
  | inr resp =>
      mret (Return (MarketProductDetails.mk (ProductResp.Code resp) (ProductResp.Name resp)
                      (ProductResp.ShortDescription resp) (productOptions resp)))
  end.

Section WithLib.
Context {float64 : Type} (lib : GoLib.t float64).

Definition key (name : string) : string := dquote +:+ name +:+ dquote.

(** [json.Marshal] of the commodity of [GetPrice]. *)
Definition priceCommodity (id option : string) : string :=
  "{" +:+ key "components" +:+ ":{" +:+ key "package_version" +:+ ":"
      +:+ GoLib.MarshalString lib option +:+ "},"
      +:+ key "productCode" +:+ ":" +:+ GoLib.MarshalString lib id +:+ "}".

(** [client.GetPrice(ctx, id, option)] *)
Definition GetPrice (client : MarketClient.t)
    (server : Request -> Transport (PriceResp.t float64)) (id option : string)
  : IO (outcome MarketProductOptionWithPrice.t) :=
  let params :=
    Url.Set_ "Commodity" (priceCommodity id option)
      (Url.Set_ "OrderType" "INSTANCE_BUY" (Url.Set_ "Action" "DescribePrice" ∅)) in
  r ← request client server params;
  match r with
  | inl err => mret (Fail err)
  | inr resp =>
      mret (Return (MarketProductOptionWithPrice.mk id option (PriceResp.Duration resp)
                      (PriceResp.Cycle resp)
                      (GoLib.Sprintf_2f lib (PriceResp.TradePrice resp))))
  end.

(** [json.Marshal] of the commodity of [CreateOrder]. *)
Definition orderCommodity (option : MarketProductOptionWithPrice.t) : string :=
  "{" +:+ key "components" +:+ ":{" +:+ key "package_version" +:+ ":"
      +:+ GoLib.MarshalString lib (MarketProductOptionWithPrice.Code option) +:+ "},"
      +:+ key "skuCode" +:+ ":" +:+ key "prepay" +:+ ","
      +:+ key "duration" +:+ ":" +:+ Itoa (MarketProductOptionWithPrice.Duration option) +:+ ","
      +:+ key "pricingCycle" +:+ ":"
      +:+ GoLib.MarshalString lib (MarketProductOptionWithPrice.Cycle option) +:+ ","
      +:+ key "productCode" +:+ ":"
      +:+ GoLib.MarshalString lib (MarketProductOptionWithPrice.Id option) +:+ "}".

(** One turn of the loop over the overrides of [CreateOrder], at index [i]. *)
Definition override (overrides : list any) (params : Url.Values) (i : nat) : Url.Values :=
  match overrides !! (2 * i)%nat with
  | Some (AnyString a) =>
      match overrides !! (2 * i + 1)%nat with
      | Some (AnyString b) => Url.Set_ a b params
      | _ => params
      end
  | _ => params
  end.

(** [for i := 0; i < len(overrides)/2; i++ { ... }] *)
Definition applyOverrides (overrides : list any) (params : Url.Values) : Url.Values :=
  foldl (override overrides) params (seq 0 (length overrides / 2)%nat).

(** The parameters of [CreateOrder] when it calls [request]. *)
Definition orderParams (token : string) (option : MarketProductOptionWithPrice.t)
    (overrides : list any) : Url.Values :=
  applyOverrides overrides
    (Url.Set_ "Commodity" (orderCommodity option)
      (Url.Set_ "PaymentType" "AUTO"
        (Url.Set_ "OrderType" "INSTANCE_BUY"
          (Url.Set_ "ClientToken" token (Url.Set_ "Action" "CreateOrder" ∅))))).

(** [client.CreateOrder(ctx, option, overrides...)] *)
Definition CreateOrder (client : MarketClient.t)
    (server : Request -> Transport OrderResp.t)
    (option : MarketProductOptionWithPrice.t) (overrides : list any)
  : IO (outcome string) :=
  token ← randomString 64;
  let params := orderParams token option overrides in
  _ ← Println params;
  r ← request client server params;
  match r with
  | inl err => mret (Fail err)
  | inr resp => mret (Return (OrderResp.OrderId resp))
  end.

End WithLib.

End Market.

(** ** The Wuliu client *)

Module WuliuProvider.
Record t := mk { Code : string; Name : string }.
End WuliuProvider.

Module WuliuStatusItem.
Record t := mk { Desc : string; Time : Time.Time }.
End WuliuStatusItem.

Module WuliuStatus.
Record t := mk {
  Code : string; Number : string; Status : string;
  CompanyName : string; CompanyLogo : string; CompanyPhone : string;
  CourierName : string; CourierPhone : string;
  UpdatedAt : Time.Time; TimeElapsed : string;
  Items : list WuliuStatusItem.t
}.
End WuliuStatus.

Module WuliuClient.
Record t := mk { AppCode : string; providers : list WuliuProvider.t }.
End WuliuClient.

(** The decoded response of [/getExpressList]. *)
Module ProvidersRet.
Record t := mk { Status : string; Message : string; Result : gmap string string }.
End ProvidersRet.

(** The decoded response of [/exCompany], and an entry of its list. *)
Module CompanyItem.
Record t := mk { Code : string; Name : string }.
End CompanyItem.

Module CompanyRet.
Record t := mk {
  Status : string; Message : string; Number : string; List : list CompanyItem.t
}.
End CompanyRet.

(** The decoded response of [/kdi], its result and an entry of its list. *)
Module TraceItem.
Record t := mk { Time : string; Status : string }.
End TraceItem.

Module TraceResult.
Record t := mk {
  Number : string; Type_ : string; List : list TraceItem.t;
  DeliveryStatus : string; IsSign : string;
  ExpName : string; ExpSite : string; ExpPhone : string;
  Courier : string; CourierPhone : string;
  UpdateTime : string; TakeTime : string; Logo : string
}.
End TraceResult.

Module TraceRet.
Record t := mk { Status : string; Message : string; Result : TraceResult.t }.
End TraceRet.

Module Wuliu.

(** [NewWuliuClient(appCode)] *)
Definition NewWuliuClient (appCode : string) : WuliuClient.t :=
  WuliuClient.mk appCode [].

(** The request for a path, with the Authorization header of the client. *)
Definition get (client : WuliuClient.t) (path : string) : Request :=
  WuliuGET path ("APPCODE " +:+ WuliuClient.AppCode client).

(** [client.request(ctx, path, target)]: the status code of the response is
    not looked at. *)
Definition request {T} (client : WuliuClient.t) (server : Request -> Transport T)
    (path : string) : IO (error + T) :=
  reply ← exchange server (get client path);
  mret match reply with
       | BadRequest err => inl err
       | NetworkFailure err => inl err
       | Responded resp =>
           match Response.Body resp with
           | Malformed err => inl err
           | Json target => inr target
           end
       end.

(** The providers appended while ranging over the entries of the result. *)
Definition collect (entries : list (string * string)) : list WuliuProvider.t :=
  (fun e => WuliuProvider.mk e.1 e.2) <$> entries.

Definition byCode (p q : WuliuProvider.t) : Prop :=
  String.le (WuliuProvider.Code p) (WuliuProvider.Code q).

Global Instance byCode_dec : RelDecision byCode :=
  fun p q => String.le_dec (WuliuProvider.Code p) (WuliuProvider.Code q).

(** [sort.Slice(providers, func(i, j) { providers[i].Code < providers[j].Code })] *)
Definition sortByCode (providers : list WuliuProvider.t) : list WuliuProvider.t :=
  merge_sort byCode providers.

(** [client.GetProviders(ctx)], with the client as it is left. *)
Definition GetProviders (client : WuliuClient.t)
    (server : Request -> Transport ProvidersRet.t)
  : IO (WuliuClient.t * outcome (list WuliuProvider.t)) :=
  if (0 <? length (WuliuClient.providers client))%nat then
    mret (client, Return (WuliuClient.providers client))
  else
    r ← request client server "/getExpressList";
    match r with
    | inl err => mret (client, Fail err)
    | inr ret =>
        if negb (String.eqb (ProvidersRet.Status ret) "200") then
          mret (client,
                Fail ("failed to get wuliu providers: status " +:+ ProvidersRet.Status ret
                      +:+ ", message " +:+ ProvidersRet.Message ret +:+ " returned"))
        else
          let providers := collect (map_to_list (ProvidersRet.Result ret)) in
          if (0 <? length providers)%nat then
            let providers := sortByCode providers in
            mret (WuliuClient.mk (WuliuClient.AppCode client) providers, Return providers)
          else mret (client, Return providers)
    end.

Definition must {A} (r : outcome A) : outcome A :=
  match r with
  | Fail err => Panic err
  | r => r
  end.

(** [client.MustGetProviders(ctx)] *)
Definition MustGetProviders (client : WuliuClient.t)
    (server : Request -> Transport ProvidersRet.t)
  : IO (WuliuClient.t * outcome (list WuliuProvider.t)) :=
  r ← GetProviders client server;
  mret (r.1, must r.2).

(** The path of the request of [GetProvidersForNumber]. *)
Definition exCompany (no : string) : string :=
  let values := Url.Set_ "no" no ∅ in
  "/exCompany?" +:+ Url.Encode values.

(** [client.GetProvidersForNumber(ctx, no)] *)
Definition GetProvidersForNumber (client : WuliuClient.t)
    (server : Request -> Transport CompanyRet.t) (no : string)
  : IO (outcome (list WuliuProvider.t)) :=
  r ← request client server (exCompany no);
  match r with
  | inl err => mret (Fail err)
  | inr ret =>
      if negb (String.eqb (CompanyRet.Status ret) "0") then
        mret (Fail ("failed to get wuliu provider: status " +:+ CompanyRet.Status ret
                    +:+ ", message " +:+ CompanyRet.Message ret +:+ " returned"))
      else
        mret (Return ((fun item => WuliuProvider.mk (CompanyItem.Code item)
                                                    (CompanyItem.Name item))
                        <$> CompanyRet.List ret))
  end.

(** [client.MustGetProvidersForNumber(ctx, no)] *)
Definition MustGetProvidersForNumber (client : WuliuClient.t)
    (server : Request -> Transport CompanyRet.t) (no : string)
  : IO (outcome (list WuliuProvider.t)) :=
  r ← GetProvidersForNumber client server no;
  mret (must r).

(** The [switch] of [GetStatusForNumber] on the delivery status. *)
Definition statusText (status : string) : string :=
  if String.eqb status "0" then "快递收件(揽件)"
  else if String.eqb status "1" then "在途中"
  else if String.eqb status "2" then "正在派件"
  else if String.eqb status "3" then "已签收"
  else if String.eqb status "4" then "派送失败"
  else if String.eqb status "5" then "疑难件"
  else if String.eqb status "6" then "退件签收"
  else status.

Definition loc : Time.Location := Time.FixedZone "UTC+8" (8 * 60 * 60).

Definition toItem (item : TraceItem.t) : WuliuStatusItem.t :=
  let time := (Time.ParseInLocation (TraceItem.Time item) loc).1 in
  WuliuStatusItem.mk (TraceItem.Status item) time.

(** The path of the request of [GetStatusForNumber]. *)
Definition kdi (code no : string) : string :=
  let values := Url.Set_ "no" no (Url.Set_ "type" code ∅) in
  "/kdi?" +:+ Url.Encode values.

(** [client.GetStatusForNumber(ctx, code, no)] *)
Definition GetStatusForNumber (client : WuliuClient.t)
    (server : Request -> Transport TraceRet.t) (code no : string)
  : IO (outcome WuliuStatus.t) :=
  r ← request client server (kdi code no);
  match r with
  | inl err => mret (Fail err)
  | inr ret =>
      if negb (String.eqb (TraceRet.Status ret) "0") then
        mret (Fail ("failed to get wuliu status: status " +:+ TraceRet.Status ret
                    +:+ ", message " +:+ TraceRet.Message ret +:+ " returned"))
      else
        let res := TraceRet.Result ret in
        let status := statusText (TraceResult.DeliveryStatus res) in
        let updatedAt := (Time.ParseInLocation (TraceResult.UpdateTime res) loc).1 in
        let items := toItem <$> TraceResult.List res in
        mret (Return (WuliuStatus.mk (TraceResult.Type_ res) (TraceResult.Number res) status
                        (TraceResult.ExpName res) (TraceResult.Logo res)
                        (TraceResult.ExpPhone res) (TraceResult.Courier res)
                        (TraceResult.CourierPhone res) updatedAt
                        (TraceResult.TakeTime res) items))
  end.

(** [client.MustGetStatusForNumber(ctx, code, no)] *)
Definition MustGetStatusForNumber (client : WuliuClient.t)
    (server : Request -> Transport TraceRet.t) (code no : string)
  : IO (outcome WuliuStatus.t) :=
  r ← GetStatusForNumber client server code no;
  mret (must r).

(** A call on a client, with the server that answers it. *)
Inductive Call : Type :=
  | CallGetProviders (server : Request -> Transport ProvidersRet.t)
  | CallMustGetProviders (server : Request -> Transport ProvidersRet.t)
  | CallGetProvidersForNumber (server : Request -> Transport CompanyRet.t) (no : string)
  | CallMustGetProvidersForNumber (server : Request -> Transport CompanyRet.t) (no : string)
  | CallGetStatusForNumber (server : Request -> Transport TraceRet.t) (code no : string)
  | CallMustGetStatusForNumber (server : Request -> Transport TraceRet.t) (code no : string).

(** The client after a call: only the methods with a pointer receiver can
    change it. *)
Definition call (c : Call) (client : WuliuClient.t) : IO WuliuClient.t :=
  match c with
  | CallGetProviders server => r ← GetProviders client server; mret r.1
  | CallMustGetProviders server => r ← MustGetProviders client server; mret r.1
  | CallGetProvidersForNumber server no =>
      _ ← GetProvidersForNumber client server no; mret client
  | CallMustGetProvidersForNumber server no =>
      _ ← MustGetProvidersForNumber client server no; mret client
  | CallGetStatusForNumber server code no =>
      _ ← GetStatusForNumber client server code no; mret client
  | CallMustGetStatusForNumber server code no =>
      _ ← MustGetStatusForNumber client server code no; mret client
  end.

(** A sequence of calls on one client. *)
Fixpoint calls (cs : list Call) (client : WuliuClient.t) : IO WuliuClient.t :=
  match cs with
  | [] => mret client
  | c :: cs => client ← call c client; calls cs client
  end.

End Wuliu.

(** ** The words of the specification, and sample inputs *)

(** The delivery statuses of the vendor's documentation with their texts. *)
Definition statusTable : list (string * string) :=
  [("0", "快递收件(揽件)"); ("1", "在途中"); ("2", "正在派件"); ("3", "已签收");
   ("4", "派送失败"); ("5", "疑难件"); ("6", "退件签收")].

(** A world whose clock stands still and whose random bytes count up. *)
Definition world0 : World.t :=
  World.mk (fun _ => "2016-02-23T12:46:24Z") (fun i => Z.of_nat i) 0 0 [] [].

(** A server that answers every request with the same status and body. *)
Definition always {T} (status : Z) (body : Decoded T) : Request -> Transport T :=
  fun _ => Responded (Response.mk status body (ApiError.mk "" "")).

Definition wuliu0 : WuliuClient.t := Wuliu.NewWuliuClient "appcode".

(** A successful response of [/kdi] with a delivery status, an update time
    and a list of entries. *)
Definition traceOf (delivery updateTime : string) (list : list TraceItem.t) : TraceRet.t :=
  TraceRet.mk "0" "ok"
    (TraceResult.mk "780098068058" "zto" list delivery "1" "中通快递" "www.zto.com"
                    "95311" "" "" updateTime "2天" "logo.png").

(** The [Status] field that [GetStatusForNumber] returns for a delivery
    status. *)
Definition returnedStatus (delivery : string) : option string :=
  match (Wuliu.GetStatusForNumber wuliu0 (always 200 (Json (traceOf delivery "" [])))
           "zto" "780098068058" world0).1 with
  | Return st => Some (WuliuStatus.Status st)
  | _ => None
  end.

(** Strictly ascending codes, in the order of Go's [<] on strings. *)
Definition codeLt (p q : WuliuProvider.t) : Prop :=
  String.ltb (WuliuProvider.Code p) (WuliuProvider.Code q) = true.

(** A successful response of [/getExpressList]. *)
Definition expressList (entries : list (string * string)) : ProvidersRet.t :=
  ProvidersRet.mk "200" "success" (list_to_map entries).

Definition carriers : ProvidersRet.t :=
  expressList [("zto", "中通快递"); ("sf", "顺丰速运"); ("ems", "EMS")].

Definition sortedCarriers : list WuliuProvider.t :=
  [WuliuProvider.mk "ems" "EMS"; WuliuProvider.mk "sf" "顺丰速运";
   WuliuProvider.mk "zto" "中通快递"].

(** The percent-encoding of the vendor's signature scheme: the unreserved
    characters stay, every other byte (the space too, as %20) becomes [%XX]
    with upper-case hexadecimal digits. *)
Definition unreserved (c : ascii) : bool :=
  existsb (Ascii.eqb c)
    (list_ascii_of_string
       "ABCDEFGHIJKLMNOPQRSTUVWXYZabcdefghijklmnopqrstuvwxyz0123456789-_.~").

Definition hexOf (n : nat) : string :=
  String.substring n 1 "0123456789ABCDEF".

Fixpoint percentEncode (s : string) : string :=
  match s with
  | EmptyString => ""
  | String c rest =>
      (if unreserved c then String c ""
       else "%" +:+ hexOf (nat_of_ascii c / 16) +:+ hexOf (nat_of_ascii c mod 16))
      +:+ percentEncode rest
  end.

(** The canonical query string over a list of keys. *)
Definition canonicalQuery (params : Url.Values) (ks : list string) : string :=
  Join ((fun k => percentEncode k +:+ "=" +:+ percentEncode (Url.Get params k)) <$> ks) "&".

(** The parameters and the secret of the vendor's documented example. *)
Definition vendorExample : Url.Values :=
  list_to_map
    [("Timestamp", ["2016-02-23T12:46:24Z"]); ("Format", ["XML"]);
     ("AccessKeyId", ["testid"]); ("Action", ["DescribeRegions"]);
     ("SignatureMethod", ["HMAC-SHA1"]);
     ("SignatureNonce", ["3ee8c1b8-83d3-44af-a94f-4e0ad82fd6cf"]);
     ("Version", ["2014-05-26"]); ("SignatureVersion", ["1.0"])].

(** Keys in lexicographically ascending order, none twice. *)
Definition ascending (ks : list string) : Prop :=
  StronglySorted (fun a b => String.ltb a b = true) ks.

Definition vendorKeys : list string :=
  ["AccessKeyId"; "Action"; "Format"; "SignatureMethod"; "SignatureNonce";
   "SignatureVersion"; "Timestamp"; "Version"].

(** The request that [request] of the Market client builds in a world, what
    it returns for a reply, and the world it leaves. *)
Definition marketRequest (client : MarketClient.t) (params : Url.Values) (w : World.t)
  : Request :=
  let ts := World.clock w (World.clock_reads w) in
  let nonce := (Market.randomString 64 (World.tick w)).1 in
  let prepared := Market.prepare client ts nonce params in
  MarketGET (Url.Set_ "Signature"
               (Market.signature (MarketClient.accessKeySecret client) prepared) prepared).

Definition statusError (status : Z) (e : ApiError.t) : error :=
  "server responded status " +:+ Itoa status +:+ " with code " +:+ ApiError.Code e
    +:+ " and message " +:+ ApiError.Message e +:+ " returned".

Definition marketResult {T} (reply : Transport T) : error + T :=
  match reply with
  | BadRequest e => inl e
  | NetworkFailure e => inl e
  | Responded resp =>
      if negb (Response.StatusCode resp =? 200) then
        inl (statusError (Response.StatusCode resp) (Response.ErrorBody resp))
      else match Response.Body resp with
           | Malformed e => inl e
           | Json target => inr target
           end
  end.

Definition marketWorld {T} (req : Request) (reply : Transport T) (w : World.t) : World.t :=
  match reply with
  | BadRequest _ => World.draw 64 (World.tick w)
  | _ => World.send req (World.draw 64 (World.tick w))
  end.

(** The parameters of the request of [getProducts] for a page. *)
Definition pageParams (pageNum : Z) : Url.Values :=
  Url.Set_ "pageNum" (Itoa pageNum)
    (Url.Set_ "type" "1" (Url.Set_ "Action" "DescribeApiMetering" ∅)).

(** The page numbers of a list of requests. *)
Definition pagesRequested (reqs : list Request) : list string :=
  (fun req => match req with
              | MarketGET params => Url.Get params "pageNum"
              | WuliuGET _ _ => ""
              end) <$> reqs.

(** A response of DescribeApiMetering that reports success. *)
Definition metering (count pageSize : Z) (items : list MeteringItem.t) : MeteringResp.t :=
  MeteringResp.mk pageSize "" 1 "2015-11-01" count false "" true items.

Definition market0 : MarketClient.t := MarketClient.mk "testid" "testsecret".

Definition item0 : MeteringItem.t := MeteringItem.mk "OCR" 1 "cmapi020020" 1000 42 "次".

(** The number of pages of [count] entries by [pageSize]: the smallest [n]
    with [n * pageSize >= count]. *)
Definition pagesNeeded (count pageSize : Z) : Z := (count + pageSize - 1) / pageSize.

(** The page numbers 1 to [pagesNeeded], as the requests carry them. *)
Definition pagesExpected (count pageSize : Z) : list string :=
  Itoa <$> seqZ 1 (pagesNeeded count pageSize).

(** The overrides of [CreateOrder] read as consecutive pairs: a pair of two
    strings sets a parameter, any other pair does nothing, and so does an
    element left without a partner. *)
Fixpoint overridePairs (overrides : list any) (params : Url.Values) : Url.Values :=
  match overrides with
  | AnyString key :: AnyString value :: rest =>
      overridePairs rest (Url.Set_ key value params)
  | _ :: _ :: rest => overridePairs rest params
  | _ => params
  end.

(** A library whose two routines are stand-ins, for the sample runs. *)
Definition lib0 : GoLib.t Z :=
  GoLib.mk Z (fun x => Itoa x +:+ ".00") (fun s => dquote +:+ s +:+ dquote).

Definition option0 : MarketProductOptionWithPrice.t :=
  MarketProductOptionWithPrice.mk "cmapi020020" "pkg1" 1 "Month" "0.01".

(** A text that holds another one verbatim. *)
Definition contains (text part : string) : Prop :=
  exists pre post, text = pre +:+ part +:+ post.

(** A call that ends with an error whose text holds a code and a message. *)
Definition surfaces {A} (r : outcome A) (code message : string) : Prop :=
  exists e, r = Fail e /\ contains e code /\ contains e message.

(** A call that panics with an error whose text holds a code and a
    message. *)
Definition panicsWith {A} (r : outcome A) (code message : string) : Prop :=
  exists e, r = Panic e /\ contains e code /\ contains e message.

(** A call that returns a result and no error. *)
Definition returns {A} (r : outcome A) : Prop := exists a, r = Return a.

(** A response of status 200 whose body reports a failure by a code and a
    message, as the [{Code, Message}] struct takes it, given what the target
    of the operation takes of it. *)
Definition refused200 {T} (target : T) : Response.t T :=
  Response.mk 200 (Json target) (ApiError.mk "InvalidApi" "Specified api is not found").

(** What the targets of DescribeProduct and of DescribePrice take of such a
    body: the code, and nothing. *)
Definition refusedProduct : ProductResp.t := ProductResp.mk [] "InvalidApi" "" "" "".
Definition refusedPrice : PriceResp.t Z := PriceResp.mk "" 0 0 0 "" 0 "".

(** The error of [getProducts] for a response that reports a failure. *)
Definition meteringError (resp : MeteringResp.t) : error :=
  "failed to get metering info: code " +:+ MeteringResp.Code resp
    +:+ ", message " +:+ MeteringResp.Message resp +:+ " returned".

(** The error that a reply to a page request makes [getProducts] return, if
    any: the error of the request, or the failure that the response
    reports. *)
Definition pageFailure (reply : Transport MeteringResp.t) : option error :=
  match marketResult reply with
  | inl e => Some e
  | inr resp => if negb (MeteringResp.Success resp) then Some (meteringError resp) else None
  end.

(** The error of a transport-level failure as the Wuliu client sees it: a
    request that cannot be built or sent, or a body that does not decode.
    The status code plays no part. *)
Definition wuliuFailure {T} (reply : Transport T) : option error :=
  match reply with
  | BadRequest e => Some e
  | NetworkFailure e => Some e
  | Responded resp =>
      match Response.Body resp with
      | Malformed e => Some e
      | Json _ => None
      end
  end.

(** The same for the Market client, where a status other than 200 is a
    failure of its own and the body is decoded for a status of 200 only. *)
Definition marketFailure {T} (reply : Transport T) : option error :=
  match reply with
  | BadRequest e => Some e
  | NetworkFailure e => Some e
  | Responded resp =>
      if negb (Response.StatusCode resp =? 200) then
        Some (statusError (Response.StatusCode resp) (Response.ErrorBody resp))
      else match Response.Body resp with
           | Malformed e => Some e
           | Json _ => None
           end
  end.

(** What a call that fetches the list yields, by the reply of the server. *)
Definition fetched (client : WuliuClient.t) (reply : Transport ProvidersRet.t)
  : WuliuClient.t * outcome (list WuliuProvider.t) :=
  match reply with
  | BadRequest e => (client, Fail e)
  | NetworkFailure e => (client, Fail e)
  | Responded resp =>
      match Response.Body resp with
      | Malformed e => (client, Fail e)
      | Json ret =>
          if negb (String.eqb (ProvidersRet.Status ret) "200") then
            (client,
             Fail ("failed to get wuliu providers: status " +:+ ProvidersRet.Status ret
                   +:+ ", message " +:+ ProvidersRet.Message ret +:+ " returned"))
          else
            match Wuliu.collect (map_to_list (ProvidersRet.Result ret)) with
            | [] => (client, Return [])
            | ps =>
                (WuliuClient.mk (WuliuClient.AppCode client) (Wuliu.sortByCode ps),
                 Return (Wuliu.sortByCode ps))
            end
      end
  end.

(** A walk stops at the first request whose reply is a failure, with the
    error of that failure. *)
Definition stopsAtFailure (server : Request -> Transport MeteringResp.t)
    (step : IO (outcome (list MarketProduct.t))) : Prop :=
  forall w r w', step w = (r, w') ->
    exists reqs, World.sent w' = World.sent w ++ reqs /\
      forall req e, req ∈ reqs -> pageFailure (server req) = Some e -> r = Fail e.

(** The requests that a run hands to Do, given the world before and the
    world after. *)
Definition requestsOf (before after : World.t) : list Request :=
  drop (length (World.sent before)) (World.sent after).

(** A response of DescribeApiMetering that reports a failure. *)
Definition refusal : MeteringResp.t :=
  MeteringResp.mk 0 "not purchased" 0 "" 0 false "InvalidApi" false [].

(** ** Further properties: definitions *)

(** The characters of a string. *)
Definition chars (s : string) : list ascii := list_ascii_of_string s.

(** A request whose [Signature] parameter is what the server computes from
    the parameters it receives and the secret of the client, and whose
    [AccessKeyId] is the one of the client. *)
Definition verifies (client : MarketClient.t) (req : Request) : Prop :=
  match req with
  | MarketGET params =>
      params !! "Signature"
      = Some [Market.signature (MarketClient.accessKeySecret client) params] /\
      Url.Get params "AccessKeyId" = MarketClient.accessKeyId client
  | WuliuGET _ _ => False
  end.

(** The parameters that [request] of the Market client sets itself. *)
Definition reservedKeys : list string :=
  ["Format"; "Version"; "AccessKeyId"; "SignatureMethod"; "Timestamp";
   "SignatureVersion"; "SignatureNonce"; "Signature"].

(** A computation that only adds requests with a property to the log. *)
Definition sendsOnly {A} (P : Request -> Prop) (step : IO A) : Prop :=
  forall w a w', step w = (a, w') ->
    exists reqs, World.sent w' = World.sent w ++ reqs /\ Forall P reqs.

(** A request made from given parameters by [request] of the Market client
    in a world: each of the eight parameters of [request] holds the one
    value that [request] gives it, which for the timestamp is the reading of
    the clock, for the nonce the 64 characters drawn from the random source
    and for the signature the one of the parameters sent; every other
    parameter is as given. *)
Definition preparedFrom (client : MarketClient.t) (w : World.t) (params : Url.Values)
    (req : Request) : Prop :=
  exists sent,
    req = MarketGET sent /\
    (forall k, k ∉ reservedKeys -> sent !! k = params !! k) /\
    sent !! "Format" = Some ["json"] /\
    sent !! "Version" = Some ["2015-11-01"] /\
    sent !! "AccessKeyId" = Some [MarketClient.accessKeyId client] /\
    sent !! "SignatureMethod" = Some ["HMAC-SHA1"] /\
    sent !! "Timestamp" = Some [World.clock w (World.clock_reads w)] /\
    sent !! "SignatureVersion" = Some ["1.0"] /\
    sent !! "SignatureNonce" = Some [(Market.randomString 64 (World.tick w)).1] /\
    sent !! "Signature"
    = Some [Market.signature (MarketClient.accessKeySecret client) sent].

(** Parameters that differ in the eight parameters of [request] at most. *)
Definition sameButReserved (params params' : Url.Values) : Prop :=
  forall k, k ∉ reservedKeys -> params !! k = params' !! k.

(** The value of an upper-case hexadecimal digit. *)
Definition hexValue (c : ascii) : option Z :=
  let n := byte_of c in
  if (48 <=? n) && (n <=? 57) then Some (n - 48)
  else if (65 <=? n) && (n <=? 70) then Some (n - 55)
  else None.

(** Reading a percent-encoded text back: [%XX] is the byte [XX], any other
    character is itself. *)
Fixpoint percentDecode (s : string) : option string :=
  match s with
  | EmptyString => Some ""
  | String c rest =>
      if Ascii.eqb c "%" then
        match rest with
        | String h (String l rest') =>
            match hexValue h, hexValue l, percentDecode rest' with
            | Some hi, Some lo, Some r => Some (String (char_of (hi * 16 + lo)) r)
            | _, _, _ => None
            end
        | _ => None
        end
      else
        match percentDecode rest with
        | Some r => Some (String c r)
        | None => None
        end
  end.

(** The value that the overrides of [CreateOrder] give a key, if any: the
    one of the last pair of two strings whose first element is the key. *)
Fixpoint lastOverride (key : string) (overrides : list any) : option string :=
  match overrides with
  | AnyString k :: AnyString v :: rest =>
      match lastOverride key rest with
      | Some v' => Some v'
      | None => if String.eqb k key then Some v else None
      end
  | _ :: _ :: rest => lastOverride key rest
  | _ => None
  end.

(** A walk that sends nothing after a request whose reply is a failure, and
    ends with the error of that failure. *)
Definition endsAtFailure (server : Request -> Transport MeteringResp.t)
    (step : IO (outcome (list MarketProduct.t))) : Prop :=
  forall w r w', step w = (r, w') ->
    exists reqs, World.sent w' = World.sent w ++ reqs /\
      forall pre req post e,
        reqs = pre ++ req :: post -> pageFailure (server req) = Some e ->
        post = [] /\ r = Fail e.

(** The product of an entry of the response of DescribeApiMetering. *)
Definition productOf (item : MeteringItem.t) : MarketProduct.t :=
  MarketProduct.mk (MeteringItem.ProductCode item) (MeteringItem.ProductName item)
                   (MeteringItem.TotalQuota item) (MeteringItem.TotalUsage item)
                   (MeteringItem.Unit item).

(** A response of DescribeProduct with two modules, one of them the
    package versions. *)
Definition productSample : ProductResp.t :=
  ProductResp.mk
    [ProductSku.mk "PrePaid"
       [SkuModule.mk
          [Property.mk [PropertyValue.mk "single_string" "100次" "pkg100";
                        PropertyValue.mk "single_string" "1000次" "pkg1000"]
                       "package_version";
           Property.mk [PropertyValue.mk "single_string" "x" "y"] "other"]
          "package_version";
        SkuModule.mk
          [Property.mk [PropertyValue.mk "single_string" "1" "1"] "package_version"]
          "order_num"]]
    "cmapi020020" "文字识别" "OCR" "API".

(** A server that answers the request for page 1 with two pages of one
    product each, and every other request with a failure. *)
Definition secondPageFails : Request -> Transport MeteringResp.t :=
  fun req =>
    match req with
    | MarketGET params =>
        if String.eqb (Url.Get params "pageNum") "1"
        then always 200 (Json (metering 2 1 [item0])) req
        else always 200 (Json refusal) req
    | WuliuGET _ _ => BadRequest "unsupported protocol scheme"
    end.

(** A request of the Wuliu client with the Authorization header of a
    client. *)
Definition authorised (client : WuliuClient.t) (req : Request) : Prop :=
  exists path, req = WuliuGET path ("APPCODE " +:+ WuliuClient.AppCode client).

(** The path that a call of the Wuliu client asks for. *)
Definition pathOf (c : Wuliu.Call) : string :=
  match c with
  | Wuliu.CallGetProviders _ | Wuliu.CallMustGetProviders _ => "/getExpressList"
  | Wuliu.CallGetProvidersForNumber _ no | Wuliu.CallMustGetProvidersForNumber _ no =>
      Wuliu.exCompany no
  | Wuliu.CallGetStatusForNumber _ code no | Wuliu.CallMustGetStatusForNumber _ code no =>
      Wuliu.kdi code no
  end.

(** A wall-clock reading that names a moment that exists. *)
Definition validTime (t : Time.Time) : Prop :=
  0 <= Time.year t <= 9999 /\
  1 <= Time.month t <= 12 /\
  1 <= Time.day t <= Time.daysIn (Time.month t) (Time.year t) /\
  0 <= Time.hour t < 24 /\
  0 <= Time.minute t < 60 /\
  0 <= Time.second t < 60 /\
  0 <= Time.nanosecond t < 10 ^ 9.

(** A time that [GetStatusForNumber] can return: the zero time, or a moment
    that exists, read in UTC+8. *)
Definition zeroOrBeijing (t : Time.Time) : Prop :=
  t = Time.zero \/ (validTime t /\ Time.loc t = Time.FixedZone "UTC+8" 28800).

(** The parameters that [Set] builds from a map of single values. *)
Definition single (m : gmap string string) : Url.Values := (fun v => [v]) <$> m.
(** * Properties *)

(** ** Test vectors of the library models *)

Example sha1_abc :
  Crypto.base64 (Crypto.sha1 (bytes "abc")) = "qZk+NkcGgWq6PiVxeFDCbJzQ2J0=".
Proof. vm_compute. reflexivity. Qed.

Example sha1_three_blocks :
  Crypto.base64 (Crypto.sha1 (replicate 130 97)) = "4c1DfsPopg2zTh0VCk/HOILYO0E=".
Proof. vm_compute. reflexivity. Qed.

Example hmac_rfc2202 :
  Crypto.base64 (Crypto.hmac_sha1 (bytes "Jefe") (bytes "what do ya want for nothing?"))
  = "7/zfauXrL6LSdBbV8YTfnCWafHk=".
Proof. vm_compute. reflexivity. Qed.

Example hmac_long_key :
  Crypto.base64 (Crypto.hmac_sha1 (replicate 80 107) (bytes "msg"))
  = "UAR9RkU5UQ+7uQ6tYAzRcON72P4=".
Proof. vm_compute. reflexivity. Qed.

Example QueryEscape_sample :
  Url.QueryEscape "a b+c*~/=&" = "a+b%2Bc%2A~%2F%3D%26".
Proof. reflexivity. Qed.

Example parse_sample :
  Time.parseDateTime "2023-02-28 7:04:05.25" (Time.FixedZone "UTC+8" 28800)
  = Some {| Time.year := 2023; Time.month := 2; Time.day := 28; Time.hour := 7;
            Time.minute := 4; Time.second := 5; Time.nanosecond := 250000000;
            Time.loc := Time.FixedZone "UTC+8" 28800 |}.
Proof. reflexivity. Qed.

Example parse_bad_day :
  Time.parseDateTime "2023-02-29 07:04:05" Time.UTC = None.
Proof. reflexivity. Qed.

Example parse_run_of_spaces :
  Time.parseDateTime "2023-01-02   10:00:00" Time.UTC
  = Some {| Time.year := 2023; Time.month := 1; Time.day := 2; Time.hour := 10;
            Time.minute := 0; Time.second := 0; Time.nanosecond := 0;
            Time.loc := Time.UTC |}.
Proof. reflexivity. Qed.

Example parse_no_space :
  Time.parseDateTime "2023-01-0210:00:00" Time.UTC = None.
Proof. reflexivity. Qed.

Example parse_extra_text :
  Time.parseDateTime "2023-01-02 10:00:00 " Time.UTC = None.
Proof. reflexivity. Qed.

(** ** The literal text of the layout *)

Lemma length_cutspace s : (String.length (Time.cutspace s) <= String.length s)%nat.
Proof.
  induction s as [|c s IH]; simpl; [lia|].
  destruct (Ascii.eqb c " "); simpl; lia.
Qed.

(** The fuel that [skip] gives its loop is enough: more changes nothing. *)
Lemma skipLoop_fuel fuel fuel' value prefix :
  (String.length prefix <= fuel)%nat -> (String.length prefix <= fuel')%nat ->
  Time.skipLoop fuel value prefix = Time.skipLoop fuel' value prefix.
Proof.
  revert fuel' value prefix.
  induction fuel as [|fuel IH]; intros fuel' value [|p prefix] Hf Hf';
    simpl in Hf, Hf'; try lia; destruct fuel'; try lia; try reflexivity.
  cbn [Time.skipLoop].
  assert (Hcut : (String.length (Time.cutspace (String p prefix)) <= S (String.length prefix))%nat)
    by apply (length_cutspace (String p prefix)).
  destruct (Ascii.eqb p " ") eqn:Hp.
  - assert (Hlen : (String.length (Time.cutspace (String p prefix)) <= String.length prefix)%nat).
    { simpl. rewrite Hp. apply length_cutspace. }
    destruct value as [|v value].
    + apply IH; lia.
    + destruct (negb (Ascii.eqb v " ")); [reflexivity|]. apply IH; lia.
  - destruct value as [|v value]; [reflexivity|].
    destruct (Ascii.eqb v p); [|reflexivity]. apply IH; lia.
Qed.

(** The space of the layout takes a run of spaces of the value, and nothing
    else but the end of the value. *)
Lemma skip_space value :
  Time.skip value " " =
  match value with
  | EmptyString => Some ""
  | String v _ => if Ascii.eqb v " " then Some (Time.cutspace value) else None
  end.
Proof.
  unfold Time.skip. simpl. destruct value as [|v value]; [reflexivity|].
  destruct (Ascii.eqb v " ") eqn:Hv; simpl; [|reflexivity].
  rewrite Hv. destruct (Time.cutspace value); reflexivity.
Qed.

(** Every other byte of the layout takes that byte. *)
Lemma skip_byte value c :
  c <> " "%char ->
  Time.skip value (String c "") =
  match value with
  | EmptyString => None
  | String v rest => if Ascii.eqb v c then Some rest else None
  end.
Proof.
  intros Hc. unfold Time.skip. simpl.
  destruct (Ascii.eqb_spec c " ") as [|_]; [contradiction|].
  destruct value as [|v rest]; [reflexivity|].
  destruct (Ascii.eqb v c); reflexivity.
Qed.

(** ** Running computations *)

Ltac io_unfold :=
  unfold mbind, mret, IO_bind, IO_ret, bind, ret in *.

(** The request of the Wuliu client, by what the exchange yields. *)
Lemma wuliu_request_run {T} client (server : Request -> Transport T) path w :
  Wuliu.request client server path w =
  match server (Wuliu.get client path) with
  | BadRequest e => (inl e, w)
  | NetworkFailure e => (inl e, World.send (Wuliu.get client path) w)
  | Responded resp =>
      (match Response.Body resp with
       | Malformed e => inl e
       | Json target => inr target
       end, World.send (Wuliu.get client path) w)
  end.
Proof.
  unfold Wuliu.request, exchange. io_unfold.
  destruct (server _); reflexivity.
Qed.

(** A call of [GetStatusForNumber] whose response decodes with status "0". *)
Lemma GetStatusForNumber_run client server code no w resp ret :
  server (Wuliu.get client (Wuliu.kdi code no)) = Responded resp ->
  Response.Body resp = Json ret ->
  TraceRet.Status ret = "0" ->
  Wuliu.GetStatusForNumber client server code no w =
  (let res := TraceRet.Result ret in
   Return (WuliuStatus.mk (TraceResult.Type_ res) (TraceResult.Number res)
             (Wuliu.statusText (TraceResult.DeliveryStatus res))
             (TraceResult.ExpName res) (TraceResult.Logo res)
             (TraceResult.ExpPhone res) (TraceResult.Courier res)
             (TraceResult.CourierPhone res)
             (Time.ParseInLocation (TraceResult.UpdateTime res) Wuliu.loc).1
             (TraceResult.TakeTime res) (Wuliu.toItem <$> TraceResult.List res)),
   World.send (Wuliu.get client (Wuliu.kdi code no)) w).
Proof.
  intros Hsrv Hbody Hst. unfold Wuliu.GetStatusForNumber. io_unfold.
  rewrite wuliu_request_run, Hsrv, Hbody, Hst. reflexivity.
Qed.

(** ** The table of delivery statuses *)

Lemma statusText_unknown code :
  code ∉ statusTable.*1 -> Wuliu.statusText code = code.
Proof.
  intros Hn. unfold Wuliu.statusText.
  repeat match goal with
  | |- context [String.eqb code ?c] =>
      destruct (String.eqb_spec code c) as [->|_];
      [exfalso; apply Hn; unfold statusTable; simpl; set_solver|]
  end.
  reflexivity.
Qed.

Lemma statusText_known code :
  code ∈ statusTable.*1 -> Wuliu.statusText code ≠ code.
Proof.
  unfold statusTable. simpl. rewrite !elem_of_cons, elem_of_nil.
  intros [->|[->|[->|[->|[->|[->|[->|[]]]]]]]]; vm_compute; discriminate.
Qed.

(** C6, as the code has it: [GetStatusForNumber] maps each of the seven
    delivery statuses "0" to "6" to its text, and returns any other delivery
    status unchanged in the [Status] field. *)
Theorem delivery_status_table client server code no w resp ret :
  server (Wuliu.get client (Wuliu.kdi code no)) = Responded resp ->
  Response.Body resp = Json ret ->
  TraceRet.Status ret = "0" ->
  exists st,
    (Wuliu.GetStatusForNumber client server code no w).1 = Return st /\
    let delivery := TraceResult.DeliveryStatus (TraceRet.Result ret) in
    (forall text, (delivery, text) ∈ statusTable -> WuliuStatus.Status st = text) /\
    (delivery ∉ statusTable.*1 -> WuliuStatus.Status st = delivery).
Proof.
  intros Hsrv Hbody Hst.
  rewrite (GetStatusForNumber_run _ _ _ _ _ _ _ Hsrv Hbody Hst).
  eexists. split; [reflexivity|]. simpl. split.
  - intros text. unfold statusTable. rewrite !elem_of_cons, elem_of_nil.
    intros [H|[H|[H|[H|[H|[H|[H|[]]]]]]]]; injection H as -> ->; reflexivity.
  - apply statusText_unknown.
Qed.

Lemma delivery_status_table_witness :
  exists st,
    (Wuliu.GetStatusForNumber wuliu0 (always 200 (Json (traceOf "3" "" [])))
       "zto" "780098068058" world0).1 = Return st /\
    (forall text, ("3", text) ∈ statusTable -> WuliuStatus.Status st = text) /\
    ("3" ∉ statusTable.*1 -> WuliuStatus.Status st = "3").
Proof.
  apply (delivery_status_table wuliu0 (always 200 (Json (traceOf "3" "" [])))
           "zto" "780098068058" world0
           (Response.mk 200 (Json (traceOf "3" "" [])) (ApiError.mk "" ""))
           (traceOf "3" "" []));
    reflexivity.
Defined.

Lemma returnedStatus_statusText delivery :
  returnedStatus delivery = Some (Wuliu.statusText delivery).
Proof.
  unfold returnedStatus.
  rewrite (GetStatusForNumber_run wuliu0 _ _ _ _
             (Response.mk 200 (Json (traceOf delivery "" [])) (ApiError.mk "" ""))
             (traceOf delivery "" [])); reflexivity.
Qed.

(** C6 as stated fails: the table has seven entries, so no set of six
    documented statuses leaves every status outside it unchanged. *)
Lemma delivery_status_table_not_six :
  ~ exists documented : list string,
      length documented = 6%nat /\
      forall delivery, delivery ∉ documented -> returnedStatus delivery = Some delivery.
Proof.
  intros (documented & Hlen & Hout).
  assert (Hsub : statusTable.*1 ⊆+ documented).
  { apply NoDup_submseteq.
    - compute_done.
    - intros x Hx. destruct (decide (x ∈ documented)) as [|Hn]; [assumption|].
      specialize (Hout x Hn). rewrite returnedStatus_statusText in Hout.
      injection Hout as Hout. exfalso. exact (statusText_known x Hx Hout). }
  apply submseteq_length in Hsub. rewrite Hlen in Hsub. simpl in Hsub. lia.
Qed.

(** ** Timestamps that do not parse *)

Lemma ParseInLocation_malformed value l :
  Time.parseDateTime value l = None ->
  (Time.ParseInLocation value l).1 = Time.zero /\
  (Time.ParseInLocation value l).2 <> None.
Proof. intros H. unfold Time.ParseInLocation. rewrite H. split; [reflexivity|discriminate]. Qed.

(** C9: when the response has status "0", [GetStatusForNumber] returns a
    status whatever the timestamps are; an [UpdateTime] that does not parse
    in the layout gives the zero time in [UpdatedAt], and an entry whose
    [Time] does not parse gives an item with the zero time at the same
    place, its description kept. *)
Theorem malformed_timestamps_tolerated client server code no w resp ret :
  server (Wuliu.get client (Wuliu.kdi code no)) = Responded resp ->
  Response.Body resp = Json ret ->
  TraceRet.Status ret = "0" ->
  exists st,
    (Wuliu.GetStatusForNumber client server code no w).1 = Return st /\
    let res := TraceRet.Result ret in
    (Time.parseDateTime (TraceResult.UpdateTime res) Wuliu.loc = None ->
     WuliuStatus.UpdatedAt st = Time.zero) /\
    length (WuliuStatus.Items st) = length (TraceResult.List res) /\
    (forall (i : nat) entry,
        TraceResult.List res !! i = Some entry ->
        Time.parseDateTime (TraceItem.Time entry) Wuliu.loc = None ->
        WuliuStatus.Items st !! i
        = Some (WuliuStatusItem.mk (TraceItem.Status entry) Time.zero)).
Proof.
  intros Hsrv Hbody Hst.
  rewrite (GetStatusForNumber_run _ _ _ _ _ _ _ Hsrv Hbody Hst).
  eexists. split; [reflexivity|]. simpl. split; [|split].
  - intros Hbad. apply ParseInLocation_malformed, Hbad.
  - apply length_fmap.
  - intros i entry Hi Hbad. rewrite list_lookup_fmap, Hi. simpl.
    unfold Wuliu.toItem.
    destruct (ParseInLocation_malformed _ _ Hbad) as [-> _]. reflexivity.
Qed.

Lemma malformed_timestamps_tolerated_witness :
  exists st,
    (Wuliu.GetStatusForNumber wuliu0
       (always 200 (Json (traceOf "1" "yesterday"
          [TraceItem.mk "2023-13-01 10:00:00" "已发出"; TraceItem.mk "2023-01-02 10:00:00" "已揽收"])))
       "zto" "780098068058" world0).1 = Return st /\
    WuliuStatus.UpdatedAt st = Time.zero /\
    WuliuStatus.Items st !! 0%nat = Some (WuliuStatusItem.mk "已发出" Time.zero).
Proof.
  pose (ret := traceOf "1" "yesterday"
          [TraceItem.mk "2023-13-01 10:00:00" "已发出"; TraceItem.mk "2023-01-02 10:00:00" "已揽收"]).
  destruct (malformed_timestamps_tolerated wuliu0 (always 200 (Json ret))
              "zto" "780098068058" world0
              (Response.mk 200 (Json ret) (ApiError.mk "" "")) ret
              eq_refl eq_refl eq_refl) as (st & Hrun & Hup & _ & Hitems).
  exists st. split; [exact Hrun|]. split.
  - apply Hup. reflexivity.
  - apply (Hitems 0%nat (TraceItem.mk "2023-13-01 10:00:00" "已发出")); reflexivity.
Defined.

(** A run of spaces between the date and the time parses, as one space
    does. *)
Example run_of_spaces_accepted :
  (Wuliu.GetStatusForNumber wuliu0
     (always 200 (Json (traceOf "1" "2023-01-02  10:00:00"
                          [TraceItem.mk "2023-01-02 9:30:00" "已揽收"])))
     "zto" "780098068058" world0).1
  = Return (WuliuStatus.mk "zto" "780098068058" "在途中" "中通快递" "logo.png" "95311" "" ""
              {| Time.year := 2023; Time.month := 1; Time.day := 2; Time.hour := 10;
                 Time.minute := 0; Time.second := 0; Time.nanosecond := 0;
                 Time.loc := Time.FixedZone "UTC+8" 28800 |}
              "2天"
              [WuliuStatusItem.mk "已揽收"
                 {| Time.year := 2023; Time.month := 1; Time.day := 2; Time.hour := 9;
                    Time.minute := 30; Time.second := 0; Time.nanosecond := 0;
                    Time.loc := Time.FixedZone "UTC+8" 28800 |}]).
Proof. vm_compute. reflexivity. Qed.

(** ** The provider list: order *)

Lemma le_ne_ltb (s1 s2 : string) :
  String.le s1 s2 -> s1 <> s2 -> String.ltb s1 s2 = true.
Proof.
  unfold String.le, String.leb, String.ltb. intros Hle Hne.
  destruct (String.compare s1 s2) eqn:Hc; [|reflexivity|destruct Hle].
  apply String.compare_eq_iff in Hc. contradiction.
Qed.

Lemma ltb_le (s1 s2 : string) : String.ltb s1 s2 = true -> String.le s1 s2.
Proof.
  unfold String.le, String.leb, String.ltb.
  destruct (String.compare s1 s2); [discriminate|intros _; exact I|discriminate].
Qed.

Global Instance byCode_trans : Transitive Wuliu.byCode.
Proof. intros p q r. unfold Wuliu.byCode. apply transitivity. Qed.

Global Instance byCode_total : Total Wuliu.byCode.
Proof. intros p q. unfold Wuliu.byCode. apply (total String.le). Qed.

Lemma collect_codes entries :
  WuliuProvider.Code <$> Wuliu.collect entries = entries.*1.
Proof.
  unfold Wuliu.collect. rewrite <- list_fmap_compose. reflexivity.
Qed.

(** Ascending codes without a repetition are strictly ascending. *)
Lemma byCode_strict l :
  StronglySorted Wuliu.byCode l -> NoDup (WuliuProvider.Code <$> l) ->
  StronglySorted codeLt l.
Proof.
  induction 1 as [|p l Hl IH Hp]; intros Hnd; [constructor|].
  rewrite fmap_cons in Hnd. apply NoDup_cons in Hnd as [Hnotin Hnd].
  constructor; [apply IH, Hnd|].
  rewrite Forall_forall in *. intros q Hq.
  apply le_ne_ltb; [apply Hp, Hq|].
  intros Heq. apply Hnotin. rewrite Heq. apply list_elem_of_fmap_2, Hq.
Qed.

(** The sorted providers of entries with pairwise different keys. *)
Lemma sortByCode_sorted entries :
  NoDup entries.*1 ->
  StronglySorted codeLt (Wuliu.sortByCode (Wuliu.collect entries)).
Proof.
  intros Hnd. apply byCode_strict.
  - apply StronglySorted_merge_sort; apply _.
  - unfold Wuliu.sortByCode.
    rewrite (merge_sort_Permutation Wuliu.byCode (Wuliu.collect entries)).
    rewrite collect_codes. exact Hnd.
Qed.

(** The order in which the entries of the decoded map are ranged over does
    not show in the sorted list. *)
Lemma sortByCode_order (m : gmap string string) entries :
  entries ≡ₚ map_to_list m ->
  Wuliu.sortByCode (Wuliu.collect entries)
  = Wuliu.sortByCode (Wuliu.collect (map_to_list m)).
Proof.
  intros Hperm.
  assert (Hnd : NoDup (map_to_list m).*1) by apply NoDup_fst_map_to_list.
  assert (Hnd' : NoDup entries.*1) by (rewrite Hperm; exact Hnd).
  assert (Hsame : Wuliu.sortByCode (Wuliu.collect entries)
                  ≡ₚ Wuliu.sortByCode (Wuliu.collect (map_to_list m))).
  { unfold Wuliu.sortByCode. rewrite !merge_sort_Permutation.
    unfold Wuliu.collect. rewrite Hperm. reflexivity. }
  apply (StronglySorted_unique_strong Wuliu.byCode); [| | |exact Hsame].
  - intros p q Hp Hq Hpq Hqp.
    assert (Hcode : WuliuProvider.Code p = WuliuProvider.Code q)
      by (apply (anti_symm String.le); assumption).
    rewrite <- Hsame in Hq. unfold Wuliu.sortByCode in Hp, Hq.
    rewrite merge_sort_Permutation in Hp, Hq.
    unfold Wuliu.collect in Hp, Hq.
    apply list_elem_of_fmap in Hp as ([k1 v1] & -> & Hin1).
    apply list_elem_of_fmap in Hq as ([k2 v2] & -> & Hin2).
    simpl in *. subst k2.
    rewrite Hperm in Hin1, Hin2.
    apply elem_of_map_to_list in Hin1, Hin2. congruence.
  - apply StronglySorted_merge_sort; apply _.
  - apply StronglySorted_merge_sort; apply _.
Qed.

Lemma NoDup_fst_functional {A B} (l : list (A * B)) k v1 v2 :
  NoDup l.*1 -> (k, v1) ∈ l -> (k, v2) ∈ l -> v1 = v2.
Proof.
  induction l as [|[k' v'] l IH]; intros Hnd H1 H2; [inversion H1|].
  rewrite fmap_cons in Hnd. apply NoDup_cons in Hnd as [Hnotin Hnd].
  apply elem_of_cons in H1 as [E1|H1]; apply elem_of_cons in H2 as [E2|H2].
  - congruence.
  - injection E1 as -> ->. exfalso. apply Hnotin.
    apply list_elem_of_fmap. exists (k', v2). split; [reflexivity|exact H2].
  - injection E2 as -> ->. exfalso. apply Hnotin.
    apply list_elem_of_fmap. exists (k', v1). split; [reflexivity|exact H1].
  - exact (IH Hnd H1 H2).
Qed.

(** Any sort gives the same list: a permutation of the collected providers
    that is in ascending order of [Code] is the one [sortByCode] returns. *)
Lemma sortByCode_unique entries sorted :
  NoDup entries.*1 ->
  sorted ≡ₚ Wuliu.collect entries ->
  StronglySorted Wuliu.byCode sorted ->
  sorted = Wuliu.sortByCode (Wuliu.collect entries).
Proof.
  intros Hnd Hperm Hsorted.
  apply (StronglySorted_unique_strong Wuliu.byCode).
  - intros p q Hp Hq Hpq Hqp.
    assert (Hcode : WuliuProvider.Code p = WuliuProvider.Code q)
      by (apply (anti_symm String.le); assumption).
    unfold Wuliu.sortByCode in Hq. rewrite merge_sort_Permutation in Hq.
    rewrite Hperm in Hp. unfold Wuliu.collect in Hp, Hq.
    apply list_elem_of_fmap in Hp as ([k1 v1] & -> & Hin1).
    apply list_elem_of_fmap in Hq as ([k2 v2] & -> & Hin2).
    simpl in *. subst k2. f_equal.
    exact (NoDup_fst_functional entries k1 v1 v2 Hnd Hin1 Hin2).
  - exact Hsorted.
  - apply StronglySorted_merge_sort; apply _.
  - unfold Wuliu.sortByCode. rewrite merge_sort_Permutation. exact Hperm.
Qed.

(** ** The provider list: memoization *)

Lemma GetProviders_cached client server w :
  WuliuClient.providers client <> [] ->
  Wuliu.GetProviders client server w
  = ((client, Return (WuliuClient.providers client)), w).
Proof.
  intros Hne. unfold Wuliu.GetProviders.
  destruct (WuliuClient.providers client); [contradiction|reflexivity].
Qed.

Lemma GetProviders_fetch client server w :
  WuliuClient.providers client = [] ->
  Wuliu.GetProviders client server w
  = (fetched client (server (Wuliu.get client "/getExpressList")),
     match server (Wuliu.get client "/getExpressList") with
     | BadRequest _ => w
     | _ => World.send (Wuliu.get client "/getExpressList") w
     end).
Proof.
  intros Hnil. unfold Wuliu.GetProviders, fetched. rewrite Hnil. simpl. io_unfold.
  rewrite wuliu_request_run.
  destruct (server _) as [e|e|resp]; try reflexivity.
  destruct (Response.Body resp) as [e|ret]; try reflexivity.
  destruct (negb _); try reflexivity.
  destruct (Wuliu.collect _); reflexivity.
Qed.

Lemma sortByCode_nonempty ps : ps <> [] -> Wuliu.sortByCode ps <> [].
Proof.
  intros Hne Hnil. apply Hne. apply Permutation_nil_r.
  rewrite <- Hnil. unfold Wuliu.sortByCode. symmetry. apply merge_sort_Permutation.
Qed.

(** The client that a fetch leaves stores the list it returns, when that list
    is not empty, and is the client it started from otherwise. *)
Lemma fetched_store client reply client' r :
  WuliuClient.providers client = [] ->
  fetched client reply = (client', r) ->
  (exists l, l <> [] /\ r = Return l /\
             client' = WuliuClient.mk (WuliuClient.AppCode client) l) \/
  (client' = client /\ (forall l, r = Return l -> l = [])).
Proof.
  intros Hnil. unfold fetched.
  destruct reply as [e|e|resp]; try (intros [= <- <-]; right; split; [reflexivity|discriminate]).
  destruct (Response.Body resp) as [e|ret];
    try (intros [= <- <-]; right; split; [reflexivity|discriminate]).
  destruct (negb _); try (intros [= <- <-]; right; split; [reflexivity|discriminate]).
  destruct (Wuliu.collect _) as [|p ps] eqn:Hc; intros [= <- <-].
  - right. split; [reflexivity|]. intros l [= <-]. reflexivity.
  - left. eexists. split; [|split; reflexivity].
    apply sortByCode_nonempty. discriminate.
Qed.

(** The methods with a value receiver leave the client as it is; the two
    with a pointer receiver change it only by a fetch that returns a list
    that is not empty. *)
Lemma call_client c client w :
  (Wuliu.call c client w).1 = client \/
  (WuliuClient.providers client = [] /\
   exists server l,
     (c = Wuliu.CallGetProviders server \/ c = Wuliu.CallMustGetProviders server) /\
     l <> [] /\
     (Wuliu.GetProviders client server w).1 = (WuliuClient.mk (WuliuClient.AppCode client) l, Return l) /\
     (Wuliu.call c client w).1 = WuliuClient.mk (WuliuClient.AppCode client) l).
Proof.
  destruct c as [server|server|server no|server no|server code no|server code no];
    simpl; io_unfold; unfold Wuliu.MustGetProviders, Wuliu.MustGetProvidersForNumber,
      Wuliu.MustGetStatusForNumber; io_unfold.
  1,2: destruct (WuliuClient.providers client) as [|p ps] eqn:Hp;
    [ rewrite (GetProviders_fetch _ _ _ Hp);
      destruct (fetched client _) as [client' r] eqn:Hf;
      destruct (fetched_store _ _ _ _ Hp Hf) as [(l & Hl & -> & ->)|[-> _]];
      [ right; split; [reflexivity|]; exists server, l; simpl;
        split; [auto|]; split; [exact Hl|]; split; [|reflexivity];
        rewrite (GetProviders_fetch _ _ _ Hp), Hf; reflexivity
      | left; reflexivity ]
    | rewrite GetProviders_cached by (rewrite Hp; discriminate); left; reflexivity ].
  all: left; repeat match goal with |- context [let '(_, _) := ?x in _] => destruct x end;
    reflexivity.
Qed.

Lemma call_stored c client w :
  WuliuClient.providers client <> [] -> (Wuliu.call c client w).1 = client.
Proof.
  intros Hne. destruct (call_client c client w) as [H|[H _]]; [exact H|contradiction].
Qed.

Lemma calls_stored cs client w :
  WuliuClient.providers client <> [] -> (Wuliu.calls cs client w).1 = client.
Proof.
  revert client w. induction cs as [|c cs IH]; intros client w Hne; [reflexivity|].
  simpl. io_unfold.
  destruct (Wuliu.call c client w) as [client' w'] eqn:Hc.
  assert (client' = client) as -> by (rewrite <- (call_stored c client w Hne), Hc; reflexivity).
  apply IH, Hne.
Qed.

(** C7: once a call of [GetProviders] has returned a list that is not empty,
    the client stores that list; after any further calls on the client,
    [GetProviders] returns the stored list and leaves the world as it is (no
    request is sent), whatever the server would answer. And a call changes
    the stored list only if it is a call of [GetProviders] (or of its Must
    form) on a client that stores nothing, whose fetch returns a list that
    is not empty. The calls run one after the other, and the callers do not
    write into the slice they are handed. *)
Theorem providers_memoized client server w client1 w1 l :
  Wuliu.GetProviders client server w = ((client1, Return l), w1) ->
  l <> [] ->
  WuliuClient.providers client1 = l /\
  (forall cs w2 server',
      let client2 := (Wuliu.calls cs client1 w2).1 in
      let w3 := (Wuliu.calls cs client1 w2).2 in
      WuliuClient.providers client2 = l /\
      Wuliu.GetProviders client2 server' w3 = ((client2, Return l), w3)) /\
  (forall c client0 w0,
      WuliuClient.providers (Wuliu.call c client0 w0).1 <> WuliuClient.providers client0 ->
      WuliuClient.providers client0 = [] /\
      exists server0 l0,
        (c = Wuliu.CallGetProviders server0 \/ c = Wuliu.CallMustGetProviders server0) /\
        l0 <> [] /\
        (Wuliu.GetProviders client0 server0 w0).1
        = (WuliuClient.mk (WuliuClient.AppCode client0) l0, Return l0) /\
        WuliuClient.providers (Wuliu.call c client0 w0).1 = l0).
Proof.
  intros Hrun Hl.
  assert (Hstore : WuliuClient.providers client1 = l).
  { destruct (WuliuClient.providers client) as [|p ps] eqn:Hp.
    - rewrite (GetProviders_fetch _ _ _ Hp) in Hrun.
      injection Hrun as Hf _.
      destruct (fetched_store _ _ _ _ Hp Hf) as [(l' & _ & [= ->] & ->)|[_ Hempty]].
      + reflexivity.
      + exfalso. apply Hl, Hempty. reflexivity.
    - rewrite GetProviders_cached in Hrun by (rewrite Hp; discriminate).
      injection Hrun as <- <- _. reflexivity. }
  split; [exact Hstore|]. split.
  - intros cs w2 server'. simpl.
    rewrite calls_stored by (rewrite Hstore; exact Hl).
    split; [exact Hstore|].
    rewrite GetProviders_cached by (rewrite Hstore; exact Hl).
    rewrite Hstore. reflexivity.
  - intros c client0 w0 Hchange.
    destruct (call_client c client0 w0) as [Hsame|(Hnil & server0 & l0 & Hc & Hl0 & Hget & Hcall)].
    + rewrite Hsame in Hchange. contradiction.
    + split; [exact Hnil|]. exists server0, l0.
      repeat split; try assumption. rewrite Hcall. reflexivity.
Qed.

Lemma providers_memoized_witness :
  let client1 := WuliuClient.mk "appcode" sortedCarriers in
  let later :=
    Wuliu.calls [Wuliu.CallGetStatusForNumber (always 500 (Malformed "EOF")) "zto" "1"]
                client1 world0 in
  Wuliu.GetProviders wuliu0 (always 200 (Json carriers)) world0
  = ((client1, Return sortedCarriers),
     World.send (Wuliu.get wuliu0 "/getExpressList") world0) /\
  WuliuClient.providers client1 = sortedCarriers /\
  Wuliu.GetProviders later.1 (fun _ => NetworkFailure "connection refused") later.2
  = ((later.1, Return sortedCarriers), later.2).
Proof.
  assert (Hrun : Wuliu.GetProviders wuliu0 (always 200 (Json carriers)) world0
                 = ((WuliuClient.mk "appcode" sortedCarriers, Return sortedCarriers),
                    World.send (Wuliu.get wuliu0 "/getExpressList") world0))
    by (vm_compute; reflexivity).
  destruct (providers_memoized wuliu0 (always 200 (Json carriers)) world0
              (WuliuClient.mk "appcode" sortedCarriers)
              (World.send (Wuliu.get wuliu0 "/getExpressList") world0)
              sortedCarriers Hrun ltac:(discriminate)) as (Hstore & Hlater & _).
  split; [exact Hrun|]. split; [exact Hstore|].
  apply (Hlater [Wuliu.CallGetStatusForNumber (always 500 (Malformed "EOF")) "zto" "1"]
                world0 (fun _ => NetworkFailure "connection refused")).
Defined.

(** ** The provider list: every list returned is sorted *)

Lemma fetched_sorted client reply client' l :
  StronglySorted codeLt (WuliuClient.providers client) ->
  fetched client reply = (client', Return l) ->
  StronglySorted codeLt l /\ StronglySorted codeLt (WuliuClient.providers client').
Proof.
  intros Hinv. unfold fetched.
  destruct reply as [e|e|resp]; try discriminate.
  destruct (Response.Body resp) as [e|ret]; try discriminate.
  destruct (negb _); try discriminate.
  destruct (Wuliu.collect _) as [|p ps] eqn:Hc; intros [= <- <-].
  - split; [constructor|exact Hinv].
  - rewrite <- Hc. simpl.
    split; apply sortByCode_sorted, NoDup_fst_map_to_list.
Qed.

Lemma GetProviders_sorted client server w client' r w' :
  StronglySorted codeLt (WuliuClient.providers client) ->
  Wuliu.GetProviders client server w = ((client', r), w') ->
  StronglySorted codeLt (WuliuClient.providers client') /\
  (forall l, r = Return l -> StronglySorted codeLt l).
Proof.
  intros Hinv Hrun.
  destruct (WuliuClient.providers client) as [|p ps] eqn:Hp.
  - rewrite (GetProviders_fetch _ _ _ Hp) in Hrun. injection Hrun as Hf _.
    destruct (fetched_store _ _ _ _ Hp Hf) as [(l & _ & -> & _)|[-> Hempty]].
    + assert (Hinv0 : StronglySorted codeLt (WuliuClient.providers client))
        by (rewrite Hp; constructor).
      destruct (fetched_sorted _ _ _ _ Hinv0 Hf) as [Hl Hc].
      split; [exact Hc|]. intros l' [= <-]. exact Hl.
    + split; [rewrite Hp; constructor|].
      intros l ->. rewrite (Hempty l eq_refl). constructor.
  - rewrite GetProviders_cached in Hrun by (rewrite Hp; discriminate).
    injection Hrun as <- <- _. rewrite Hp.
    split; [exact Hinv|]. intros l [= <-]. exact Hinv.
Qed.

Lemma call_sorted c client w :
  StronglySorted codeLt (WuliuClient.providers client) ->
  StronglySorted codeLt (WuliuClient.providers (Wuliu.call c client w).1).
Proof.
  intros Hinv.
  destruct (call_client c client w) as [->|(_ & server & l & _ & _ & Hget & ->)];
    [exact Hinv|].
  destruct (Wuliu.GetProviders client server w) as [[client' r] w'] eqn:Hrun.
  simpl in Hget. injection Hget as -> ->.
  destruct (GetProviders_sorted _ _ _ _ _ _ Hinv Hrun) as [Hc _]. exact Hc.
Qed.

Lemma calls_sorted cs client w :
  StronglySorted codeLt (WuliuClient.providers client) ->
  StronglySorted codeLt (WuliuClient.providers (Wuliu.calls cs client w).1).
Proof.
  revert client w. induction cs as [|c cs IH]; intros client w Hinv; [exact Hinv|].
  simpl. io_unfold.
  pose proof (call_sorted c client w Hinv) as Hc.
  destruct (Wuliu.call c client w) as [client' w']. apply IH, Hc.
Qed.

(** C8: on a client made by [NewWuliuClient] and used through its methods,
    every list that [GetProviders] returns is in strictly ascending order of
    [Code]; the order in which the decoded map is ranged over does not
    matter ([sortByCode_order]). *)
Theorem providers_sorted appCode cs w client w1 server client' l w' :
  Wuliu.calls cs (Wuliu.NewWuliuClient appCode) w = (client, w1) ->
  Wuliu.GetProviders client server w1 = ((client', Return l), w') ->
  StronglySorted codeLt l.
Proof.
  intros Hcalls Hrun.
  assert (Hinv : StronglySorted codeLt (WuliuClient.providers client)).
  { replace client with (Wuliu.calls cs (Wuliu.NewWuliuClient appCode) w).1
      by (rewrite Hcalls; reflexivity).
    apply calls_sorted. constructor. }
  destruct (GetProviders_sorted _ _ _ _ _ _ Hinv Hrun) as [_ Hl]. apply Hl. reflexivity.
Qed.

Lemma providers_sorted_witness :
  Wuliu.GetProviders wuliu0 (always 200 (Json carriers)) world0
  = ((WuliuClient.mk "appcode" sortedCarriers, Return sortedCarriers),
     World.send (Wuliu.get wuliu0 "/getExpressList") world0) /\
  StronglySorted codeLt sortedCarriers.
Proof.
  assert (Hrun : Wuliu.GetProviders wuliu0 (always 200 (Json carriers)) world0
                 = ((WuliuClient.mk "appcode" sortedCarriers, Return sortedCarriers),
                    World.send (Wuliu.get wuliu0 "/getExpressList") world0))
    by (vm_compute; reflexivity).
  split; [exact Hrun|].
  exact (providers_sorted "appcode" [] world0 wuliu0 world0 _ _ _ _ eq_refl Hrun).
Defined.

(** ** The signature of a Market request *)

Example vendor_signature :
  Market.signature "testsecret" vendorExample = "OLeaidS1JvxuMvnyHOwuJ+uX5qY=".
Proof. vm_compute. reflexivity. Qed.

Lemma append_cons c (a b : string) : String c a +:+ b = String c (a +:+ b).
Proof. reflexivity. Qed.

Lemma append_assoc (a b c : string) : (a +:+ b) +:+ c = a +:+ (b +:+ c).
Proof.
  induction a as [|x a IH]; [reflexivity|].
  rewrite !append_cons, IH. reflexivity.
Qed.

Lemma ReplaceAll_app a b old new :
  ReplaceAll (a +:+ b) old new = ReplaceAll a old new +:+ ReplaceAll b old new.
Proof.
  induction a as [|x a IH]; [reflexivity|].
  rewrite append_cons. cbn [ReplaceAll].
  destruct (Ascii.eqb x old); rewrite IH; [|reflexivity].
  symmetry. apply append_assoc.
Qed.

(** One byte through [urlEncode] and through the percent-encoding. *)
Lemma urlEncode_byte (c : ascii) :
  Market.urlEncode (String c "") = percentEncode (String c "").
Proof.
  destruct c as [[] [] [] [] [] [] [] []]; vm_compute; reflexivity.
Qed.

Lemma QueryEscape_cons c s :
  Url.QueryEscape (String c s) = Url.QueryEscape (String c "") +:+ Url.QueryEscape s.
Proof.
  simpl. destruct (Url.shouldEscape c); [|reflexivity].
  destruct (Ascii.eqb c " "); [reflexivity|].
  reflexivity.
Qed.

Lemma percentEncode_cons c s :
  percentEncode (String c s) = percentEncode (String c "") +:+ percentEncode s.
Proof.
  cbn [percentEncode]. rewrite append_assoc. reflexivity.
Qed.

(** [urlEncode] is the percent-encoding: a "+" in the output of
    [QueryEscape] always stands for a space, as a "+" of the input is
    escaped. *)
Lemma urlEncode_percentEncode s : Market.urlEncode s = percentEncode s.
Proof.
  induction s as [|c s IH]; [reflexivity|].
  rewrite percentEncode_cons, <- IH, <- urlEncode_byte.
  unfold Market.urlEncode. rewrite QueryEscape_cons, ReplaceAll_app. reflexivity.
Qed.

Lemma ltb_irrefl (s : string) : String.ltb s s <> true.
Proof.
  unfold String.ltb. pose proof (String.compare_antisym s s) as H.
  destruct (String.compare s s); discriminate.
Qed.

Lemma ascending_le ks : ascending ks -> StronglySorted String.le ks.
Proof.
  induction 1 as [|k ks Hks IH Hk]; constructor; [exact IH|].
  eapply Forall_impl; [exact Hk|]. intros x Hx. apply ltb_le, Hx.
Qed.

Lemma ascending_NoDup ks : ascending ks -> NoDup ks.
Proof.
  induction 1 as [|k ks Hks IH Hk]; constructor; [|exact IH].
  intros Hin. rewrite Forall_forall in Hk. exact (ltb_irrefl k (Hk k Hin)).
Qed.

(** Sorting a list without a repetition gives the one ascending list with
    its elements. *)
Lemma sort_Strings_unique l ks :
  NoDup l -> ascending ks -> (forall k, k ∈ ks <-> k ∈ l) -> sort_Strings l = ks.
Proof.
  intros Hnd Hasc Hsame.
  apply (StronglySorted_unique String.le).
  - apply StronglySorted_merge_sort; apply _.
  - apply ascending_le, Hasc.
  - unfold sort_Strings. rewrite merge_sort_Permutation.
    apply NoDup_Permutation; [exact Hnd|apply ascending_NoDup, Hasc|].
    intros k. symmetry. apply Hsame.
Qed.

Lemma elem_of_keys {V} (m : gmap string V) k : k ∈ Url.keys m <-> is_Some (m !! k).
Proof.
  unfold Url.keys. rewrite list_elem_of_fmap. split.
  - intros ([k' v] & -> & Hin). apply elem_of_map_to_list in Hin. eauto.
  - intros [v Hv]. exists (k, v). split; [reflexivity|]. apply elem_of_map_to_list, Hv.
Qed.

(** The order in which the keys are ranged over does not show in the query
    string. *)
Lemma buildQueryString_order params order :
  order ≡ₚ Url.keys params ->
  Market.buildQueryStringFrom order params = Market.buildQueryString params.
Proof.
  intros Hperm. unfold Market.buildQueryString, Market.buildQueryStringFrom.
  do 2 f_equal.
  apply (StronglySorted_unique String.le).
  - apply StronglySorted_merge_sort; apply _.
  - apply StronglySorted_merge_sort; apply _.
  - unfold sort_Strings. rewrite !merge_sort_Permutation, Hperm. reflexivity.
Qed.

Lemma Encode_order (v : Url.Values) order :
  order ≡ₚ Url.keys v -> Url.EncodeFrom order v = Url.Encode v.
Proof.
  intros Hperm. unfold Url.Encode, Url.EncodeFrom. do 3 f_equal.
  apply (StronglySorted_unique String.le).
  - apply StronglySorted_merge_sort; apply _.
  - apply StronglySorted_merge_sort; apply _.
  - unfold sort_Strings. rewrite !merge_sort_Permutation, Hperm. reflexivity.
Qed.

(** The query string that [buildQueryString] builds is the canonical one. *)
Lemma buildQueryString_canonical params ks :
  ascending ks ->
  (forall k, k ∈ ks <-> is_Some (params !! k) /\ k <> "Signature") ->
  Market.buildQueryString params = canonicalQuery params ks.
Proof.
  intros Hasc Hkeys. unfold Market.buildQueryString, Market.buildQueryStringFrom, canonicalQuery.
  rewrite (sort_Strings_unique _ ks).
  - f_equal. apply list_fmap_ext. intros _ k _.
    rewrite !urlEncode_percentEncode. reflexivity.
  - apply NoDup_filter, NoDup_fst_map_to_list.
  - exact Hasc.
  - intros k. rewrite Hkeys, list_elem_of_filter, elem_of_keys. tauto.
Qed.

(** C3: the signature of a Market request is the base64 text of the
    HMAC-SHA1, under the key [secret&], of [GET&%2F&] followed by the
    percent-encoding of the canonical query string: the parameters other than
    [Signature], in ascending order of their keys, each as the
    percent-encoded key, [=] and the percent-encoded value, joined by [&].
    The value of a key is the one [Get] gives: its first value. *)
Theorem signature_canonical (params : Url.Values) (secret : string) (ks : list string) :
  ascending ks ->
  (forall k, k ∈ ks <-> is_Some (params !! k) /\ k <> "Signature") ->
  Market.signature secret params
  = Crypto.base64
      (Crypto.hmac_sha1 (bytes (secret +:+ "&"))
         (bytes ("GET&%2F&" +:+ percentEncode (canonicalQuery params ks)))).
Proof.
  intros Hasc Hkeys. unfold Market.signature, Market.sign.
  rewrite urlEncode_percentEncode, (buildQueryString_canonical params ks Hasc Hkeys).
  reflexivity.
Qed.

Lemma signature_canonical_witness :
  Market.signature "testsecret" (Url.Set_ "Signature" "stale" vendorExample)
  = Crypto.base64
      (Crypto.hmac_sha1 (bytes "testsecret&")
         (bytes ("GET&%2F&" +:+
                 percentEncode (canonicalQuery (Url.Set_ "Signature" "stale" vendorExample)
                                               vendorKeys)))).
Proof.
  apply (signature_canonical (Url.Set_ "Signature" "stale" vendorExample) "testsecret" vendorKeys).
  - unfold ascending, vendorKeys.
    repeat (constructor; [|repeat (constructor; [vm_compute; reflexivity|]); constructor]).
    constructor.
  - intros k. rewrite <- elem_of_keys.
    assert (Hk : Url.keys (Url.Set_ "Signature" "stale" vendorExample)
                 ≡ₚ "Signature" :: vendorKeys).
    { apply NoDup_Permutation.
      - apply NoDup_fst_map_to_list.
      - vm_compute. repeat (constructor; [compute_done|]). constructor.
      - intros x. vm_compute Url.keys. unfold vendorKeys.
        rewrite !elem_of_cons, !elem_of_nil. tauto. }
    rewrite Hk. unfold vendorKeys. rewrite !elem_of_cons, !elem_of_nil.
    split.
    + intros H. split; [tauto|].
      intros ->. repeat destruct H as [H|H]; try discriminate H. exact H.
    + intros [[H|H] Hne]; [contradiction|exact H].
Defined.

(** ** Requests of the Market client *)

Lemma market_request_run {T} client (server : Request -> Transport T) params w :
  Market.request client server params w
  = (marketResult (server (marketRequest client params w)),
     marketWorld (marketRequest client params w)
                 (server (marketRequest client params w)) w).
Proof.
  unfold Market.request, marketRequest, marketResult, marketWorld, exchange, now,
    Market.randomString, rand_Read, statusError.
  io_unfold. cbv zeta.
  destruct (server _) as [e|e|resp]; reflexivity.
Qed.

Lemma Get_Set_eq params k v : Url.Get (Url.Set_ k v params) k = v.
Proof. unfold Url.Get, Url.Set_. rewrite lookup_insert_eq. reflexivity. Qed.

Lemma Get_Set_ne params k k' v : k <> k' -> Url.Get (Url.Set_ k v params) k' = Url.Get params k'.
Proof. intros Hne. unfold Url.Get, Url.Set_. rewrite lookup_insert_ne by exact Hne. reflexivity. Qed.

(** The request carries the signature of the other parameters it carries. *)
Lemma marketRequest_signed client params w :
  exists prepared,
    marketRequest client params w
    = MarketGET (Url.Set_ "Signature"
                   (Market.signature (MarketClient.accessKeySecret client) prepared) prepared) /\
    Url.Get prepared "AccessKeyId" = MarketClient.accessKeyId client /\
    Url.Get prepared "SignatureMethod" = "HMAC-SHA1" /\
    Url.Get prepared "SignatureVersion" = "1.0" /\
    Url.Get prepared "Format" = "json" /\
    Url.Get prepared "Version" = "2015-11-01" /\
    Url.Get prepared "Timestamp" = World.clock w (World.clock_reads w).
Proof.
  eexists. split; [reflexivity|]. unfold Market.prepare.
  repeat split;
    repeat first [ rewrite Get_Set_eq; reflexivity | rewrite Get_Set_ne by discriminate ].
Qed.

Lemma marketRequest_page client pageNum w :
  pagesRequested [marketRequest client (pageParams pageNum) w] = [Itoa pageNum].
Proof.
  unfold pagesRequested, marketRequest, Market.prepare, pageParams.
  cbv zeta. cbn [fmap list_fmap]. f_equal.
  all: repeat first [ rewrite Get_Set_eq; reflexivity | rewrite Get_Set_ne by discriminate ].
Qed.

(** ** The page walk of [getProducts] *)

Lemma getProducts_S fuel client server pageNum w :
  Market.getProducts (S fuel) client server pageNum w
  = let req := marketRequest client (pageParams pageNum) w in
    let w' := marketWorld req (server req) w in
    match marketResult (server req) with
    | inl err => (Fail err, w')
    | inr resp =>
        if negb (MeteringResp.Success resp) then
          (Fail ("failed to get metering info: code " +:+ MeteringResp.Code resp
                 +:+ ", message " +:+ MeteringResp.Message resp +:+ " returned"), w')
        else if MeteringResp.PageSize resp =? 0 then
          (Panic "runtime error: integer divide by zero", w')
        else
          Market.pageLoop (Market.getProducts fuel client server) fuel
            (wrap64 (MeteringResp.Count resp ÷ MeteringResp.PageSize resp)) 2
            (Market.toProduct <$> MeteringResp.Result resp) w'
    end.
Proof.
  cbn [Market.getProducts]. io_unfold. fold (pageParams pageNum).
  rewrite market_request_run. cbv zeta.
  destruct (marketResult _) as [err|resp]; [reflexivity|].
  destruct (negb _); [reflexivity|].
  destruct (_ =? 0); reflexivity.
Qed.

Lemma wrap64_id x : int_range x -> wrap64 x = x.
Proof.
  unfold int_range, wrap64. intros H. rewrite Z.mod_small; lia.
Qed.

Lemma pagesNeeded_spec count pageSize :
  0 < pageSize ->
  pagesNeeded count pageSize * pageSize >= count /\
  forall n, n * pageSize >= count -> pagesNeeded count pageSize <= n.
Proof.
  intros Hp. unfold pagesNeeded. split.
  - pose proof (Z.mul_succ_div_gt (count + pageSize - 1) pageSize Hp). lia.
  - intros n Hn. apply Z.lt_succ_r, Z.div_lt_upper_bound; lia.
Qed.

Lemma pagesNeeded_multi count pageSize :
  0 < pageSize < count -> 2 <= pagesNeeded count pageSize.
Proof.
  intros H. unfold pagesNeeded. apply Z.div_le_lower_bound; lia.
Qed.

Lemma totalPages_range count pageSize :
  0 < pageSize < count -> count < 2^63 ->
  wrap64 (count ÷ pageSize) = count / pageSize /\ 1 <= count / pageSize.
Proof.
  intros H Hc. rewrite Z.quot_div_nonneg by lia.
  assert (1 <= count / pageSize) by (apply Z.div_le_lower_bound; lia).
  assert (count / pageSize <= count) by (apply Z.div_le_upper_bound; nia).
  split; [|assumption]. apply wrap64_id. unfold int_range. lia.
Qed.

Lemma sent_marketWorld {T} req (resp : Response.t T) w :
  World.sent (marketWorld req (Responded resp) w) = World.sent w ++ [req].
Proof. reflexivity. Qed.

Lemma marketResult_ok {T} (resp : Response.t T) target :
  Response.StatusCode resp = 200 -> Response.Body resp = Json target ->
  marketResult (Responded resp) = inr target.
Proof. intros Hs Hb. unfold marketResult. rewrite Hs, Hb. reflexivity. Qed.

(** A server that reports success and two pages or more on every request:
    each recursive call walks the pages from page 2 again, so no call
    returns; the requests are for the page of the call, then for page 2
    over and over. *)
Lemma getProducts_diverges client server :
  (forall req, exists resp ret,
      server req = Responded resp /\ Response.StatusCode resp = 200 /\
      Response.Body resp = Json ret /\ MeteringResp.Success ret = true /\
      MeteringResp.PageSize ret <> 0 /\
      2 <= wrap64 (MeteringResp.Count ret ÷ MeteringResp.PageSize ret)) ->
  forall fuel pageNum w,
  exists w' reqs,
    Market.getProducts fuel client server pageNum w = (OutOfFuel, w') /\
    World.sent w' = World.sent w ++ reqs /\
    pagesRequested reqs
    = match fuel with O => [] | S f => Itoa pageNum :: replicate f "2" end.
Proof.
  intros Hsrv. induction fuel as [|fuel IH]; intros pageNum w.
  - exists w, []. rewrite app_nil_r. repeat split.
  - rewrite getProducts_S. cbv zeta.
    set (req := marketRequest client (pageParams pageNum) w).
    destruct (Hsrv req) as (resp & ret & Hreply & Hstatus & Hbody & Hok & Hsize & Hpages).
    rewrite Hreply, (marketResult_ok _ _ Hstatus Hbody), Hok. simpl negb. cbv iota.
    destruct (Z.eqb_spec (MeteringResp.PageSize ret) 0) as [|_]; [contradiction|].
    destruct fuel as [|f].
    + eexists _, [req]. split; [reflexivity|]. split; [apply sent_marketWorld|].
      apply marketRequest_page.
    + cbn [Market.pageLoop]. io_unfold.
      destruct (Z.leb_spec 2 (wrap64 (MeteringResp.Count ret ÷ MeteringResp.PageSize ret)))
        as [_|]; [|lia].
      destruct (IH 2 (marketWorld req (Responded resp) w)) as (w' & reqs & -> & Hsent & Hreqs).
      exists w', (req :: reqs). split; [reflexivity|]. split.
      * rewrite Hsent, sent_marketWorld, <- app_assoc. reflexivity.
      * change (pagesRequested (req :: reqs))
          with (pagesRequested [req] ++ pagesRequested reqs).
        unfold req. rewrite marketRequest_page, Hreqs. reflexivity.
Qed.

(** A first response that reports success and fewer than two pages: the call
    returns the products of that response after its one request. *)
Lemma getProducts_single fuel client server pageNum w resp ret :
  let req := marketRequest client (pageParams pageNum) w in
  server req = Responded resp -> Response.StatusCode resp = 200 ->
  Response.Body resp = Json ret -> MeteringResp.Success ret = true ->
  MeteringResp.PageSize ret <> 0 ->
  wrap64 (MeteringResp.Count ret ÷ MeteringResp.PageSize ret) < 2 ->
  Market.getProducts (S (S fuel)) client server pageNum w
  = (Return (Market.toProduct <$> MeteringResp.Result ret),
     marketWorld req (Responded resp) w).
Proof.
  intros req Hreply Hstatus Hbody Hok Hsize Hpages.
  rewrite getProducts_S. cbv zeta. fold req.
  rewrite Hreply, (marketResult_ok _ _ Hstatus Hbody), Hok. simpl negb. cbv iota.
  destruct (Z.eqb_spec (MeteringResp.PageSize ret) 0) as [|_]; [contradiction|].
  cbn [Market.pageLoop].
  destruct (Z.leb_spec 2 (wrap64 (MeteringResp.Count ret ÷ MeteringResp.PageSize ret)))
    as [|_]; [lia|]. reflexivity.
Qed.

Lemma always_metering count pageSize items req :
  exists resp,
    always 200 (Json (metering count pageSize items)) req = Responded resp /\
    Response.StatusCode resp = 200 /\
    Response.Body resp = Json (metering count pageSize items).
Proof. eexists. repeat split. Qed.

(** C1 fails on the code: for a response with [Count > PageSize > 0] and
    some products, returned for every page request, [GetProducts] does not
    return the products of all the pages. With two full pages or more it
    does not return at all, whatever the fuel; with less, it returns the
    products of the first page only. *)
Theorem page_walk_never_aggregates client w fuel count pageSize items :
  0 < pageSize < count -> count < 2^63 -> items <> [] ->
  let server := always 200 (Json (metering count pageSize items)) in
  let r := (Market.GetProducts fuel client server w).1 in
  r <> Return (concat (replicate (Z.to_nat (pagesNeeded count pageSize))
                                 (Market.toProduct <$> items))) /\
  (2 <= count / pageSize -> r = OutOfFuel).
Proof.
  intros Hsize Hcount Hitems server r.
  destruct (totalPages_range count pageSize Hsize Hcount) as [Htotal Hone].
  assert (Hdiv : 2 <= count / pageSize -> r = OutOfFuel).
  { intros Htwo. subst r. unfold Market.GetProducts.
    destruct (getProducts_diverges client server) with (fuel := fuel) (pageNum := 1) (w := w)
      as (w' & reqs & -> & _); [|reflexivity].
    intros req. eexists _, _. split; [reflexivity|].
    repeat split; simpl; [lia|]. rewrite Htotal. exact Htwo. }
  split; [|exact Hdiv].
  destruct (Z.le_gt_cases 2 (count / pageSize)) as [Htwo|Hless].
  { rewrite (Hdiv Htwo). discriminate. }
  subst r. unfold Market.GetProducts.
  destruct fuel as [|[|fuel]].
  - discriminate.
  - rewrite getProducts_S. cbv zeta.
    change (server (marketRequest client (pageParams 1) w))
      with (Responded (Response.mk 200 (Json (metering count pageSize items))
                                   (ApiError.mk "" ""))).
    rewrite (marketResult_ok _ (metering count pageSize items)) by reflexivity.
    cbn [MeteringResp.Success MeteringResp.PageSize metering negb].
    destruct (pageSize =? 0); discriminate.
  - rewrite (getProducts_single fuel client server 1 w _ (metering count pageSize items)
               eq_refl eq_refl eq_refl eq_refl);
      [|simpl; lia|simpl; rewrite Htotal; exact Hless].
    simpl. intros [= Heq]. apply (f_equal length) in Heq.
    pose proof (pagesNeeded_multi count pageSize Hsize) as Hn.
    destruct (Z.to_nat (pagesNeeded count pageSize)) as [|[|n]] eqn:En; [lia|lia|].
    simpl in Heq. rewrite !length_app, length_fmap in Heq.
    destruct items; [contradiction|]. simpl in Heq. lia.
Qed.

Lemma page_walk_never_aggregates_witness :
  (Market.GetProducts 5 market0 (always 200 (Json (metering 4 2 [item0]))) world0).1
  = OutOfFuel.
Proof.
  apply (page_walk_never_aggregates market0 world0 5 4 2 [item0]);
    [lia | lia | discriminate | vm_compute; discriminate].
Defined.

(** C2 fails on the code: for a response with [Count > PageSize > 0]
    returned for every page request, the pages requested are not the pages
    1 to the smallest [n] with [n * PageSize >= Count]. With fewer than two
    full pages only page 1 is requested (the number of pages is rounded
    down); otherwise page 1 is followed by page 2 for as long as the fuel
    lasts. *)
Theorem page_walk_pages client w f count pageSize items :
  0 < pageSize < count -> count < 2^63 ->
  let server := always 200 (Json (metering count pageSize items)) in
  let w' := (Market.GetProducts (3 + f) client server w).2 in
  exists reqs,
    World.sent w' = World.sent w ++ reqs /\
    pagesRequested reqs
    = (if count / pageSize <? 2 then ["1"] else "1" :: replicate (2 + f) "2") /\
    pagesRequested reqs <> pagesExpected count pageSize.
Proof.
  intros Hsize Hcount server w'.
  destruct (totalPages_range count pageSize Hsize Hcount) as [Htotal Hone].
  pose proof (pagesNeeded_multi count pageSize Hsize) as Hn.
  assert (Hlen : length (pagesExpected count pageSize)
                 = Z.to_nat (pagesNeeded count pageSize)).
  { unfold pagesExpected. rewrite length_fmap, length_seqZ. reflexivity. }
  subst w'. unfold Market.GetProducts.
  destruct (Z.ltb_spec (count / pageSize) 2) as [Hless|Htwo].
  - change (3 + f)%nat with (S (S (S f))).
    rewrite (getProducts_single (S f) client server 1 w _ (metering count pageSize items)
               eq_refl eq_refl eq_refl eq_refl);
      [|simpl; lia|simpl; rewrite Htotal; exact Hless].
    exists [marketRequest client (pageParams 1) w].
    split; [apply sent_marketWorld|]. rewrite marketRequest_page.
    split; [reflexivity|].
    intros Heq. apply (f_equal length) in Heq. rewrite Hlen in Heq. simpl in Heq. lia.
  - destruct (getProducts_diverges client server) with (fuel := (3 + f)%nat) (pageNum := 1) (w := w)
      as (w' & reqs & -> & Hsent & Hreqs).
    { intros req. eexists _, _. split; [reflexivity|].
      repeat split; simpl; [lia|]. rewrite Htotal. exact Htwo. }
    exists reqs. split; [exact Hsent|]. rewrite Hreqs.
    split; [reflexivity|].
    intros Heq.
    destruct (Z.le_gt_cases 3 (pagesNeeded count pageSize)) as [Hthree|Hfew].
    + apply (f_equal (fun l => l !! 2%nat)) in Heq.
      unfold pagesExpected in Heq.
      rewrite list_lookup_fmap, lookup_seqZ_lt in Heq by lia.
      simpl in Heq. vm_compute in Heq. discriminate Heq.
    + apply (f_equal length) in Heq. rewrite Hlen in Heq.
      simpl in Heq. rewrite length_replicate in Heq. lia.
Qed.

Lemma page_walk_pages_witness :
  exists reqs,
    World.sent (Market.GetProducts 3 market0 (always 200 (Json (metering 3 2 [item0]))) world0).2
    = World.sent world0 ++ reqs /\
    pagesRequested reqs = ["1"] /\
    pagesRequested reqs <> pagesExpected 3 2.
Proof.
  apply (page_walk_pages market0 world0 0 3 2 [item0]); lia.
Defined.

Example walk_of_3_by_2 :
  let run := Market.GetProducts 4 market0 (always 200 (Json (metering 3 2 [item0]))) world0 in
  run.1 = Return [Market.toProduct item0] /\
  pagesRequested (World.sent run.2) = ["1"] /\
  pagesExpected 3 2 = ["1"; "2"].
Proof. vm_compute. repeat split. Qed.

Example walk_of_4_by_2 :
  let run := Market.GetProducts 6 market0 (always 200 (Json (metering 4 2 [item0]))) world0 in
  run.1 = OutOfFuel /\
  pagesRequested (World.sent run.2) = ["1"; "2"; "2"; "2"; "2"; "2"] /\
  pagesExpected 4 2 = ["1"; "2"].
Proof. vm_compute. repeat split. Qed.

(** ** The overrides of [CreateOrder] *)

Lemma pair_ind {A} (P : list A -> Prop) :
  P [] -> (forall a, P [a]) -> (forall a b l, P l -> P (a :: b :: l)) ->
  forall l, P l.
Proof.
  intros Hnil Hone Hstep.
  assert (H : forall l, P l /\ forall a, P (a :: l)).
  { induction l as [|b l [IH1 IH2]]; split; auto. }
  intros l. apply H.
Qed.

Lemma half_SS (n : nat) : (S (S n) / 2 = S (n / 2))%nat.
Proof.
  change (S (S n)) with (1 * 2 + n)%nat. rewrite Nat.div_add_l by lia. reflexivity.
Qed.

Lemma override_pair (pre : list any) a b rest params (n : nat) :
  length pre = (2 * n)%nat ->
  Market.override (pre ++ a :: b :: rest) params n
  = match a, b with
    | AnyString key, AnyString value => Url.Set_ key value params
    | _, _ => params
    end.
Proof.
  intros Hpre. unfold Market.override.
  rewrite lookup_app_r by lia. rewrite lookup_app_r by lia.
  replace (2 * n - length pre)%nat with 0%nat by lia.
  replace (2 * n + 1 - length pre)%nat with 1%nat by lia.
  simpl. destruct a, b; reflexivity.
Qed.

Lemma overridePairs_cons2 a b rest params :
  overridePairs (a :: b :: rest) params
  = overridePairs rest match a, b with
                       | AnyString key, AnyString value => Url.Set_ key value params
                       | _, _ => params
                       end.
Proof. destruct a, b; reflexivity. Qed.

Lemma loop_overridePairs l :
  forall (pre : list any) (n : nat) params,
    length pre = (2 * n)%nat ->
    foldl (Market.override (pre ++ l)) params (seq n (length l / 2)%nat)
    = overridePairs l params.
Proof.
  induction l as [|a|a b l IH] using pair_ind; intros pre n params Hpre.
  - reflexivity.
  - destruct a; reflexivity.
  - change (length (a :: b :: l)) with (S (S (length l))). rewrite half_SS.
    cbn [seq foldl]. rewrite (override_pair pre a b l params n Hpre).
    rewrite overridePairs_cons2.
    replace (pre ++ a :: b :: l) with ((pre ++ [a; b]) ++ l)
      by (rewrite <- app_assoc; reflexivity).
    apply IH. rewrite length_app. simpl. lia.
Qed.

(** The loop over the indices is the reading by pairs. *)
Lemma applyOverrides_pairs overrides params :
  Market.applyOverrides overrides params = overridePairs overrides params.
Proof.
  unfold Market.applyOverrides.
  apply (loop_overridePairs overrides [] 0%nat params). reflexivity.
Qed.

Lemma CreateOrder_run {float64} (lib : GoLib.t float64) client server option overrides w :
  Market.CreateOrder lib client server option overrides w
  = let token := (Market.randomString 64 w).1 in
    let params := Market.orderParams lib token option overrides in
    let w1 := World.print params (World.draw 64 w) in
    let req := marketRequest client params w1 in
    (match marketResult (server req) with
     | inl err => Fail err
     | inr resp => Return (OrderResp.OrderId resp)
     end, marketWorld req (server req) w1).
Proof.
  unfold Market.CreateOrder. io_unfold.
  unfold Market.randomString at 1, rand_Read, Println. io_unfold. cbv zeta.
  rewrite market_request_run.
  destruct (marketResult _); reflexivity.
Qed.

Lemma stdout_marketWorld {T} req (reply : Transport T) w :
  World.stdout (marketWorld req reply w) = World.stdout w.
Proof. destruct reply; reflexivity. Qed.

(** C10: the parameters that [CreateOrder] prints and then sends are its own
    five parameters with the overrides applied by pairs: a pair of two
    strings sets the parameter of that name, a pair with an element that is
    not a string changes nothing, and neither does a last element without a
    partner. *)
Theorem overrides_by_pairs {float64} (lib : GoLib.t float64) client server option overrides w :
  let token := (Market.randomString 64 w).1 in
  let own := Market.orderParams lib token option [] in
  let params := overridePairs overrides own in
  let run := Market.CreateOrder lib client server option overrides w in
  World.stdout run.2 = World.stdout w ++ [params] /\
  ((forall e, server (marketRequest client params (World.print params (World.draw 64 w)))
              <> BadRequest e) ->
     World.sent run.2
     = World.sent w ++ [marketRequest client params (World.print params (World.draw 64 w))]) /\
  (forall key value rest p,
      overridePairs (AnyString key :: AnyString value :: rest) p
      = overridePairs rest (Url.Set_ key value p)) /\
  (forall a b rest p,
      (forall key value, (a, b) <> (AnyString key, AnyString value)) ->
      overridePairs (a :: b :: rest) p = overridePairs rest p) /\
  (forall a p, overridePairs [a] p = p).
Proof.
  intros token own params run.
  assert (Hparams : Market.orderParams lib token option overrides = params).
  { unfold Market.orderParams. rewrite applyOverrides_pairs. reflexivity. }
  subst run. rewrite CreateOrder_run. cbv zeta. fold token. rewrite Hparams.
  cbn [snd]. split; [|split; [|split; [|split]]].
  - rewrite stdout_marketWorld. reflexivity.
  - intros Hreply.
    destruct (server _) as [e|e|resp] eqn:Hs; [exfalso; exact (Hreply e eq_refl)|..];
      reflexivity.
  - reflexivity.
  - intros a b rest p Hne. destruct a, b; try reflexivity.
    exfalso. exact (Hne _ _ eq_refl).
  - intros a p. destruct a; reflexivity.
Qed.

Example overrides_sample :
  let overrides :=
    [AnyString "PaymentType"; AnyString "HAND"; AnyInt 7; AnyString "skipped";
     AnyString "Region"; AnyNil; AnyString "OrderType"; AnyString "INSTANCE_RENEW";
     AnyString "alone"] in
  let params := Market.applyOverrides overrides (Url.Set_ "PaymentType" "AUTO" ∅) in
  sort_Strings (Url.keys params) = ["OrderType"; "PaymentType"] /\
  Url.Get params "PaymentType" = "HAND" /\
  Url.Get params "OrderType" = "INSTANCE_RENEW".
Proof. vm_compute. repeat split. Qed.

(** ** Errors: the walk of [getProducts] *)

Lemma pageLoop_stops server rec :
  (forall i, stopsAtFailure server (rec i)) ->
  forall fuel totalPages i products,
    stopsAtFailure server (Market.pageLoop rec fuel totalPages i products).
Proof.
  intros Hrec. induction fuel as [|fuel IH]; intros totalPages i products w r w' Hrun.
  - injection Hrun as <- <-. exists []. rewrite app_nil_r. split; [reflexivity|].
    intros req e Hin. inversion Hin.
  - cbn [Market.pageLoop] in Hrun. io_unfold.
    destruct (i <=? totalPages).
    + destruct (rec i w) as [r1 w1] eqn:Hstep.
      destruct (Hrec i w r1 w1 Hstep) as (reqs1 & Hsent1 & Hfail1).
      destruct r1 as [prods|err|msg|].
      * destruct (IH _ _ _ _ _ _ Hrun) as (reqs2 & Hsent2 & Hfail2).
        exists (reqs1 ++ reqs2). split.
        -- rewrite Hsent2, Hsent1, app_assoc. reflexivity.
        -- intros req e Hin Hreq. apply elem_of_app in Hin as [Hin|Hin].
           ++ discriminate (Hfail1 req e Hin Hreq).
           ++ exact (Hfail2 req e Hin Hreq).
      * injection Hrun as <- <-. exists reqs1. split; assumption.
      * injection Hrun as <- <-. exists reqs1. split; assumption.
      * injection Hrun as <- <-. exists reqs1. split; assumption.
    + injection Hrun as <- <-. exists []. rewrite app_nil_r. split; [reflexivity|].
      intros req e Hin. inversion Hin.
Qed.

Lemma getProducts_stops client server fuel :
  forall pageNum, stopsAtFailure server (Market.getProducts fuel client server pageNum).
Proof.
  induction fuel as [|fuel IH]; intros pageNum w r w' Hrun.
  - injection Hrun as <- <-. exists []. rewrite app_nil_r. split; [reflexivity|].
    intros req e Hin. inversion Hin.
  - rewrite getProducts_S in Hrun. cbv zeta in Hrun.
    set (req0 := marketRequest client (pageParams pageNum) w) in *.
    assert (Hone : forall r0 : outcome (list MarketProduct.t),
               (forall e, pageFailure (server req0) = Some e -> r0 = Fail e) ->
               exists reqs,
                 World.sent (marketWorld req0 (server req0) w) = World.sent w ++ reqs /\
                 forall req e, req ∈ reqs -> pageFailure (server req) = Some e -> r0 = Fail e).
    { intros r0 Hr0. destruct (server req0) as [e0|e0|resp] eqn:Hreply.
      - exists []. rewrite app_nil_r. split; [reflexivity|]. intros req e Hin. inversion Hin.
      - exists [req0]. split; [reflexivity|]. intros req e Hin Hreq.
        apply list_elem_of_singleton in Hin as ->. rewrite Hreply in Hreq. exact (Hr0 e Hreq).
      - exists [req0]. split; [reflexivity|]. intros req e Hin Hreq.
        apply list_elem_of_singleton in Hin as ->. rewrite Hreply in Hreq. exact (Hr0 e Hreq). }
    unfold pageFailure in Hone.
    destruct (marketResult (server req0)) as [err|resp] eqn:Hres.
    { injection Hrun as <- <-. apply Hone. intros e [= <-]. reflexivity. }
    destruct (negb (MeteringResp.Success resp)) eqn:Hok.
    { injection Hrun as <- <-. apply Hone. intros e [= <-]. reflexivity. }
    destruct (MeteringResp.PageSize resp =? 0).
    { injection Hrun as <- <-. apply Hone. intros e [=]. }
    destruct (pageLoop_stops server _ (IH) _ _ _ _ _ _ _ Hrun) as (reqs & Hsent & Hfail).
    destruct (Hone r) as (reqs0 & Hsent0 & Hfail0).
    + intros e [=].
    + exists (reqs0 ++ reqs). split.
      * rewrite Hsent, Hsent0, app_assoc. reflexivity.
      * intros req e Hin Hreq. apply elem_of_app in Hin as [Hin|Hin].
        -- destruct (server req0) as [e0|e0|resp0] eqn:Hreply.
           ++ unfold marketWorld in Hsent0.
              apply (f_equal length) in Hsent0. rewrite length_app in Hsent0.
              simpl in Hsent0. destruct reqs0; [inversion Hin|simpl in Hsent0; lia].
           ++ discriminate Hres.
           ++ assert (reqs0 = [req0]) as ->.
              { simpl in Hsent0. apply app_inv_head in Hsent0. congruence. }
              apply list_elem_of_singleton in Hin as ->.
              rewrite Hreply in Hreq. unfold pageFailure in Hreq.
              rewrite Hres, Hok in Hreq. discriminate Hreq.
        -- exact (Hfail req e Hin Hreq).
Qed.

(** ** Errors: what each operation makes of a reply *)

Lemma GetProvidersForNumber_run client server no w :
  Wuliu.GetProvidersForNumber client server no w
  = (match (Wuliu.request client server (Wuliu.exCompany no) w).1 with
     | inl err => Fail err
     | inr ret =>
         if negb (String.eqb (CompanyRet.Status ret) "0") then
           Fail ("failed to get wuliu provider: status " +:+ CompanyRet.Status ret
                 +:+ ", message " +:+ CompanyRet.Message ret +:+ " returned")
         else
           Return ((fun item => WuliuProvider.mk (CompanyItem.Code item) (CompanyItem.Name item))
                     <$> CompanyRet.List ret)
     end, (Wuliu.request client server (Wuliu.exCompany no) w).2).
Proof.
  unfold Wuliu.GetProvidersForNumber. io_unfold.
  destruct (Wuliu.request _ _ _ _) as [[err|ret] w']; [reflexivity|].
  simpl. destruct (negb _); reflexivity.
Qed.

Lemma GetStatusForNumber_failed client server code no w :
  Wuliu.GetStatusForNumber client server code no w
  = (match (Wuliu.request client server (Wuliu.kdi code no) w).1 with
     | inl err => Fail err
     | inr ret =>
         if negb (String.eqb (TraceRet.Status ret) "0") then
           Fail ("failed to get wuliu status: status " +:+ TraceRet.Status ret
                 +:+ ", message " +:+ TraceRet.Message ret +:+ " returned")
         else (Wuliu.GetStatusForNumber client server code no w).1
     end, (Wuliu.request client server (Wuliu.kdi code no) w).2).
Proof.
  unfold Wuliu.GetStatusForNumber. io_unfold.
  destruct (Wuliu.request _ _ _ _) as [[err|ret] w']; [reflexivity|].
  simpl. destruct (negb _); reflexivity.
Qed.

Lemma wuliu_request_result {T} client (server : Request -> Transport T) path w :
  (Wuliu.request client server path w).1
  = match wuliuFailure (server (Wuliu.get client path)) with
    | Some e => inl e
    | None =>
        match server (Wuliu.get client path) with
        | Responded resp =>
            match Response.Body resp with Json target => inr target | Malformed e => inl e end
        | BadRequest e | NetworkFailure e => inl e
        end
    end.
Proof.
  rewrite wuliu_request_run. unfold wuliuFailure.
  destruct (server _) as [e|e|resp]; try reflexivity.
  destruct (Response.Body resp); reflexivity.
Qed.

Lemma market_request_result {T} client (server : Request -> Transport T) params w e :
  marketFailure (server (marketRequest client params w)) = Some e ->
  (Market.request client server params w).1 = inl e.
Proof.
  rewrite market_request_run. unfold marketFailure, marketResult. simpl.
  destruct (server _) as [e0|e0|resp]; try (intros [= <-]; reflexivity).
  destruct (negb _); [intros [= <-]; reflexivity|].
  destruct (Response.Body resp); [intros [= <-]; reflexivity|discriminate].
Qed.

Lemma GetProduct_run client server id w :
  Market.GetProduct client server id w
  = let params := Url.Set_ "Code" id (Url.Set_ "Action" "DescribeProduct" ∅) in
    (match (Market.request client server params w).1 with
     | inl err => Fail err
     | inr resp =>
         Return (MarketProductDetails.mk (ProductResp.Code resp) (ProductResp.Name resp)
                   (ProductResp.ShortDescription resp) (Market.productOptions resp))
     end, (Market.request client server params w).2).
Proof.
  unfold Market.GetProduct. io_unfold. cbv zeta.
  destruct (Market.request _ _ _ _) as [[err|resp] w']; reflexivity.
Qed.

Lemma GetPrice_run {float64} (lib : GoLib.t float64) client server id option w :
  Market.GetPrice lib client server id option w
  = let params :=
      Url.Set_ "Commodity" (Market.priceCommodity lib id option)
        (Url.Set_ "OrderType" "INSTANCE_BUY" (Url.Set_ "Action" "DescribePrice" ∅)) in
    (match (Market.request client server params w).1 with
     | inl err => Fail err
     | inr resp =>
         Return (MarketProductOptionWithPrice.mk id option (PriceResp.Duration resp)
                   (PriceResp.Cycle resp) (GoLib.Sprintf_2f lib (PriceResp.TradePrice resp)))
     end, (Market.request client server params w).2).
Proof.
  unfold Market.GetPrice. io_unfold. cbv zeta.
  destruct (Market.request _ _ _ _) as [[err|resp] w']; reflexivity.
Qed.

Lemma contains_mid (pre part post : string) : contains (pre +:+ part +:+ post) part.
Proof. exists pre, post. reflexivity. Qed.

Lemma contains_end (pre part : string) (a b : string) :
  contains (pre +:+ a +:+ b +:+ part +:+ " returned") part.
Proof.
  exists (pre +:+ a +:+ b), " returned". rewrite !append_assoc. reflexivity.
Qed.

Lemma statusError_surfaces {A} status e :
  surfaces (@Fail A (statusError status e)) (ApiError.Code e) (ApiError.Message e).
Proof.
  eexists. split; [reflexivity|]. unfold statusError. split.
  - exists ("server responded status " +:+ Itoa status +:+ " with code "),
      (" and message " +:+ ApiError.Message e +:+ " returned").
    rewrite !append_assoc. reflexivity.
  - exists ("server responded status " +:+ Itoa status +:+ " with code " +:+ ApiError.Code e
            +:+ " and message "), " returned".
    rewrite !append_assoc. reflexivity.
Qed.

Lemma report_surfaces {A} (pre code message : string) :
  surfaces (@Fail A (pre +:+ code +:+ ", message " +:+ message +:+ " returned")) code message.
Proof.
  eexists. split; [reflexivity|]. split.
  - apply contains_mid.
  - apply contains_end.
Qed.

Lemma GetProducts_failure client server fuel w req e :
  req ∈ requestsOf w (Market.GetProducts fuel client server w).2 ->
  pageFailure (server req) = Some e ->
  (Market.GetProducts fuel client server w).1 = Fail e.
Proof.
  unfold Market.GetProducts, requestsOf.
  destruct (Market.getProducts fuel client server 1 w) as [r w'] eqn:Hrun.
  destruct (getProducts_stops client server fuel 1 w r w' Hrun) as (reqs & Hsent & Hfail).
  simpl. rewrite Hsent, drop_app_length. apply Hfail.
Qed.

(** The Must forms panic with the error of the operation they wrap. *)
Lemma must_panics {A} (r : outcome A) e : r = Fail e -> Wuliu.must r = Panic e.
Proof. intros ->. reflexivity. Qed.

Lemma MustGetStatusForNumber_run client server code no w :
  (Wuliu.MustGetStatusForNumber client server code no w).1
  = Wuliu.must (Wuliu.GetStatusForNumber client server code no w).1.
Proof.
  unfold Wuliu.MustGetStatusForNumber. io_unfold.
  destruct (Wuliu.GetStatusForNumber _ _ _ _ _). reflexivity.
Qed.

Lemma MustGetProvidersForNumber_run client server no w :
  (Wuliu.MustGetProvidersForNumber client server no w).1
  = Wuliu.must (Wuliu.GetProvidersForNumber client server no w).1.
Proof.
  unfold Wuliu.MustGetProvidersForNumber. io_unfold.
  destruct (Wuliu.GetProvidersForNumber _ _ _ _). reflexivity.
Qed.

Lemma MustGetProviders_run client server w :
  (Wuliu.MustGetProviders client server w).1
  = ((Wuliu.GetProviders client server w).1.1,
     Wuliu.must (Wuliu.GetProviders client server w).1.2).
Proof.
  unfold Wuliu.MustGetProviders. io_unfold.
  destruct (Wuliu.GetProviders _ _ _) as [[c r] w']. reflexivity.
Qed.

(** ** C4: failures that the vendor reports *)

Section VendorFailures.
Context {float64 : Type} (lib : GoLib.t float64).

Lemma GetProviders_reports client server w resp ret :
  WuliuClient.providers client = [] ->
  server (Wuliu.get client "/getExpressList") = Responded resp ->
  Response.Body resp = Json ret ->
  ProvidersRet.Status ret <> "200" ->
  surfaces (Wuliu.GetProviders client server w).1.2
           (ProvidersRet.Status ret) (ProvidersRet.Message ret).
Proof.
  intros Hnil Hreply Hbody Hst.
  rewrite (GetProviders_fetch _ _ _ Hnil), Hreply. unfold fetched. rewrite Hbody.
  destruct (String.eqb_spec (ProvidersRet.Status ret) "200") as [|_]; [contradiction|].
  apply report_surfaces.
Qed.

Lemma GetProvidersForNumber_reports client server no w resp ret :
  server (Wuliu.get client (Wuliu.exCompany no)) = Responded resp ->
  Response.Body resp = Json ret ->
  CompanyRet.Status ret <> "0" ->
  surfaces (Wuliu.GetProvidersForNumber client server no w).1
           (CompanyRet.Status ret) (CompanyRet.Message ret).
Proof.
  intros Hreply Hbody Hst.
  rewrite GetProvidersForNumber_run, wuliu_request_run, Hreply, Hbody. simpl.
  destruct (String.eqb_spec (CompanyRet.Status ret) "0") as [|_]; [contradiction|].
  apply report_surfaces.
Qed.

Lemma GetStatusForNumber_reports client server code no w resp ret :
  server (Wuliu.get client (Wuliu.kdi code no)) = Responded resp ->
  Response.Body resp = Json ret ->
  TraceRet.Status ret <> "0" ->
  surfaces (Wuliu.GetStatusForNumber client server code no w).1
           (TraceRet.Status ret) (TraceRet.Message ret).
Proof.
  intros Hreply Hbody Hst.
  rewrite GetStatusForNumber_failed, wuliu_request_run, Hreply, Hbody. simpl.
  destruct (String.eqb_spec (TraceRet.Status ret) "0") as [|_]; [contradiction|].
  apply report_surfaces.
Qed.

Lemma GetProducts_reports client server fuel w req resp ret :
  req ∈ requestsOf w (Market.GetProducts fuel client server w).2 ->
  server req = Responded resp ->
  Response.StatusCode resp = 200 ->
  Response.Body resp = Json ret ->
  MeteringResp.Success ret = false ->
  surfaces (Market.GetProducts fuel client server w).1
           (MeteringResp.Code ret) (MeteringResp.Message ret).
Proof.
  intros Hin Hreply Hstatus Hbody Hfail.
  rewrite (GetProducts_failure client server fuel w req (meteringError ret) Hin).
  - apply report_surfaces.
  - unfold pageFailure. rewrite Hreply, (marketResult_ok _ _ Hstatus Hbody), Hfail.
    reflexivity.
Qed.

Lemma marketFailure_status {T} (resp : Response.t T) :
  Response.StatusCode resp <> 200 ->
  marketFailure (Responded resp)
  = Some (statusError (Response.StatusCode resp) (Response.ErrorBody resp)).
Proof.
  intros Hst. unfold marketFailure.
  destruct (Z.eqb_spec (Response.StatusCode resp) 200) as [|_]; [contradiction|].
  reflexivity.
Qed.

Lemma GetProducts_status client server fuel w req resp :
  req ∈ requestsOf w (Market.GetProducts fuel client server w).2 ->
  server req = Responded resp ->
  Response.StatusCode resp <> 200 ->
  surfaces (Market.GetProducts fuel client server w).1
           (ApiError.Code (Response.ErrorBody resp))
           (ApiError.Message (Response.ErrorBody resp)).
Proof.
  intros Hin Hreply Hstatus.
  rewrite (GetProducts_failure client server fuel w req
             (statusError (Response.StatusCode resp) (Response.ErrorBody resp)) Hin).
  - apply statusError_surfaces.
  - unfold pageFailure, marketResult. rewrite Hreply.
    destruct (Z.eqb_spec (Response.StatusCode resp) 200) as [|_]; [contradiction|].
    reflexivity.
Qed.

Lemma GetProduct_status client server id w resp :
  server (marketRequest client
            (Url.Set_ "Code" id (Url.Set_ "Action" "DescribeProduct" ∅)) w)
  = Responded resp ->
  Response.StatusCode resp <> 200 ->
  surfaces (Market.GetProduct client server id w).1
           (ApiError.Code (Response.ErrorBody resp))
           (ApiError.Message (Response.ErrorBody resp)).
Proof.
  intros Hreply Hstatus. rewrite GetProduct_run. cbv zeta. cbn [fst].
  rewrite (market_request_result _ _ _ _
             (statusError (Response.StatusCode resp) (Response.ErrorBody resp)))
    by (rewrite Hreply; apply marketFailure_status, Hstatus).
  apply statusError_surfaces.
Qed.

Lemma GetPrice_status client server id option w resp :
  server (marketRequest client
            (Url.Set_ "Commodity" (Market.priceCommodity lib id option)
               (Url.Set_ "OrderType" "INSTANCE_BUY" (Url.Set_ "Action" "DescribePrice" ∅))) w)
  = Responded resp ->
  Response.StatusCode resp <> 200 ->
  surfaces (Market.GetPrice lib client server id option w).1
           (ApiError.Code (Response.ErrorBody resp))
           (ApiError.Message (Response.ErrorBody resp)).
Proof.
  intros Hreply Hstatus. rewrite GetPrice_run. cbv zeta. cbn [fst].
  rewrite (market_request_result _ _ _ _
             (statusError (Response.StatusCode resp) (Response.ErrorBody resp)))
    by (rewrite Hreply; apply marketFailure_status, Hstatus).
  apply statusError_surfaces.
Qed.

Lemma CreateOrder_status client server option overrides w resp :
  (let token := (Market.randomString 64 w).1 in
   let params := Market.orderParams lib token option overrides in
   server (marketRequest client params (World.print params (World.draw 64 w))))
  = Responded resp ->
  Response.StatusCode resp <> 200 ->
  surfaces (Market.CreateOrder lib client server option overrides w).1
           (ApiError.Code (Response.ErrorBody resp))
           (ApiError.Message (Response.ErrorBody resp)).
Proof.
  cbv zeta. intros Hreply Hstatus. rewrite CreateOrder_run. cbv zeta. cbn [fst].
  rewrite Hreply. unfold marketResult.
  destruct (Z.eqb_spec (Response.StatusCode resp) 200) as [|_]; [contradiction|].
  apply statusError_surfaces.
Qed.

Lemma must_surfaces {A} (r : outcome A) code message :
  surfaces r code message -> panicsWith (Wuliu.must r) code message.
Proof. intros (e & -> & Hc & Hm). exists e. split; [reflexivity|]. split; assumption. Qed.

Lemma MustGetProviders_reports client server w resp ret :
  WuliuClient.providers client = [] ->
  server (Wuliu.get client "/getExpressList") = Responded resp ->
  Response.Body resp = Json ret ->
  ProvidersRet.Status ret <> "200" ->
  panicsWith (Wuliu.MustGetProviders client server w).1.2
             (ProvidersRet.Status ret) (ProvidersRet.Message ret).
Proof.
  intros Hnil Hreply Hbody Hst.
  pose proof (GetProviders_reports client server w resp ret Hnil Hreply Hbody Hst) as H.
  unfold Wuliu.MustGetProviders. io_unfold.
  destruct (Wuliu.GetProviders client server w) as [[c r] w']. simpl in *.
  apply must_surfaces, H.
Qed.

Lemma MustGetProvidersForNumber_reports client server no w resp ret :
  server (Wuliu.get client (Wuliu.exCompany no)) = Responded resp ->
  Response.Body resp = Json ret ->
  CompanyRet.Status ret <> "0" ->
  panicsWith (Wuliu.MustGetProvidersForNumber client server no w).1
             (CompanyRet.Status ret) (CompanyRet.Message ret).
Proof.
  intros Hreply Hbody Hst.
  pose proof (GetProvidersForNumber_reports client server no w resp ret Hreply Hbody Hst) as H.
  unfold Wuliu.MustGetProvidersForNumber. io_unfold.
  destruct (Wuliu.GetProvidersForNumber client server no w) as [r w']. simpl in *.
  apply must_surfaces, H.
Qed.

Lemma MustGetStatusForNumber_reports client server code no w resp ret :
  server (Wuliu.get client (Wuliu.kdi code no)) = Responded resp ->
  Response.Body resp = Json ret ->
  TraceRet.Status ret <> "0" ->
  panicsWith (Wuliu.MustGetStatusForNumber client server code no w).1
             (TraceRet.Status ret) (TraceRet.Message ret).
Proof.
  intros Hreply Hbody Hst.
  pose proof (GetStatusForNumber_reports client server code no w resp ret Hreply Hbody Hst) as H.
  unfold Wuliu.MustGetStatusForNumber. io_unfold.
  destruct (Wuliu.GetStatusForNumber client server code no w) as [r w']. simpl in *.
  apply must_surfaces, H.
Qed.

(** The three operations whose targets have no field of success take every
    body of a response of status 200 that decodes for a result. *)
Lemma GetProduct_accepts client server id w resp ret :
  server (marketRequest client
            (Url.Set_ "Code" id (Url.Set_ "Action" "DescribeProduct" ∅)) w)
  = Responded resp ->
  Response.StatusCode resp = 200 ->
  Response.Body resp = Json ret ->
  (Market.GetProduct client server id w).1
  = Return (MarketProductDetails.mk (ProductResp.Code ret) (ProductResp.Name ret)
              (ProductResp.ShortDescription ret) (Market.productOptions ret)).
Proof.
  intros Hreply Hstatus Hbody. rewrite GetProduct_run. cbv zeta. cbn [fst].
  rewrite market_request_run. cbn [fst].
  rewrite Hreply, (marketResult_ok _ _ Hstatus Hbody). reflexivity.
Qed.

Lemma GetPrice_accepts client server id option w resp ret :
  server (marketRequest client
            (Url.Set_ "Commodity" (Market.priceCommodity lib id option)
               (Url.Set_ "OrderType" "INSTANCE_BUY" (Url.Set_ "Action" "DescribePrice" ∅))) w)
  = Responded resp ->
  Response.StatusCode resp = 200 ->
  Response.Body resp = Json ret ->
  (Market.GetPrice lib client server id option w).1
  = Return (MarketProductOptionWithPrice.mk id option (PriceResp.Duration ret)
              (PriceResp.Cycle ret) (GoLib.Sprintf_2f lib (PriceResp.TradePrice ret))).
Proof.
  intros Hreply Hstatus Hbody. rewrite GetPrice_run. cbv zeta. cbn [fst].
  rewrite market_request_run. cbn [fst].
  rewrite Hreply, (marketResult_ok _ _ Hstatus Hbody). reflexivity.
Qed.

Lemma CreateOrder_accepts client server option overrides w resp ret :
  (let token := (Market.randomString 64 w).1 in
   let params := Market.orderParams lib token option overrides in
   server (marketRequest client params (World.print params (World.draw 64 w))))
  = Responded resp ->
  Response.StatusCode resp = 200 ->
  Response.Body resp = Json ret ->
  (Market.CreateOrder lib client server option overrides w).1
  = Return (OrderResp.OrderId ret).
Proof.
  cbv zeta. intros Hreply Hstatus Hbody. rewrite CreateOrder_run. cbv zeta. cbn [fst].
  rewrite Hreply, (marketResult_ok _ _ Hstatus Hbody). reflexivity.
Qed.

End VendorFailures.

(** A response of status 200 whose body reports a failure: [GetProduct]
    returns details made of that body and [GetPrice] a price, and neither an
    error. *)
Lemma vendor_failure_200_returned :
  let product := (Market.GetProduct market0 (fun _ => Responded (refused200 refusedProduct))
                    "cmapi020020" world0).1 in
  let price := (Market.GetPrice lib0 market0 (fun _ => Responded (refused200 refusedPrice))
                  "cmapi020020" "pkg1" world0).1 in
  product = Return (MarketProductDetails.mk "InvalidApi" "" "" []) /\
  ~ surfaces product "InvalidApi" "Specified api is not found" /\
  price = Return (MarketProductOptionWithPrice.mk "cmapi020020" "pkg1" 0 "" "0.00") /\
  ~ surfaces price "InvalidApi" "Specified api is not found".
Proof.
  cbv zeta.
  assert (Hproduct : (Market.GetProduct market0 (fun _ => Responded (refused200 refusedProduct))
                        "cmapi020020" world0).1
                     = Return (MarketProductDetails.mk "InvalidApi" "" "" []))
    by (vm_compute; reflexivity).
  assert (Hprice : (Market.GetPrice lib0 market0 (fun _ => Responded (refused200 refusedPrice))
                      "cmapi020020" "pkg1" world0).1
                   = Return (MarketProductOptionWithPrice.mk "cmapi020020" "pkg1" 0 "" "0.00"))
    by (vm_compute; reflexivity).
  split; [exact Hproduct|]. split.
  { rewrite Hproduct. intros (e & He & _). discriminate He. }
  split; [exact Hprice|].
  rewrite Hprice. intros (e & He & _). discriminate He.
Qed.

(** C4: the operations whose decoded response has a field of status or of
    success end with an error that holds the vendor's code and message
    verbatim when that field reports a failure. For the Wuliu client the
    field is [status], the code is that status, and the Must forms panic
    with the same error. For [GetProducts] the field is [Success], on any
    page of the walk. [GetProduct], [GetPrice] and [CreateOrder] decode no
    such field: like [GetProducts] they end with an error that holds the
    code and the message of a response whose status is not 200, and they
    return a result for every response of status 200 that decodes. (A
    client that already stores the providers sends no request.) *)
Theorem vendor_failures_surfaced {float64 : Type} (lib : GoLib.t float64) :
  (forall client server w resp ret,
      WuliuClient.providers client = [] ->
      server (Wuliu.get client "/getExpressList") = Responded resp ->
      Response.Body resp = Json ret ->
      ProvidersRet.Status ret <> "200" ->
      surfaces (Wuliu.GetProviders client server w).1.2
               (ProvidersRet.Status ret) (ProvidersRet.Message ret) /\
      panicsWith (Wuliu.MustGetProviders client server w).1.2
                 (ProvidersRet.Status ret) (ProvidersRet.Message ret)) /\
  (forall client server no w resp ret,
      server (Wuliu.get client (Wuliu.exCompany no)) = Responded resp ->
      Response.Body resp = Json ret ->
      CompanyRet.Status ret <> "0" ->
      surfaces (Wuliu.GetProvidersForNumber client server no w).1
               (CompanyRet.Status ret) (CompanyRet.Message ret) /\
      panicsWith (Wuliu.MustGetProvidersForNumber client server no w).1
                 (CompanyRet.Status ret) (CompanyRet.Message ret)) /\
  (forall client server code no w resp ret,
      server (Wuliu.get client (Wuliu.kdi code no)) = Responded resp ->
      Response.Body resp = Json ret ->
      TraceRet.Status ret <> "0" ->
      surfaces (Wuliu.GetStatusForNumber client server code no w).1
               (TraceRet.Status ret) (TraceRet.Message ret) /\
      panicsWith (Wuliu.MustGetStatusForNumber client server code no w).1
                 (TraceRet.Status ret) (TraceRet.Message ret)) /\
  (forall client server fuel w req resp ret,
      req ∈ requestsOf w (Market.GetProducts fuel client server w).2 ->
      server req = Responded resp ->
      Response.StatusCode resp = 200 ->
      Response.Body resp = Json ret ->
      MeteringResp.Success ret = false ->
      surfaces (Market.GetProducts fuel client server w).1
               (MeteringResp.Code ret) (MeteringResp.Message ret)) /\
  (forall client server fuel w req resp,
      req ∈ requestsOf w (Market.GetProducts fuel client server w).2 ->
      server req = Responded resp ->
      Response.StatusCode resp <> 200 ->
      surfaces (Market.GetProducts fuel client server w).1
               (ApiError.Code (Response.ErrorBody resp))
               (ApiError.Message (Response.ErrorBody resp))) /\
  (forall client server id w resp,
      server (marketRequest client
                (Url.Set_ "Code" id (Url.Set_ "Action" "DescribeProduct" ∅)) w)
      = Responded resp ->
      (Response.StatusCode resp <> 200 ->
       surfaces (Market.GetProduct client server id w).1
                (ApiError.Code (Response.ErrorBody resp))
                (ApiError.Message (Response.ErrorBody resp))) /\
      (forall ret,
          Response.StatusCode resp = 200 -> Response.Body resp = Json ret ->
          returns (Market.GetProduct client server id w).1)) /\
  (forall client server id option w resp,
      server (marketRequest client
                (Url.Set_ "Commodity" (Market.priceCommodity lib id option)
                   (Url.Set_ "OrderType" "INSTANCE_BUY"
                      (Url.Set_ "Action" "DescribePrice" ∅))) w)
      = Responded resp ->
      (Response.StatusCode resp <> 200 ->
       surfaces (Market.GetPrice lib client server id option w).1
                (ApiError.Code (Response.ErrorBody resp))
                (ApiError.Message (Response.ErrorBody resp))) /\
      (forall ret,
          Response.StatusCode resp = 200 -> Response.Body resp = Json ret ->
          returns (Market.GetPrice lib client server id option w).1)) /\
  (forall client server option overrides w resp,
      (let token := (Market.randomString 64 w).1 in
       let params := Market.orderParams lib token option overrides in
       server (marketRequest client params (World.print params (World.draw 64 w))))
      = Responded resp ->
      (Response.StatusCode resp <> 200 ->
       surfaces (Market.CreateOrder lib client server option overrides w).1
                (ApiError.Code (Response.ErrorBody resp))
                (ApiError.Message (Response.ErrorBody resp))) /\
      (forall ret,
          Response.StatusCode resp = 200 -> Response.Body resp = Json ret ->
          returns (Market.CreateOrder lib client server option overrides w).1)).
Proof.
  split; [|split; [|split; [|split; [|split; [|split; [|split]]]]]].
  - intros client server w resp ret Hnil Hreply Hbody Hst. split.
    + eapply GetProviders_reports; eassumption.
    + eapply MustGetProviders_reports; eassumption.
  - intros client server no w resp ret Hreply Hbody Hst. split.
    + eapply GetProvidersForNumber_reports; eassumption.
    + eapply MustGetProvidersForNumber_reports; eassumption.
  - intros client server code no w resp ret Hreply Hbody Hst. split.
    + eapply GetStatusForNumber_reports; eassumption.
    + eapply MustGetStatusForNumber_reports; eassumption.
  - apply GetProducts_reports.
  - apply GetProducts_status.
  - intros client server id w resp Hreply. split.
    + intros Hstatus. eapply GetProduct_status; eassumption.
    + intros ret Hstatus Hbody. eexists.
      eapply GetProduct_accepts; eassumption.
  - intros client server id option w resp Hreply. split.
    + intros Hstatus. eapply GetPrice_status; eassumption.
    + intros ret Hstatus Hbody. eexists.
      eapply GetPrice_accepts; eassumption.
  - intros client server option overrides w resp Hreply. split.
    + intros Hstatus. eapply CreateOrder_status; eassumption.
    + intros ret Hstatus Hbody. eexists.
      eapply (CreateOrder_accepts lib); eassumption.
Qed.

Lemma vendor_failures_surfaced_witness :
  surfaces (Wuliu.GetStatusForNumber wuliu0
              (always 200 (Json (TraceRet.mk "205" "没有信息" (TraceRet.Result (traceOf "" "" [])))))
              "zto" "780098068058" world0).1
           "205" "没有信息" /\
  panicsWith (Wuliu.MustGetStatusForNumber wuliu0
                (always 200 (Json (TraceRet.mk "205" "没有信息" (TraceRet.Result (traceOf "" "" [])))))
                "zto" "780098068058" world0).1
             "205" "没有信息" /\
  surfaces (Market.GetProduct market0
              (fun _ => Responded (Response.mk 403 (Malformed "EOF")
                                     (ApiError.mk "Forbidden" "no access")))
              "cmapi020020" world0).1
           "Forbidden" "no access" /\
  returns (Market.GetProduct market0 (fun _ => Responded (refused200 refusedProduct))
             "cmapi020020" world0).1 /\
  surfaces (Market.GetProducts 2 market0 (always 200 (Json refusal)) world0).1
           "InvalidApi" "not purchased".
Proof.
  destruct (vendor_failures_surfaced lib0)
    as (_ & _ & Hstatus & Hproducts & _ & Hproduct & _).
  split; [|split; [|split; [|split]]].
  - apply (Hstatus wuliu0 _ "zto" "780098068058" world0
             (Response.mk 200 (Json (TraceRet.mk "205" "没有信息"
                                       (TraceRet.Result (traceOf "" "" []))))
                          (ApiError.mk "" ""))
             (TraceRet.mk "205" "没有信息" (TraceRet.Result (traceOf "" "" []))));
      [reflexivity | reflexivity | discriminate].
  - apply (Hstatus wuliu0 _ "zto" "780098068058" world0
             (Response.mk 200 (Json (TraceRet.mk "205" "没有信息"
                                       (TraceRet.Result (traceOf "" "" []))))
                          (ApiError.mk "" ""))
             (TraceRet.mk "205" "没有信息" (TraceRet.Result (traceOf "" "" []))));
      [reflexivity | reflexivity | discriminate].
  - apply (Hproduct market0 _ "cmapi020020" world0
             (Response.mk 403 (Malformed "EOF") (ApiError.mk "Forbidden" "no access")));
      [reflexivity | discriminate].
  - apply (Hproduct market0 (fun _ => Responded (refused200 refusedProduct))
             "cmapi020020" world0 (refused200 refusedProduct) eq_refl)
      with (ret := refusedProduct); reflexivity.
  - apply (Hproducts market0 (always 200 (Json refusal)) 2%nat world0
             (marketRequest market0 (pageParams 1) world0)
             (Response.mk 200 (Json refusal) (ApiError.mk "" "")) refusal);
      [|reflexivity..].
    assert (Hreqs : requestsOf world0
                      (Market.GetProducts 2 market0 (always 200 (Json refusal)) world0).2
                    = [marketRequest market0 (pageParams 1) world0])
      by (vm_compute; reflexivity).
    rewrite Hreqs. apply list_elem_of_singleton. reflexivity.
Defined.

(** ** C5: failures of the transport *)

Lemma marketFailure_pageFailure reply e :
  marketFailure reply = Some e -> pageFailure reply = Some e.
Proof.
  unfold marketFailure, pageFailure, marketResult.
  destruct reply as [e0|e0|resp]; try (intros [= <-]; reflexivity).
  destruct (negb _); [intros [= <-]; reflexivity|].
  destruct (Response.Body resp); [intros [= <-]; reflexivity|discriminate].
Qed.

Lemma wuliu_request_failure {T} client (server : Request -> Transport T) path w e :
  wuliuFailure (server (Wuliu.get client path)) = Some e ->
  (Wuliu.request client server path w).1 = inl e.
Proof. intros H. rewrite wuliu_request_result, H. reflexivity. Qed.

(** C5 as stated fails for the Wuliu client: a response with status 500
    whose body decodes to a successful result makes [GetStatusForNumber]
    return that result and no error. *)
Lemma wuliu_status_500_returns :
  let resp := Response.mk 500 (Json (traceOf "3" "2023-01-02 10:00:00" [])) (ApiError.mk "" "") in
  Response.StatusCode resp = 500 /\
  exists st,
    (Wuliu.GetStatusForNumber wuliu0 (fun _ => Responded resp) "zto" "780098068058" world0).1
    = Return st /\
    WuliuStatus.Status st = "已签收".
Proof.
  split; [reflexivity|]. eexists. split; [vm_compute; reflexivity|reflexivity].
Qed.

(** C5, as the code has it. Both clients return unchanged the error of a
    request that cannot be built or sent and the error of a body that does
    not decode (the Market client decodes only when the status is 200).
    The Market client turns a status other than 200 into an error of its
    own, made of the status and of the code and message of the body. The
    Wuliu client does not look at the status: a body that decodes is
    returned to the operation whatever the status. Every operation returns
    the error of its request as it is; for [GetProducts] this holds for
    every request of the walk. *)
Theorem transport_failures_propagated {float64 : Type} (lib : GoLib.t float64) :
  (forall client server w e,
      WuliuClient.providers client = [] ->
      wuliuFailure (server (Wuliu.get client "/getExpressList")) = Some e ->
      (Wuliu.GetProviders client server w).1.2 = Fail e) /\
  (forall client server no w e,
      wuliuFailure (server (Wuliu.get client (Wuliu.exCompany no))) = Some e ->
      (Wuliu.GetProvidersForNumber client server no w).1 = Fail e) /\
  (forall client server code no w e,
      wuliuFailure (server (Wuliu.get client (Wuliu.kdi code no))) = Some e ->
      (Wuliu.GetStatusForNumber client server code no w).1 = Fail e) /\
  (forall T client (server : Request -> Transport T) path w resp target,
      server (Wuliu.get client path) = Responded resp ->
      Response.Body resp = Json target ->
      (Wuliu.request client server path w).1 = inr target) /\
  (forall client server fuel w e,
      marketFailure (server (marketRequest client (pageParams 1) w)) = Some e ->
      (Market.GetProducts (S fuel) client server w).1 = Fail e) /\
  (forall client server fuel w req e,
      req ∈ requestsOf w (Market.GetProducts fuel client server w).2 ->
      marketFailure (server req) = Some e ->
      (Market.GetProducts fuel client server w).1 = Fail e) /\
  (forall client server id w e,
      marketFailure (server (marketRequest client
                               (Url.Set_ "Code" id (Url.Set_ "Action" "DescribeProduct" ∅)) w))
      = Some e ->
      (Market.GetProduct client server id w).1 = Fail e) /\
  (forall client server id option w e,
      marketFailure (server (marketRequest client
                               (Url.Set_ "Commodity" (Market.priceCommodity lib id option)
                                  (Url.Set_ "OrderType" "INSTANCE_BUY"
                                     (Url.Set_ "Action" "DescribePrice" ∅))) w))
      = Some e ->
      (Market.GetPrice lib client server id option w).1 = Fail e) /\
  (forall client server option overrides w e,
      marketFailure
        (let token := (Market.randomString 64 w).1 in
         let params := Market.orderParams lib token option overrides in
         server (marketRequest client params (World.print params (World.draw 64 w))))
      = Some e ->
      (Market.CreateOrder lib client server option overrides w).1 = Fail e).
Proof.
  split; [|split; [|split; [|split; [|split; [|split; [|split; [|split]]]]]]].
  - intros client server w e Hnil Hfail.
    rewrite (GetProviders_fetch _ _ _ Hnil). cbn [fst snd]. unfold fetched.
    unfold wuliuFailure in Hfail.
    destruct (server _) as [e0|e0|resp]; try (injection Hfail as <-; reflexivity).
    destruct (Response.Body resp); [injection Hfail as <-; reflexivity|discriminate].
  - intros client server no w e Hfail.
    rewrite GetProvidersForNumber_run. cbn [fst].
    rewrite (wuliu_request_failure _ _ _ _ _ Hfail). reflexivity.
  - intros client server code no w e Hfail.
    rewrite GetStatusForNumber_failed. cbn [fst].
    rewrite (wuliu_request_failure _ _ _ _ _ Hfail). reflexivity.
  - intros T client server path w resp target Hreply Hbody.
    rewrite wuliu_request_run, Hreply, Hbody. reflexivity.
  - intros client server fuel w e Hfail.
    unfold Market.GetProducts. rewrite getProducts_S. cbv zeta.
    apply marketFailure_pageFailure in Hfail. unfold pageFailure in Hfail.
    destruct (marketResult _) as [err|resp].
    + injection Hfail as <-. reflexivity.
    + destruct (negb _); [|discriminate]. injection Hfail as <-. reflexivity.
  - intros client server fuel w req e Hin Hfail.
    apply (GetProducts_failure client server fuel w req e Hin).
    apply marketFailure_pageFailure, Hfail.
  - intros client server id w e Hfail.
    rewrite GetProduct_run. cbv zeta. cbn [fst].
    rewrite (market_request_result _ _ _ _ _ Hfail). reflexivity.
  - intros client server id option w e Hfail.
    rewrite GetPrice_run. cbv zeta. cbn [fst].
    rewrite (market_request_result _ _ _ _ _ Hfail). reflexivity.
  - intros client server option overrides w e Hfail. cbv zeta in Hfail.
    rewrite CreateOrder_run. cbv zeta. cbn [fst].
    unfold marketFailure in Hfail. unfold marketResult.
    destruct (server _) as [e0|e0|resp]; try (injection Hfail as <-; reflexivity).
    destruct (negb _); [injection Hfail as <-; reflexivity|].
    destruct (Response.Body resp); [injection Hfail as <-; reflexivity|discriminate].
Qed.

Lemma transport_failures_propagated_witness :
  (Wuliu.GetStatusForNumber wuliu0 (fun _ => NetworkFailure "dial tcp: i/o timeout")
     "zto" "780098068058" world0).1 = Fail "dial tcp: i/o timeout" /\
  (Market.GetProduct market0
     (always 200 (Malformed "invalid character '<' looking for beginning of value"))
     "cmapi020020" world0).1
  = Fail "invalid character '<' looking for beginning of value" /\
  (Market.GetProducts 3 market0
     (fun _ => Responded (Response.mk 503 (Malformed "EOF") (ApiError.mk "Throttling" "slow down")))
     world0).1
  = Fail "server responded status 503 with code Throttling and message slow down returned".
Proof.
  destruct (transport_failures_propagated lib0)
    as (_ & _ & Hstatus & _ & Hproducts & _ & Hproduct & _).
  split; [|split].
  - apply Hstatus. reflexivity.
  - apply Hproduct. reflexivity.
  - apply Hproducts. reflexivity.
Defined.

(** * Further properties of the two clients *)

(** ** [randomString] *)

Lemma length_string_of_list (l : list ascii) :
  String.length (string_of_list_ascii l) = length l.
Proof. induction l as [|c l IH]; simpl; [reflexivity|]. rewrite IH. reflexivity. Qed.

Lemma alphanum_get (i : nat) :
  (i < 62)%nat ->
  exists c, String.get i Market.alphanum = Some c /\ c ∈ chars Market.alphanum.
Proof.
  intros Hi.
  do 62 (destruct i as [|i];
         [eexists; split; [reflexivity|]; compute_done|]).
  lia.
Qed.

Lemma randomString_length (n : nat) (w : World.t) :
  String.length (Market.randomString n w).1 = n.
Proof.
  unfold Market.randomString, rand_Read. io_unfold. cbn [fst].
  rewrite length_string_of_list, !length_fmap, length_seq. reflexivity.
Qed.

(** X1: [randomString(n)] returns a string of exactly [n] characters, each
    of them one of the 62 letters and digits of its alphabet, and takes
    exactly [n] bytes from the random source. *)
Theorem randomString_alphanumeric (n : nat) (w : World.t) :
  String.length (Market.randomString n w).1 = n /\
  (forall c, c ∈ chars (Market.randomString n w).1 -> c ∈ chars Market.alphanum) /\
  (Market.randomString n w).2 = World.draw n w.
Proof.
  unfold Market.randomString, rand_Read. io_unfold. cbn [fst snd].
  split; [|split; [|reflexivity]].
  - rewrite length_string_of_list, !length_fmap, length_seq. reflexivity.
  - intros c. unfold chars at 1. rewrite list_ascii_of_string_of_list_ascii.
    rewrite list_elem_of_fmap. intros (b & -> & _).
    change (Z.of_nat (String.length Market.alphanum)) with 62.
    destruct (alphanum_get (Z.to_nat (b mod 62))) as (c & -> & Hc).
    + pose proof (Z.mod_pos_bound b 62). lia.
    + exact Hc.
Qed.

(** ** The signature and the parameters of a Market request *)

Lemma filter_keys_insert_Signature (params : Url.Values) x k :
  k ∈ filter (fun key => key ≠ "Signature") (Url.keys (Url.Set_ "Signature" x params))
  <-> k ∈ filter (fun key => key ≠ "Signature") (Url.keys params).
Proof.
  rewrite !list_elem_of_filter, !elem_of_keys. unfold Url.Set_.
  split; intros [Hne Hk]; (split; [exact Hne|]).
  - rewrite lookup_insert_ne in Hk by congruence. exact Hk.
  - rewrite lookup_insert_ne by congruence. exact Hk.
Qed.

(** A [Signature] parameter that is already there plays no part in the
    query string that is signed. *)
Lemma buildQueryString_Signature params x :
  Market.buildQueryString (Url.Set_ "Signature" x params) = Market.buildQueryString params.
Proof.
  unfold Market.buildQueryString, Market.buildQueryStringFrom.
  assert (Hkeys : sort_Strings (filter (fun key => key ≠ "Signature")
                                       (Url.keys (Url.Set_ "Signature" x params)))
                  = sort_Strings (filter (fun key => key ≠ "Signature") (Url.keys params))).
  { apply (StronglySorted_unique String.le).
    - apply StronglySorted_merge_sort; apply _.
    - apply StronglySorted_merge_sort; apply _.
    - unfold sort_Strings. rewrite !merge_sort_Permutation.
      apply NoDup_Permutation.
      + apply NoDup_filter, NoDup_fst_map_to_list.
      + apply NoDup_filter, NoDup_fst_map_to_list.
      + intros k. apply filter_keys_insert_Signature. }
  rewrite Hkeys. f_equal. apply list_fmap_ext. intros i k Hk.
  apply list_elem_of_lookup_2 in Hk. unfold sort_Strings in Hk.
  rewrite merge_sort_Permutation in Hk. apply list_elem_of_filter in Hk as [Hne _].
  rewrite Get_Set_ne by congruence. reflexivity.
Qed.

Lemma marketRequest_verifies client params w :
  verifies client (marketRequest client params w).
Proof.
  unfold marketRequest, verifies. cbv zeta. split.
  - unfold Url.Set_ at 1. rewrite lookup_insert_eq. do 2 f_equal.
    unfold Market.signature. rewrite buildQueryString_Signature. reflexivity.
  - unfold Market.prepare.
    repeat first [ rewrite Get_Set_eq; reflexivity | rewrite Get_Set_ne by discriminate ].
Qed.

Lemma requestsOf_app w w' reqs :
  World.sent w' = World.sent w ++ reqs -> requestsOf w w' = reqs.
Proof. intros H. unfold requestsOf. rewrite H. apply drop_app_length. Qed.

Lemma sendsOnly_request {T} (P : Request -> Prop) client (server : Request -> Transport T) params :
  (forall w, P (marketRequest client params w)) ->
  sendsOnly P (Market.request client server params).
Proof.
  intros HP w a w' Hrun. rewrite market_request_run in Hrun. injection Hrun as _ <-.
  destruct (server _) as [e|e|resp].
  - exists []. rewrite app_nil_r. split; [reflexivity|constructor].
  - eexists [_]. split; [reflexivity|]. repeat constructor. apply HP.
  - eexists [_]. split; [reflexivity|]. repeat constructor. apply HP.
Qed.

Lemma sendsOnly_pageLoop (P : Request -> Prop) rec :
  (forall i, sendsOnly P (rec i)) ->
  forall fuel totalPages i products,
    sendsOnly P (Market.pageLoop rec fuel totalPages i products).
Proof.
  intros Hrec. induction fuel as [|fuel IH]; intros totalPages i products w r w' Hrun.
  - injection Hrun as <- <-. exists []. rewrite app_nil_r. split; [reflexivity|constructor].
  - cbn [Market.pageLoop] in Hrun. io_unfold.
    destruct (i <=? totalPages).
    + destruct (rec i w) as [r1 w1] eqn:Hstep.
      destruct (Hrec i w r1 w1 Hstep) as (reqs1 & Hsent1 & HP1).
      destruct r1 as [prods|err|msg|];
        try (injection Hrun as <- <-; exists reqs1; split; assumption).
      destruct (IH _ _ _ _ _ _ Hrun) as (reqs2 & Hsent2 & HP2).
      exists (reqs1 ++ reqs2). split.
      * rewrite Hsent2, Hsent1, app_assoc. reflexivity.
      * apply Forall_app. split; assumption.
    + injection Hrun as <- <-. exists []. rewrite app_nil_r. split; [reflexivity|constructor].
Qed.

Lemma sendsOnly_getProducts (P : Request -> Prop) client server :
  (forall page w, P (marketRequest client (pageParams page) w)) ->
  forall fuel page, sendsOnly P (Market.getProducts fuel client server page).
Proof.
  intros HP. induction fuel as [|fuel IH]; intros page w r w' Hrun.
  - injection Hrun as <- <-. exists []. rewrite app_nil_r. split; [reflexivity|constructor].
  - cbn [Market.getProducts] in Hrun. io_unfold. fold (pageParams page) in Hrun.
    destruct (Market.request client server (pageParams page) w) as [res w1] eqn:Hreq.
    destruct (sendsOnly_request P client server (pageParams page) (HP page) w res w1 Hreq)
      as (reqs1 & Hsent1 & HP1).
    destruct res as [err|resp];
      [injection Hrun as <- <-; exists reqs1; split; assumption|].
    destruct (negb _); [injection Hrun as <- <-; exists reqs1; split; assumption|].
    destruct (_ =? 0); [injection Hrun as <- <-; exists reqs1; split; assumption|].
    destruct (sendsOnly_pageLoop P _ IH _ _ _ _ _ _ _ Hrun) as (reqs2 & Hsent2 & HP2).
    exists (reqs1 ++ reqs2). split.
    + rewrite Hsent2, Hsent1, app_assoc. reflexivity.
    + apply Forall_app. split; assumption.
Qed.

Lemma sendsOnly_CreateOrder {float64 : Type} (lib : GoLib.t float64) (P : Request -> Prop)
    client server option overrides :
  (forall params w, P (marketRequest client params w)) ->
  sendsOnly P (Market.CreateOrder lib client server option overrides).
Proof.
  intros HP w a w' Hrun. rewrite CreateOrder_run in Hrun. cbv zeta in Hrun.
  injection Hrun as _ <-.
  destruct (server _) as [e|e|resp].
  - exists []. rewrite app_nil_r. split; [reflexivity|constructor].
  - eexists [_]. split; [reflexivity|]. repeat constructor. apply HP.
  - eexists [_]. split; [reflexivity|]. repeat constructor. apply HP.
Qed.

Lemma sendsOnly_requestsOf {A} (P : Request -> Prop) (step : IO A) w :
  sendsOnly P step -> Forall P (requestsOf w (step w).2).
Proof.
  intros H. destruct (step w) as [a w'] eqn:Hrun.
  destruct (H w a w' Hrun) as (reqs & Hsent & HP).
  simpl. rewrite (requestsOf_app _ _ _ Hsent). exact HP.
Qed.

(** X2: every request that an operation of the Market client sends passes
    the check of the server: its [Signature] parameter is the signature,
    under the secret of the client, of the parameters the request carries,
    and its [AccessKeyId] is the one of the client. This holds for every
    request of the walk of [GetProducts], and whatever overrides
    [CreateOrder] is given. *)
Theorem requests_verify {float64 : Type} (lib : GoLib.t float64) client w :
  (forall fuel server,
      Forall (verifies client) (requestsOf w (Market.GetProducts fuel client server w).2)) /\
  (forall server id,
      Forall (verifies client) (requestsOf w (Market.GetProduct client server id w).2)) /\
  (forall server id option,
      Forall (verifies client) (requestsOf w (Market.GetPrice lib client server id option w).2)) /\
  (forall server option overrides,
      Forall (verifies client)
             (requestsOf w (Market.CreateOrder lib client server option overrides w).2)).
Proof.
  split; [|split; [|split]].
  - intros fuel server. apply sendsOnly_requestsOf.
    apply sendsOnly_getProducts. intros page w0. apply marketRequest_verifies.
  - intros server id. rewrite GetProduct_run. cbv zeta. cbn [snd].
    apply (sendsOnly_requestsOf (verifies client) (Market.request client server _)).
    apply sendsOnly_request. intros w0. apply marketRequest_verifies.
  - intros server id option. rewrite GetPrice_run. cbv zeta. cbn [snd].
    apply (sendsOnly_requestsOf (verifies client) (Market.request client server _)).
    apply sendsOnly_request. intros w0. apply marketRequest_verifies.
  - intros server option overrides. apply sendsOnly_requestsOf.
    apply sendsOnly_CreateOrder. intros params w0. apply marketRequest_verifies.
Qed.

Lemma lookup_Set_eq (params : Url.Values) k v : Url.Set_ k v params !! k = Some [v].
Proof. unfold Url.Set_. apply lookup_insert_eq. Qed.

Lemma lookup_Set_ne (params : Url.Values) k k' v :
  k <> k' -> Url.Set_ k v params !! k' = params !! k'.
Proof. intros Hne. unfold Url.Set_. apply lookup_insert_ne, Hne. Qed.

Lemma lookup_prepare client ts nonce params k :
  Market.prepare client ts nonce params !! k =
  if decide (k = "SignatureNonce") then Some [nonce]
  else if decide (k = "SignatureVersion") then Some ["1.0"]
  else if decide (k = "Timestamp") then Some [ts]
  else if decide (k = "SignatureMethod") then Some ["HMAC-SHA1"]
  else if decide (k = "AccessKeyId") then Some [MarketClient.accessKeyId client]
  else if decide (k = "Version") then Some ["2015-11-01"]
  else if decide (k = "Format") then Some ["json"]
  else params !! k.
Proof.
  unfold Market.prepare, Url.Set_.
  repeat (destruct (decide _) as [->|?];
          [rewrite lookup_insert_eq; reflexivity | rewrite lookup_insert_ne by congruence]).
  reflexivity.
Qed.

Lemma marketRequest_preparedFrom client params w :
  preparedFrom client w params (marketRequest client params w).
Proof.
  unfold marketRequest. cbv zeta. eexists. split; [reflexivity|].
  split; [|repeat split].
  - intros k Hk. unfold Url.Set_ at 1.
    unfold reservedKeys in Hk. rewrite !not_elem_of_cons in Hk.
    destruct Hk as (? & ? & ? & ? & ? & ? & ? & ? & _).
    rewrite lookup_insert_ne by congruence. rewrite lookup_prepare.
    repeat (destruct (decide _) as [|_]; [congruence|]). reflexivity.
  - unfold Url.Set_ at 1. rewrite lookup_insert_ne by discriminate.
    rewrite lookup_prepare. reflexivity.
  - unfold Url.Set_ at 1. rewrite lookup_insert_ne by discriminate.
    rewrite lookup_prepare. reflexivity.
  - unfold Url.Set_ at 1. rewrite lookup_insert_ne by discriminate.
    rewrite lookup_prepare. reflexivity.
  - unfold Url.Set_ at 1. rewrite lookup_insert_ne by discriminate.
    rewrite lookup_prepare. reflexivity.
  - unfold Url.Set_ at 1. rewrite lookup_insert_ne by discriminate.
    rewrite lookup_prepare. reflexivity.
  - unfold Url.Set_ at 1. rewrite lookup_insert_ne by discriminate.
    rewrite lookup_prepare. reflexivity.
  - unfold Url.Set_ at 1. rewrite lookup_insert_ne by discriminate.
    rewrite lookup_prepare. reflexivity.
  - unfold Url.Set_ at 1. rewrite lookup_insert_eq. do 2 f_equal.
    unfold Market.signature. rewrite buildQueryString_Signature. reflexivity.
Qed.

(** Parameters that differ in [Signature] at most have the same
    signature. *)
Lemma signature_but_Signature secret (params params' : Url.Values) :
  (forall k, k <> "Signature" -> params !! k = params' !! k) ->
  Market.signature secret params = Market.signature secret params'.
Proof.
  intros Hsame. unfold Market.signature. cbv zeta. do 2 f_equal.
  rewrite <- (buildQueryString_Signature params ""),
          <- (buildQueryString_Signature params' "").
  f_equal. apply map_eq. intros k. unfold Url.Set_.
  destruct (decide (k = "Signature")) as [->|Hk].
  - rewrite !lookup_insert_eq. reflexivity.
  - rewrite !lookup_insert_ne by congruence. apply Hsame, Hk.
Qed.

(** The conditions of [preparedFrom] leave one request, and the same one
    for parameters that differ in the eight at most. *)
Lemma preparedFrom_unique client w params params' req req' :
  sameButReserved params params' ->
  preparedFrom client w params req -> preparedFrom client w params' req' -> req = req'.
Proof.
  intros Hsame (sent & -> & Hrest & Hf & Hv & Ha & Hm & Ht & Hsv & Hn & Hsig)
               (sent' & -> & Hrest' & Hf' & Hv' & Ha' & Hm' & Ht' & Hsv' & Hn' & Hsig').
  assert (Hother : forall k, k <> "Signature" -> sent !! k = sent' !! k).
  { intros k Hk.
    destruct (decide (k ∈ reservedKeys)) as [Hin|Hout].
    - unfold reservedKeys in Hin. rewrite !elem_of_cons in Hin.
      destruct Hin as [->|[->|[->|[->|[->|[->|[->|[->|Hnil]]]]]]]]; try congruence.
      inversion Hnil.
    - rewrite Hrest, Hrest' by exact Hout. apply Hsame, Hout. }
  f_equal. apply map_eq. intros k.
  destruct (decide (k = "Signature")) as [->|Hk]; [|apply Hother, Hk].
  rewrite Hsig, Hsig'. do 2 f_equal. apply signature_but_Signature, Hother.
Qed.

Lemma marketRequest_reserved client params params' w :
  sameButReserved params params' ->
  marketRequest client params w = marketRequest client params' w.
Proof.
  intros Hsame.
  apply (preparedFrom_unique client w params params' _ _ Hsame);
    apply marketRequest_preparedFrom.
Qed.

Lemma marketRequest_print client params printed w :
  marketRequest client params (World.print printed w) = marketRequest client params w.
Proof. reflexivity. Qed.

Lemma requestsOf_marketWorld {T} req (reply : Transport T) w0 w :
  World.sent w = World.sent w0 ->
  requestsOf w0 (marketWorld req reply w)
  = match reply with BadRequest _ => [] | _ => [req] end.
Proof.
  intros Hsent. apply requestsOf_app.
  destruct reply; simpl; rewrite <- ?Hsent, ?app_nil_r; reflexivity.
Qed.

(** X3: each of the eight parameters that [request] sets (Format, Version,
    AccessKeyId, SignatureMethod, Timestamp, SignatureVersion,
    SignatureNonce, Signature) is sent with the one value that [request]
    gives it, whatever the caller has set under that name: the timestamp is
    the reading of the clock, the nonce the 64 characters drawn from the
    random source, the signature the one of the parameters sent. Every
    other parameter is sent as the caller has set it. So parameters that
    differ in the eight at most make [request] do the same, and overrides
    of [CreateOrder] that differ in the eight at most give the same result
    and the same request. *)
Theorem reserved_parameters_win {float64 : Type} (lib : GoLib.t float64) client w :
  (forall T (server : Request -> Transport T) params,
      Forall (preparedFrom client w params)
             (requestsOf w (Market.request client server params w).2)) /\
  (forall T (server : Request -> Transport T) params params',
      sameButReserved params params' ->
      Market.request client server params w = Market.request client server params' w) /\
  (forall server option overrides,
      let params := Market.orderParams lib (Market.randomString 64 w).1 option overrides in
      Forall (preparedFrom client (World.print params (World.draw 64 w)) params)
             (requestsOf w (Market.CreateOrder lib client server option overrides w).2)) /\
  (forall server option overrides overrides',
      let token := (Market.randomString 64 w).1 in
      sameButReserved (Market.orderParams lib token option overrides)
                      (Market.orderParams lib token option overrides') ->
      (Market.CreateOrder lib client server option overrides w).1
      = (Market.CreateOrder lib client server option overrides' w).1 /\
      requestsOf w (Market.CreateOrder lib client server option overrides w).2
      = requestsOf w (Market.CreateOrder lib client server option overrides' w).2).
Proof.
  split; [|split; [|split]].
  - intros T server params. rewrite market_request_run. cbn [snd].
    rewrite (requestsOf_marketWorld _ _ w w eq_refl).
    destruct (server _) as [e|e|resp]; repeat constructor;
      apply marketRequest_preparedFrom.
  - intros T server params params' Hsame. rewrite !market_request_run.
    rewrite (marketRequest_reserved client params params' w Hsame). reflexivity.
  - intros server option overrides params. rewrite CreateOrder_run. cbv zeta. cbn [snd].
    fold params.
    rewrite (requestsOf_marketWorld _ _ w (World.print params (World.draw 64 w)) eq_refl).
    destruct (server _) as [e|e|resp]; repeat constructor;
      apply marketRequest_preparedFrom.
  - intros server option overrides overrides' token Hsame.
    rewrite !CreateOrder_run. cbv zeta. cbn [fst snd]. fold token.
    rewrite !marketRequest_print.
    rewrite (marketRequest_reserved client _ _ (World.draw 64 w) Hsame).
    split; [reflexivity|].
    rewrite !(requestsOf_marketWorld _ _ w) by reflexivity. reflexivity.
Qed.

Lemma reserved_parameters_win_witness :
  let forged := [AnyString "Signature"; AnyString "forged"; AnyString "Region";
                 AnyString "cn-hangzhou"; AnyString "SignatureNonce"; AnyString "1"] in
  let plain := [AnyString "Region"; AnyString "cn-hangzhou"] in
  let server := always 200 (Json (OrderResp.mk "1001")) in
  (Market.CreateOrder lib0 market0 server option0 forged world0).1
  = (Market.CreateOrder lib0 market0 server option0 plain world0).1 /\
  requestsOf world0 (Market.CreateOrder lib0 market0 server option0 forged world0).2
  = requestsOf world0 (Market.CreateOrder lib0 market0 server option0 plain world0).2.
Proof.
  cbv zeta.
  destruct (reserved_parameters_win lib0 market0 world0) as (_ & _ & _ & Horder).
  apply Horder. cbv zeta. intros k Hk.
  unfold reservedKeys in Hk. rewrite !not_elem_of_cons in Hk.
  destruct Hk as (_ & _ & _ & _ & _ & _ & Hnonce & Hsig & _).
  unfold Market.orderParams. rewrite !applyOverrides_pairs. simpl overridePairs.
  rewrite (lookup_Set_ne _ "SignatureNonce") by congruence.
  destruct (decide (k = "Region")) as [->|Hregion].
  - rewrite !lookup_Set_eq. reflexivity.
  - rewrite !(lookup_Set_ne _ "Region") by congruence.
    rewrite (lookup_Set_ne _ "Signature") by congruence. reflexivity.
Defined.

Example reserved_override_sample :
  let run :=
    Market.CreateOrder lib0 market0 (always 200 (Json (OrderResp.mk "1001"))) option0
      [AnyString "Format"; AnyString "xml"; AnyString "Region"; AnyString "cn-hangzhou"]
      world0 in
  run.1 = Return "1001" /\
  (fun req => match req with
              | MarketGET sent => (Url.Get sent "Format", Url.Get sent "Region")
              | WuliuGET _ _ => ("", "")
              end) <$> World.sent run.2
  = [("json", "cn-hangzhou")].
Proof. vm_compute. split; reflexivity. Qed.

(** X4: the signature does not depend on the order in which the loop of
    [buildQueryString] ranges over the map of parameters. *)
Theorem signature_order_independent (secret : string) (params : Url.Values) (order : list string) :
  order ≡ₚ Url.keys params ->
  Market.sign secret (Market.urlEncode (Market.buildQueryStringFrom order params))
  = Market.signature secret params.
Proof.
  intros Hperm. unfold Market.signature. rewrite (buildQueryString_order params order Hperm).
  reflexivity.
Qed.

Lemma signature_order_independent_witness :
  Market.sign "testsecret"
    (Market.urlEncode (Market.buildQueryStringFrom (reverse (Url.keys vendorExample)) vendorExample))
  = Market.signature "testsecret" vendorExample.
Proof.
  apply (signature_order_independent "testsecret" vendorExample (reverse (Url.keys vendorExample))).
  apply reverse_Permutation.
Defined.

(** ** [urlEncode] *)

Lemma percentDecode_byte (c : ascii) (rest : string) :
  percentDecode (percentEncode (String c "") +:+ rest)
  = match percentDecode rest with
    | Some r => Some (String c r)
    | None => None
    end.
Proof.
  destruct c as [[] [] [] [] [] [] [] []]; reflexivity.
Qed.

Lemma percentDecode_percentEncode s : percentDecode (percentEncode s) = Some s.
Proof.
  induction s as [|c s IH]; [reflexivity|].
  rewrite percentEncode_cons, percentDecode_byte, IH. reflexivity.
Qed.

Lemma chars_app (a b : string) : chars (a +:+ b) = chars a ++ chars b.
Proof.
  unfold chars. induction a as [|c a IH]; [reflexivity|].
  rewrite append_cons. simpl. rewrite IH. reflexivity.
Qed.

Lemma percentEncode_byte_safe (c : ascii) :
  forallb (fun x => unreserved x || Ascii.eqb x "%") (chars (percentEncode (String c "")))
  = true.
Proof.
  destruct c as [[] [] [] [] [] [] [] []]; vm_compute; reflexivity.
Qed.

Lemma urlEncode_chars (s : string) (c : ascii) :
  c ∈ chars (Market.urlEncode s) -> unreserved c = true \/ c = "%"%char.
Proof.
  rewrite urlEncode_percentEncode. revert c.
  induction s as [|x s IH]; intros c Hc; [inversion Hc|].
  rewrite percentEncode_cons, chars_app in Hc. apply elem_of_app in Hc as [Hc|Hc].
  - pose proof (percentEncode_byte_safe x) as Hsafe.
    rewrite forallb_forall in Hsafe. apply list_elem_of_In in Hc.
    specialize (Hsafe c Hc). apply orb_true_iff in Hsafe as [H|H]; [left; exact H|].
    right. apply Ascii.eqb_eq, H.
  - exact (IH c Hc).
Qed.

Lemma urlEncode_decode (s : string) : percentDecode (Market.urlEncode s) = Some s.
Proof. rewrite urlEncode_percentEncode. apply percentDecode_percentEncode. Qed.

Lemma urlEncode_inj (a b : string) : Market.urlEncode a = Market.urlEncode b -> a = b.
Proof.
  intros H. apply (f_equal percentDecode) in H. rewrite !urlEncode_decode in H.
  injection H as ->. reflexivity.
Qed.

(** X5: [urlEncode] can be read back: decoding the [%XX] escapes of its
    output gives the input, so that two different texts never have the same
    encoding. Its output is made of unreserved characters (letters, digits,
    [-], [_], [.], [~]) and of [%] only: no space, [+], [&] or [=]
    survives. *)
Theorem urlEncode_reversible (s : string) :
  percentDecode (Market.urlEncode s) = Some s /\
  forall c, c ∈ chars (Market.urlEncode s) -> unreserved c = true \/ c = "%"%char.
Proof.
  split; [apply urlEncode_decode|]. intros c. apply urlEncode_chars.
Qed.

Example urlEncode_sample :
  Market.urlEncode "a b+c&d=e/é" = "a%20b%2Bc%26d%3De%2F%C3%A9".
Proof. reflexivity. Qed.

(** ** The overrides of [CreateOrder], key by key *)

Lemma lastOverride_cons2 key a b rest :
  lastOverride key (a :: b :: rest)
  = match lastOverride key rest with
    | Some v' => Some v'
    | None =>
        match a, b with
        | AnyString k, AnyString v => if String.eqb k key then Some v else None
        | _, _ => None
        end
    end.
Proof. destruct a, b; simpl; destruct (lastOverride key rest); reflexivity. Qed.

(** X6: after the loop over the overrides of [CreateOrder], a key holds the
    value of the last pair of two strings that names it, as its only value;
    a key that no such pair names holds what it held before. *)
Theorem override_last_wins (overrides : list any) (params : Url.Values) (key : string) :
  Market.applyOverrides overrides params !! key
  = match lastOverride key overrides with
    | Some v => Some [v]
    | None => params !! key
    end.
Proof.
  rewrite applyOverrides_pairs. revert params.
  induction overrides as [|a|a b l IH] using pair_ind; intros params.
  - reflexivity.
  - destruct a; reflexivity.
  - rewrite overridePairs_cons2, lastOverride_cons2, IH.
    destruct (lastOverride key l) as [v'|]; [reflexivity|].
    destruct a as [|k| | |]; try reflexivity.
    destruct b as [|v| | |]; try reflexivity.
    unfold Url.Set_. destruct (String.eqb_spec k key) as [->|Hne].
    + apply lookup_insert_eq.
    + apply lookup_insert_ne. exact Hne.
Qed.

Example override_last_wins_sample :
  lastOverride "PaymentType"
    [AnyString "PaymentType"; AnyString "HAND"; AnyString "PaymentType"; AnyInt 1;
     AnyString "PaymentType"; AnyString "AUTO"; AnyString "PaymentType"]
  = Some "AUTO".
Proof. reflexivity. Qed.

(** ** [GetProduct] *)

Lemma elem_of_flat_map {A B} (f : A -> list B) (l : list A) (y : B) :
  y ∈ flat_map f l <-> exists x, x ∈ l /\ y ∈ f x.
Proof.
  rewrite list_elem_of_In, in_flat_map. split; intros (x & Hx & Hy); exists x.
  - rewrite !list_elem_of_In. auto.
  - rewrite !list_elem_of_In in *. auto.
Qed.

Lemma productOptions_spec (ret : ProductResp.t) (o : MarketProductOption.t) :
  o ∈ Market.productOptions ret <->
  exists sku module prop value,
    sku ∈ ProductResp.ProductSkus ret /\
    module ∈ ProductSku.Modules sku /\ SkuModule.Code module = "package_version" /\
    prop ∈ SkuModule.Properties module /\ Property.Key prop = "package_version" /\
    value ∈ Property.PropertyValues prop /\
    o = MarketProductOption.mk (PropertyValue.Value value) (PropertyValue.DisplayName value).
Proof.
  unfold Market.productOptions. rewrite elem_of_flat_map. split.
  - intros (sku & Hsku & Ho). apply elem_of_flat_map in Ho as (module & Hmod & Ho).
    destruct (String.eqb_spec (SkuModule.Code module) "package_version") as [Hcode|_];
      [|inversion Ho].
    apply elem_of_flat_map in Ho as (prop & Hprop & Ho).
    destruct (String.eqb_spec (Property.Key prop) "package_version") as [Hkey|_];
      [|inversion Ho].
    apply list_elem_of_fmap in Ho as (value & -> & Hvalue).
    exists sku, module, prop, value. repeat split; assumption.
  - intros (sku & module & prop & value & Hsku & Hmod & Hcode & Hprop & Hkey & Hvalue & ->).
    exists sku. split; [exact Hsku|]. apply elem_of_flat_map.
    exists module. split; [exact Hmod|]. rewrite Hcode. simpl.
    apply elem_of_flat_map. exists prop. split; [exact Hprop|]. rewrite Hkey. simpl.
    apply list_elem_of_fmap. exists value. split; [reflexivity|exact Hvalue].
Qed.

(** X7: on a response with status 200 whose body decodes, [GetProduct]
    always returns details and no error: the code, name and short
    description of the response, and as options exactly the values of the
    properties with key [package_version] of the modules with code
    [package_version], each with its value as [Code] and its display name
    as [Name]. Other modules and properties give no option. *)
Theorem GetProduct_options client server id w resp ret :
  server (marketRequest client
            (Url.Set_ "Code" id (Url.Set_ "Action" "DescribeProduct" ∅)) w)
  = Responded resp ->
  Response.StatusCode resp = 200 ->
  Response.Body resp = Json ret ->
  exists details,
    (Market.GetProduct client server id w).1 = Return details /\
    MarketProductDetails.Id details = ProductResp.Code ret /\
    MarketProductDetails.Name details = ProductResp.Name ret /\
    MarketProductDetails.Description details = ProductResp.ShortDescription ret /\
    forall o,
      o ∈ MarketProductDetails.Options details <->
      exists sku module prop value,
        sku ∈ ProductResp.ProductSkus ret /\
        module ∈ ProductSku.Modules sku /\ SkuModule.Code module = "package_version" /\
        prop ∈ SkuModule.Properties module /\ Property.Key prop = "package_version" /\
        value ∈ Property.PropertyValues prop /\
        o = MarketProductOption.mk (PropertyValue.Value value)
                                   (PropertyValue.DisplayName value).
Proof.
  intros Hreply Hstatus Hbody.
  rewrite GetProduct_run. cbv zeta. cbn [fst].
  rewrite market_request_run. cbn [fst].
  rewrite Hreply, (marketResult_ok _ _ Hstatus Hbody).
  eexists. split; [reflexivity|]. cbn.
  repeat split; try reflexivity; apply productOptions_spec.
Qed.

Lemma GetProduct_options_witness :
  (Market.GetProduct market0 (always 200 (Json productSample)) "cmapi020020" world0).1
  = Return (MarketProductDetails.mk "cmapi020020" "OCR" "文字识别"
              [MarketProductOption.mk "pkg100" "100次";
               MarketProductOption.mk "pkg1000" "1000次"]).
Proof.
  destruct (GetProduct_options market0 (always 200 (Json productSample)) "cmapi020020" world0
              (Response.mk 200 (Json productSample) (ApiError.mk "" "")) productSample
              eq_refl eq_refl eq_refl) as (details & Hrun & _).
  rewrite Hrun. f_equal.
  assert (Hd : Return details
               = Return (MarketProductDetails.mk "cmapi020020" "OCR" "文字识别"
                           [MarketProductOption.mk "pkg100" "100次";
                            MarketProductOption.mk "pkg1000" "1000次"])).
  { rewrite <- Hrun. vm_compute. reflexivity. }
  injection Hd as ->. reflexivity.
Defined.

(** ** [GetProducts]: the page size, one page, and failures on the way *)

(** X8: a response that reports success with a page size of 0 makes
    [GetProducts] panic on the division [Count / PageSize], whatever the
    count and the products of the response are. *)
Theorem zero_page_size_panics client server fuel w resp ret :
  server (marketRequest client (pageParams 1) w) = Responded resp ->
  Response.StatusCode resp = 200 ->
  Response.Body resp = Json ret ->
  MeteringResp.Success ret = true ->
  MeteringResp.PageSize ret = 0 ->
  (Market.GetProducts (S fuel) client server w).1
  = Panic "runtime error: integer divide by zero".
Proof.
  intros Hreply Hstatus Hbody Hok Hsize.
  unfold Market.GetProducts. rewrite getProducts_S. cbv zeta.
  rewrite Hreply, (marketResult_ok _ _ Hstatus Hbody), Hok, Hsize. reflexivity.
Qed.

Lemma zero_page_size_panics_witness :
  (Market.GetProducts 1 market0 (always 200 (Json (metering 0 0 []))) world0).1
  = Panic "runtime error: integer divide by zero".
Proof.
  apply (zero_page_size_panics market0 (always 200 (Json (metering 0 0 []))) 0 world0
           (Response.mk 200 (Json (metering 0 0 [])) (ApiError.mk "" ""))
           (metering 0 0 []));
    reflexivity.
Defined.

(** X9: when the first response reports success and a count below twice the
    page size, [GetProducts] returns after that one request, with one
    product for each entry of the response, in the order of the response:
    the product code as [Id], the product name as [Name], the total quota
    as [Remaining], the total usage as [Used], and the unit. *)
Theorem single_page_walk client server fuel w resp ret :
  server (marketRequest client (pageParams 1) w) = Responded resp ->
  Response.StatusCode resp = 200 ->
  Response.Body resp = Json ret ->
  MeteringResp.Success ret = true ->
  0 < MeteringResp.PageSize ret ->
  0 <= MeteringResp.Count ret < 2 * MeteringResp.PageSize ret ->
  let run := Market.GetProducts (S (S fuel)) client server w in
  run.1 = Return (productOf <$> MeteringResp.Result ret) /\
  requestsOf w run.2 = [marketRequest client (pageParams 1) w].
Proof.
  intros Hreply Hstatus Hbody Hok Hsize Hcount run. subst run.
  unfold Market.GetProducts.
  rewrite (getProducts_single fuel client server 1 w resp ret Hreply Hstatus Hbody Hok).
  - split; [reflexivity|]. cbn [snd]. apply requestsOf_app. reflexivity.
  - lia.
  - rewrite Z.quot_div_nonneg by lia.
    assert (0 <= MeteringResp.Count ret / MeteringResp.PageSize ret)
      by (apply Z.div_pos; lia).
    assert (MeteringResp.Count ret / MeteringResp.PageSize ret < 2)
      by (apply Z.div_lt_upper_bound; lia).
    rewrite wrap64_id by (unfold int_range; lia). assumption.
Qed.

Lemma single_page_walk_witness :
  let run := Market.GetProducts 2 market0 (always 200 (Json (metering 1 20 [item0]))) world0 in
  run.1 = Return [MarketProduct.mk "cmapi020020" "OCR" 1000 42 "次"] /\
  requestsOf world0 run.2 = [marketRequest market0 (pageParams 1) world0].
Proof.
  apply (single_page_walk market0 (always 200 (Json (metering 1 20 [item0]))) 0 world0
           (Response.mk 200 (Json (metering 1 20 [item0])) (ApiError.mk "" ""))
           (metering 1 20 [item0]));
    try reflexivity; simpl; lia.
Defined.

Lemma endsAtFailure_nil server (r : outcome (list MarketProduct.t)) (w w' : World.t) :
  World.sent w' = World.sent w ->
  exists reqs, World.sent w' = World.sent w ++ reqs /\
    forall pre req post e,
      reqs = pre ++ req :: post -> pageFailure (server req) = Some e ->
      post = [] /\ r = Fail e.
Proof.
  intros Hsent. exists []. rewrite app_nil_r. split; [exact Hsent|].
  intros pre req post e Heq. destruct pre; discriminate Heq.
Qed.

Lemma endsAtFailure_pageLoop server rec :
  (forall i, endsAtFailure server (rec i)) ->
  forall fuel totalPages i products,
    endsAtFailure server (Market.pageLoop rec fuel totalPages i products).
Proof.
  intros Hrec. induction fuel as [|fuel IH]; intros totalPages i products w r w' Hrun.
  - injection Hrun as <- <-. apply endsAtFailure_nil. reflexivity.
  - cbn [Market.pageLoop] in Hrun. io_unfold.
    destruct (i <=? totalPages); [|injection Hrun as <- <-; apply endsAtFailure_nil; reflexivity].
    destruct (rec i w) as [r1 w1] eqn:Hstep.
    destruct (Hrec i w r1 w1 Hstep) as (reqs1 & Hsent1 & Hend1).
    destruct r1 as [prods|err|msg|];
      try (injection Hrun as <- <-; exists reqs1; split; assumption).
    destruct (IH _ _ _ _ _ _ Hrun) as (reqs2 & Hsent2 & Hend2).
    exists (reqs1 ++ reqs2). split.
    + rewrite Hsent2, Hsent1, app_assoc. reflexivity.
    + intros pre req post e Heq Hfail.
      apply app_eq_inv in Heq as [(k & Hreqs1 & Hrest)|(k & Hpre & Hreqs2)].
      * destruct k as [|x k].
        -- rewrite app_nil_l in Hrest.
           exact (Hend2 [] req post e (eq_sym Hrest) Hfail).
        -- injection Hrest as <- Hpost.
           destruct (Hend1 pre req k e) as [_ Habs];
             [exact Hreqs1|exact Hfail|discriminate Habs].
      * exact (Hend2 k req post e Hreqs2 Hfail).
Qed.

Lemma endsAtFailure_getProducts client server fuel :
  forall page, endsAtFailure server (Market.getProducts fuel client server page).
Proof.
  induction fuel as [|fuel IH]; intros page w r w' Hrun.
  - injection Hrun as <- <-. apply endsAtFailure_nil. reflexivity.
  - rewrite getProducts_S in Hrun. cbv zeta in Hrun.
    set (req0 := marketRequest client (pageParams page) w) in *.
    assert (Hone : forall r0 : outcome (list MarketProduct.t),
               (forall e, pageFailure (server req0) = Some e -> r0 = Fail e) ->
               exists reqs,
                 World.sent (marketWorld req0 (server req0) w) = World.sent w ++ reqs /\
                 forall pre req post e,
                   reqs = pre ++ req :: post -> pageFailure (server req) = Some e ->
                   post = [] /\ r0 = Fail e).
    { intros r0 Hr0. destruct (server req0) as [e0|e0|resp] eqn:Hreply.
      - apply endsAtFailure_nil. reflexivity.
      - exists [req0]. split; [reflexivity|]. intros pre req post e Heq Hfail.
        destruct pre as [|x [|y pre]]; try discriminate Heq.
        injection Heq as <- <-. split; [reflexivity|].
        apply Hr0. rewrite <- Hreply. exact Hfail.
      - exists [req0]. split; [reflexivity|]. intros pre req post e Heq Hfail.
        destruct pre as [|x [|y pre]]; try discriminate Heq.
        injection Heq as <- <-. split; [reflexivity|].
        apply Hr0. rewrite <- Hreply. exact Hfail. }
    unfold pageFailure in Hone.
    destruct (marketResult (server req0)) as [err|resp] eqn:Hres.
    { injection Hrun as <- <-. apply Hone. intros e [= <-]. reflexivity. }
    destruct (negb (MeteringResp.Success resp)) eqn:Hok.
    { injection Hrun as <- <-. apply Hone. intros e [= <-]. reflexivity. }
    destruct (MeteringResp.PageSize resp =? 0).
    { injection Hrun as <- <-. apply Hone. intros e [=]. }
    destruct (endsAtFailure_pageLoop server _ IH _ _ _ _ _ _ _ Hrun) as (reqs & Hsent & Hend).
    assert (Hsent0 : World.sent (marketWorld req0 (server req0) w) = World.sent w ++ [req0]).
    { destruct (server req0) as [e0|e0|resp0]; [discriminate Hres|reflexivity..]. }
    exists (req0 :: reqs). split.
    + rewrite Hsent, Hsent0, <- app_assoc. reflexivity.
    + intros pre req post e Heq Hfail. destruct pre as [|x pre].
      * injection Heq as <- _. unfold pageFailure in Hfail.
        rewrite Hres, Hok in Hfail. discriminate Hfail.
      * injection Heq as _ Heq. exact (Hend pre req post e Heq Hfail).
Qed.

(** X10: the walk of [GetProducts] sends nothing after a request that
    fails (a transport failure, a status other than 200, a body that does
    not decode, or a response that reports a failure): that request is the
    last one sent, it is not tried again, and the call ends with its error,
    the products of the pages before being dropped. *)
Theorem walk_ends_at_failure client server fuel w pre req post e :
  requestsOf w (Market.GetProducts fuel client server w).2 = pre ++ req :: post ->
  pageFailure (server req) = Some e ->
  post = [] /\ (Market.GetProducts fuel client server w).1 = Fail e.
Proof.
  unfold Market.GetProducts.
  destruct (Market.getProducts fuel client server 1 w) as [r w'] eqn:Hrun.
  destruct (endsAtFailure_getProducts client server fuel 1 w r w' Hrun)
    as (reqs & Hsent & Hend).
  cbn [fst snd]. rewrite (requestsOf_app _ _ _ Hsent). intros Heq Hfail.
  exact (Hend pre req post e Heq Hfail).
Qed.

Lemma walk_ends_at_failure_witness :
  let run := Market.GetProducts 3 market0 secondPageFails world0 in
  pagesRequested (requestsOf world0 run.2) = ["1"; "2"] /\
  run.1 = Fail (meteringError refusal).
Proof.
  intros run.
  pose (w1 := World.send (marketRequest market0 (pageParams 1) world0)
                         (World.draw 64 (World.tick world0))).
  assert (Hreqs : requestsOf world0 run.2
                  = [marketRequest market0 (pageParams 1) world0]
                      ++ marketRequest market0 (pageParams 2) w1 :: [])
    by (vm_compute; reflexivity).
  split; [rewrite Hreqs; vm_compute; reflexivity|].
  apply (walk_ends_at_failure market0 secondPageFails 3 world0 _ _ [] (meteringError refusal)
           Hreqs).
  vm_compute. reflexivity.
Defined.

(** ** The requests of the Wuliu client *)

Lemma wuliu_request_world {T} client (server : Request -> Transport T) path w :
  (Wuliu.request client server path w).2 = w \/
  (Wuliu.request client server path w).2 = World.send (Wuliu.get client path) w.
Proof.
  rewrite wuliu_request_run. destruct (server _); [left|right|right]; reflexivity.
Qed.

(** The world after a call: as before, or with the one request of the call
    added. *)
Lemma call_world c client w :
  (Wuliu.call c client w).2 = w \/
  (Wuliu.call c client w).2 = World.send (Wuliu.get client (pathOf c)) w.
Proof.
  destruct c as [server|server|server no|server no|server code no|server code no];
    simpl; io_unfold; unfold Wuliu.MustGetProviders, Wuliu.MustGetProvidersForNumber,
      Wuliu.MustGetStatusForNumber; io_unfold.
  1,2: destruct (WuliuClient.providers client) as [|p ps] eqn:Hp;
    [ rewrite (GetProviders_fetch _ _ _ Hp);
      destruct (server _); [left|right|right]; reflexivity
    | rewrite GetProviders_cached by (rewrite Hp; discriminate); left; reflexivity ].
  1,2: rewrite GetProvidersForNumber_run;
    destruct (wuliu_request_world client server (Wuliu.exCompany no) w) as [H|H];
    [left|right]; simpl; exact H.
  1,2: rewrite GetStatusForNumber_failed;
    destruct (wuliu_request_world client server (Wuliu.kdi code no) w) as [H|H];
    [left|right]; simpl; exact H.
Qed.

Lemma call_AppCode c client w :
  WuliuClient.AppCode (Wuliu.call c client w).1 = WuliuClient.AppCode client.
Proof.
  destruct (call_client c client w) as [->|(_ & _ & l & _ & _ & _ & ->)]; reflexivity.
Qed.

(** X11: a call of an operation of the Wuliu client sends at most one
    request (a request that fails is not sent again), for the path of the
    operation and with the header [Authorization: APPCODE <AppCode>]; no
    call changes the [AppCode]. A sequence of calls on a client therefore
    sends at most as many requests as it has calls, all with the header of
    that client. *)
Theorem wuliu_requests cs client w :
  let run := Wuliu.calls cs client w in
  WuliuClient.AppCode run.1 = WuliuClient.AppCode client /\
  (length (requestsOf w run.2) <= length cs)%nat /\
  Forall (authorised client) (requestsOf w run.2) /\
  (forall c, cs = [c] ->
     requestsOf w run.2 = [] \/ requestsOf w run.2 = [Wuliu.get client (pathOf c)]).
Proof.
  intros run. subst run.
  assert (Hgen : forall cs client w,
             WuliuClient.AppCode (Wuliu.calls cs client w).1 = WuliuClient.AppCode client /\
             exists reqs, World.sent (Wuliu.calls cs client w).2 = World.sent w ++ reqs /\
                          (length reqs <= length cs)%nat /\ Forall (authorised client) reqs).
  { clear. induction cs as [|c cs IH]; intros client w.
    - split; [reflexivity|]. exists []. rewrite app_nil_r. repeat split; constructor.
    - simpl. io_unfold.
      pose proof (call_AppCode c client w) as Hcode.
      pose proof (call_world c client w) as Hworld.
      destruct (Wuliu.call c client w) as [client1 w1]. simpl in Hcode, Hworld.
      destruct (IH client1 w1) as (Hcode1 & reqs & Hsent & Hlen & Hauth).
      split; [rewrite Hcode1; exact Hcode|].
      assert (Hauth' : Forall (authorised client) reqs).
      { eapply Forall_impl; [exact Hauth|]. intros req (path & ->).
        exists path. rewrite Hcode. reflexivity. }
      destruct Hworld as [->| ->].
      + exists reqs. split; [exact Hsent|]. split; [simpl; lia|exact Hauth'].
      + exists (Wuliu.get client (pathOf c) :: reqs). split.
        * rewrite Hsent. simpl. rewrite <- app_assoc. reflexivity.
        * split; [simpl; lia|]. constructor; [|exact Hauth'].
          exists (pathOf c). reflexivity. }
  destruct (Hgen cs client w) as (Hcode & reqs & Hsent & Hlen & Hauth).
  rewrite (requestsOf_app _ _ _ Hsent).
  split; [exact Hcode|]. split; [exact Hlen|]. split; [exact Hauth|].
  intros c ->. simpl in Hsent. io_unfold.
  destruct (call_world c client w) as [Hw|Hw];
    destruct (Wuliu.call c client w) as [client1 w1]; simpl in Hw, Hsent; subst w1.
  - left. apply (app_inv_head (World.sent w)). rewrite app_nil_r. symmetry. exact Hsent.
  - right. apply (app_inv_head (World.sent w)). symmetry. exact Hsent.
Qed.

(** ** [GetProviders]: what is stored, and what is returned *)

(** X12: a call of [GetProviders] that does not return a list with at
    least one provider (the request fails, the vendor reports a failure, or
    the result is empty) stores nothing: the client is left as it was, and
    the next call sends the request again. *)
Theorem failed_fetch_not_stored client server w :
  WuliuClient.providers client = [] ->
  (forall l, (Wuliu.GetProviders client server w).1.2 = Return l -> l = []) ->
  (Wuliu.GetProviders client server w).1.1 = client /\
  forall server' w',
    (forall e, server' (Wuliu.get client "/getExpressList") <> BadRequest e) ->
    requestsOf w' (Wuliu.GetProviders (Wuliu.GetProviders client server w).1.1 server' w').2
    = [Wuliu.get client "/getExpressList"].
Proof.
  intros Hnil Hempty.
  assert (Hsame : (Wuliu.GetProviders client server w).1.1 = client).
  { rewrite (GetProviders_fetch _ _ _ Hnil) in *. cbn [fst snd] in *.
    destruct (fetched client _) as [client' r] eqn:Hf.
    destruct (fetched_store _ _ _ _ Hnil Hf) as [(l & Hl & -> & ->)|[-> _]].
    - exfalso. apply Hl, Hempty. reflexivity.
    - reflexivity. }
  split; [exact Hsame|]. intros server' w' Hsrv. rewrite Hsame.
  rewrite (GetProviders_fetch _ _ _ Hnil). cbn [snd].
  destruct (server' _) as [e|e|resp] eqn:Hreply.
  - exfalso. exact (Hsrv e eq_refl).
  - apply requestsOf_app. reflexivity.
  - apply requestsOf_app. reflexivity.
Qed.

Lemma failed_fetch_not_stored_witness :
  let first := Wuliu.GetProviders wuliu0 (always 200 (Json (expressList []))) world0 in
  first.1 = (wuliu0, Return []) /\
  (Wuliu.GetProviders first.1.1 (always 200 (Json carriers)) first.2).1.2
  = Return sortedCarriers.
Proof.
  intros first.
  destruct (failed_fetch_not_stored wuliu0 (always 200 (Json (expressList []))) world0)
    as [Hsame _].
  - reflexivity.
  - intros l Hl. vm_compute in Hl. injection Hl as <-. reflexivity.
  - split; [vm_compute; reflexivity|].
    subst first. rewrite Hsame. vm_compute. reflexivity.
Defined.

Lemma collect_permutation (m : gmap string string) (l : list WuliuProvider.t) :
  l ≡ₚ Wuliu.collect (map_to_list m) ->
  (forall code name, WuliuProvider.mk code name ∈ l <-> m !! code = Some name) /\
  length l = size m.
Proof.
  intros Hperm. split.
  - intros code name. rewrite Hperm. unfold Wuliu.collect. rewrite list_elem_of_fmap.
    rewrite <- elem_of_map_to_list. split.
    + intros ([k v] & [= -> ->] & Hin). exact Hin.
    + intros Hin. exists (code, name). split; [reflexivity|exact Hin].
  - rewrite Hperm. unfold Wuliu.collect. rewrite length_fmap. apply length_map_to_list.
Qed.

(** X13: when the vendor answers with status "200", a client that stores
    nothing returns one provider for each entry of the result and no other:
    a provider with a code and a name is in the list exactly when the
    result maps the code to the name, and the list is as long as the result
    has entries. *)
Theorem providers_are_the_entries client server w resp ret :
  WuliuClient.providers client = [] ->
  server (Wuliu.get client "/getExpressList") = Responded resp ->
  Response.Body resp = Json ret ->
  ProvidersRet.Status ret = "200" ->
  exists l,
    (Wuliu.GetProviders client server w).1.2 = Return l /\
    (forall code name,
        WuliuProvider.mk code name ∈ l <-> ProvidersRet.Result ret !! code = Some name) /\
    length l = size (ProvidersRet.Result ret).
Proof.
  intros Hnil Hreply Hbody Hstatus.
  rewrite (GetProviders_fetch _ _ _ Hnil), Hreply. cbn [fst snd]. unfold fetched.
  rewrite Hbody, Hstatus. simpl negb. cbv iota.
  destruct (Wuliu.collect (map_to_list (ProvidersRet.Result ret))) as [|p ps] eqn:Hc.
  - exists []. split; [reflexivity|].
    apply collect_permutation. rewrite Hc. reflexivity.
  - eexists. split; [reflexivity|].
    apply collect_permutation. rewrite Hc. unfold Wuliu.sortByCode.
    apply merge_sort_Permutation.
Qed.

Lemma providers_are_the_entries_witness :
  exists l,
    (Wuliu.GetProviders wuliu0 (always 200 (Json carriers)) world0).1.2 = Return l /\
    WuliuProvider.mk "sf" "顺丰速运" ∈ l /\ length l = 3%nat.
Proof.
  destruct (providers_are_the_entries wuliu0 (always 200 (Json carriers)) world0
              (Response.mk 200 (Json carriers) (ApiError.mk "" "")) carriers
              eq_refl eq_refl eq_refl eq_refl) as (l & Hrun & Hin & Hlen).
  exists l. split; [exact Hrun|]. split.
  - apply Hin. vm_compute. reflexivity.
  - rewrite Hlen. vm_compute. reflexivity.
Defined.

(** ** The Must forms *)

Lemma wuliu_outcomes {T} client (server : Request -> Transport T) path w :
  (exists e, (Wuliu.request client server path w).1 = inl e) \/
  (exists t, (Wuliu.request client server path w).1 = inr t).
Proof. destruct (Wuliu.request client server path w).1; eauto. Qed.

Lemma GetProviders_outcome client server w :
  (exists l, (Wuliu.GetProviders client server w).1.2 = Return l) \/
  (exists e, (Wuliu.GetProviders client server w).1.2 = Fail e).
Proof.
  destruct (WuliuClient.providers client) as [|p ps] eqn:Hp.
  - rewrite (GetProviders_fetch _ _ _ Hp). cbn [fst snd]. unfold fetched.
    destruct (server _) as [e|e|resp]; eauto.
    destruct (Response.Body resp); eauto.
    destruct (negb _); eauto.
    destruct (Wuliu.collect _); eauto.
  - rewrite GetProviders_cached by (rewrite Hp; discriminate). eauto.
Qed.

Lemma GetProvidersForNumber_outcome client server no w :
  (exists l, (Wuliu.GetProvidersForNumber client server no w).1 = Return l) \/
  (exists e, (Wuliu.GetProvidersForNumber client server no w).1 = Fail e).
Proof.
  rewrite GetProvidersForNumber_run. cbn [fst].
  destruct (Wuliu.request _ _ _ _).1; eauto. destruct (negb _); eauto.
Qed.

Lemma GetStatusForNumber_outcome client server code no w :
  (exists st, (Wuliu.GetStatusForNumber client server code no w).1 = Return st) \/
  (exists e, (Wuliu.GetStatusForNumber client server code no w).1 = Fail e).
Proof.
  unfold Wuliu.GetStatusForNumber. io_unfold.
  destruct (Wuliu.request _ _ _ _) as [[err|ret] w']; simpl; eauto.
  destruct (negb _); simpl; eauto.
Qed.

(** X14: each Must form does what the operation it wraps does (the same
    requests, the same client afterwards) and returns what it returns, but
    never an error: when the operation fails, the Must form panics with
    the error of the operation. *)
Theorem must_forms_panic client w :
  (forall server,
      let plain := Wuliu.GetProviders client server w in
      let must := Wuliu.MustGetProviders client server w in
      must.2 = plain.2 /\ must.1.1 = plain.1.1 /\
      ((exists l, plain.1.2 = Return l /\ must.1.2 = Return l) \/
       (exists e, plain.1.2 = Fail e /\ must.1.2 = Panic e))) /\
  (forall server no,
      let plain := Wuliu.GetProvidersForNumber client server no w in
      let must := Wuliu.MustGetProvidersForNumber client server no w in
      must.2 = plain.2 /\
      ((exists l, plain.1 = Return l /\ must.1 = Return l) \/
       (exists e, plain.1 = Fail e /\ must.1 = Panic e))) /\
  (forall server code no,
      let plain := Wuliu.GetStatusForNumber client server code no w in
      let must := Wuliu.MustGetStatusForNumber client server code no w in
      must.2 = plain.2 /\
      ((exists st, plain.1 = Return st /\ must.1 = Return st) \/
       (exists e, plain.1 = Fail e /\ must.1 = Panic e))).
Proof.
  split; [|split].
  - intros server plain must. subst plain must.
    pose proof (GetProviders_outcome client server w) as Hout.
    unfold Wuliu.MustGetProviders. io_unfold.
    destruct (Wuliu.GetProviders client server w) as [[client' r] w']. cbn [fst snd] in *.
    split; [reflexivity|]. split; [reflexivity|].
    destruct Hout as [(l & ->)|(e & ->)]; [left|right]; eauto.
  - intros server no plain must. subst plain must.
    pose proof (GetProvidersForNumber_outcome client server no w) as Hout.
    unfold Wuliu.MustGetProvidersForNumber. io_unfold.
    destruct (Wuliu.GetProvidersForNumber client server no w) as [r w']. cbn [fst snd] in *.
    split; [reflexivity|].
    destruct Hout as [(l & ->)|(e & ->)]; [left|right]; eauto.
  - intros server code no plain must. subst plain must.
    pose proof (GetStatusForNumber_outcome client server code no w) as Hout.
    unfold Wuliu.MustGetStatusForNumber. io_unfold.
    destruct (Wuliu.GetStatusForNumber client server code no w) as [r w']. cbn [fst snd] in *.
    split; [reflexivity|].
    destruct Hout as [(st & ->)|(e & ->)]; [left|right]; eauto.
Qed.

Example must_panics_sample :
  (Wuliu.MustGetStatusForNumber wuliu0 (fun _ => NetworkFailure "connection reset")
     "zto" "780098068058" world0).1
  = Panic "connection reset".
Proof. reflexivity. Qed.

(** ** The paths of the Wuliu requests *)

Lemma QueryEscape_byte_safe (c : ascii) :
  forallb (fun x => unreserved x || Ascii.eqb x "%" || Ascii.eqb x "+")
          (chars (Url.QueryEscape (String c "")))
  = true.
Proof.
  destruct c as [[] [] [] [] [] [] [] []]; vm_compute; reflexivity.
Qed.

(** X15: the path of [GetStatusForNumber] is [/kdi?no=<no>&type=<code>]
    and the one of [GetProvidersForNumber] is [/exCompany?no=<no>], the
    number and the code query-escaped. An escaped text is made of
    unreserved characters, [%] and [+] only, so that neither the number nor
    the code can add a parameter or end the query. *)
Theorem wuliu_paths (code no : string) :
  Wuliu.kdi code no
  = "/kdi?no=" +:+ Url.QueryEscape no +:+ "&type=" +:+ Url.QueryEscape code /\
  Wuliu.exCompany no = "/exCompany?no=" +:+ Url.QueryEscape no /\
  forall s c, c ∈ chars (Url.QueryEscape s) ->
              unreserved c = true \/ c = "%"%char \/ c = "+"%char.
Proof.
  split; [reflexivity|]. split; [reflexivity|].
  induction s as [|x s IH]; intros c Hc; [inversion Hc|].
  rewrite QueryEscape_cons, chars_app in Hc. apply elem_of_app in Hc as [Hc|Hc].
  - pose proof (QueryEscape_byte_safe x) as Hsafe.
    rewrite forallb_forall in Hsafe. apply list_elem_of_In in Hc.
    specialize (Hsafe c Hc). apply orb_true_iff in Hsafe as [Hsafe|Hsafe].
    + apply orb_true_iff in Hsafe as [H|H]; [left; exact H|].
      right. left. apply Ascii.eqb_eq, H.
    + right. right. apply Ascii.eqb_eq, Hsafe.
  - exact (IH c Hc).
Qed.

Example kdi_sample :
  Wuliu.kdi "zto" "78 00&type=sf" = "/kdi?no=78+00%26type%3Dsf&type=zto".
Proof. reflexivity. Qed.

(** ** The times of [GetStatusForNumber] *)

Lemma digit_bound (c : ascii) : Time.isDigit c = true -> 0 <= Time.digit c <= 9.
Proof.
  unfold Time.isDigit, Time.digit. intros H. apply andb_true_iff in H as [H1 H2]. lia.
Qed.

Lemma getnum_bound s fixed n rest :
  Time.getnum s fixed = Some (n, rest) -> 0 <= n <= 99.
Proof.
  unfold Time.getnum. destruct s as [|a [|b s]]; [discriminate| |].
  - destruct (Time.isDigit a) eqn:Ha; [|discriminate].
    destruct fixed; [discriminate|]. intros [= <- _].
    pose proof (digit_bound a Ha). lia.
  - destruct (Time.isDigit a) eqn:Ha; [|discriminate].
    pose proof (digit_bound a Ha).
    destruct (Time.isDigit b) eqn:Hb.
    + intros [= <- _]. pose proof (digit_bound b Hb). lia.
    + destruct fixed; [discriminate|]. intros [= <- _]. lia.
Qed.

Lemma getyear_bound s y rest :
  Time.getyear s = Some (y, rest) -> 0 <= y <= 9999.
Proof.
  unfold Time.getyear. destruct s as [|a [|b [|c [|d s]]]]; try discriminate.
  destruct (Time.isDigit a) eqn:Ha; [|discriminate].
  destruct (Time.isDigit b) eqn:Hb; [|discriminate].
  destruct (Time.isDigit c) eqn:Hc; [|discriminate].
  destruct (Time.isDigit d) eqn:Hd; [|discriminate].
  intros [= <- _].
  pose proof (digit_bound a Ha). pose proof (digit_bound b Hb).
  pose proof (digit_bound c Hc). pose proof (digit_bound d Hd). lia.
Qed.

Lemma digits_bound s : Forall (fun d => 0 <= d <= 9) (Time.digits s).1.
Proof.
  induction s as [|a s IH]; [constructor|].
  simpl. destruct (Time.isDigit a) eqn:Ha; [|constructor].
  destruct (Time.digits s) as [ds r]. simpl in *.
  constructor; [apply digit_bound, Ha|exact IH].
Qed.

Lemma decimal_bound ds :
  Forall (fun d => 0 <= d <= 9) ds ->
  forall acc, 0 <= acc ->
    acc * 10 ^ Z.of_nat (length ds)
    <= fold_left (fun acc x => acc * 10 + x) ds acc
    < (acc + 1) * 10 ^ Z.of_nat (length ds).
Proof.
  induction 1 as [|d ds Hd Hds IH]; intros acc Hacc.
  - simpl. lia.
  - cbn [fold_left length]. rewrite Nat2Z.inj_succ, Z.pow_succ_r by lia.
    specialize (IH (acc * 10 + d) ltac:(lia)).
    assert (0 < 10 ^ Z.of_nat (length ds)) by (apply Z.pow_pos_nonneg; lia).
    nia.
Qed.

Lemma fraction_bound s : 0 <= (Time.fraction s).1 < 10 ^ 9.
Proof.
  unfold Time.fraction. destruct s as [|sep [|d rest]]; try (simpl; lia).
  destruct (_ && _); [|simpl; lia].
  pose proof (digits_bound (String d rest)) as Hds.
  destruct (Time.digits (String d rest)) as [ds r]. cbn [fst] in *.
  assert (H9 : Forall (fun d => 0 <= d <= 9) (take 9 ds)) by (apply Forall_take, Hds).
  pose proof (decimal_bound _ H9 0 ltac:(lia)) as Hb.
  assert (Hlen : (length (take 9 ds) <= 9)%nat) by (rewrite length_take; lia).
  set (k := Z.of_nat (length (take 9 ds))) in *.
  set (v := fold_left (fun acc x : Z => acc * 10 + x) (take 9 ds) 0) in *.
  assert (Hk : 0 <= k <= 9) by (subst k; lia).
  assert (Hpow : 10 ^ 9 = 10 ^ k * 10 ^ (9 - k))
    by (rewrite <- Z.pow_add_r by lia; f_equal; lia).
  assert (0 < 10 ^ (9 - k)) by (apply Z.pow_pos_nonneg; lia).
  assert (0 < 10 ^ k) by (apply Z.pow_pos_nonneg; lia).
  rewrite Hpow. nia.
Qed.

Lemma parseDateTime_valid value l t :
  Time.parseDateTime value l = Some t -> validTime t /\ Time.loc t = l.
Proof.
  unfold Time.parseDateTime. intros H.
  repeat match type of H with
  | context [Time.getyear ?s] =>
      let E := fresh "Hy" in
      destruct (Time.getyear s) as [[? ?]|] eqn:E; [|discriminate H]; simpl in H
  | context [Time.skip ?s ?c] =>
      destruct (Time.skip s c) as [?|]; [|discriminate H]; simpl in H
  | context [Time.getnum ?s ?f] =>
      let E := fresh "Hn" in
      destruct (Time.getnum s f) as [[? ?]|] eqn:E; [|discriminate H]; simpl in H
  end.
  match type of H with
  | context [Time.fraction ?s] =>
      pose proof (fraction_bound s) as Hns; destruct (Time.fraction s) as [ns r]
  end.
  cbn [fst] in Hns.
  repeat match type of H with
  | (if ?b then _ else _) = _ => destruct b eqn:?; [discriminate H|]
  end.
  injection H as <-. unfold validTime. cbn.
  repeat match goal with
  | E : Time.getnum _ _ = Some _ |- _ => apply getnum_bound in E
  | E : Time.getyear _ = Some _ |- _ => apply getyear_bound in E
  end.
  repeat match goal with
  | E : (_ || _) = false |- _ => apply orb_false_iff in E as [? ?]
  end.
  repeat split; lia.
Qed.

Lemma ParseInLocation_zeroOrBeijing value :
  zeroOrBeijing (Time.ParseInLocation value Wuliu.loc).1.
Proof.
  unfold Time.ParseInLocation.
  destruct (Time.parseDateTime value Wuliu.loc) as [t|] eqn:Hp.
  - right. exact (parseDateTime_valid _ _ _ Hp).
  - left. reflexivity.
Qed.

(** X16: every time in a status that [GetStatusForNumber] returns, the
    update time and the time of each item, is either the zero time (the
    text did not parse) or a moment that exists (a month from 1 to 12, a
    day of that month, an hour below 24, a minute and a second below 60)
    read in the fixed zone UTC+8. *)
Theorem status_times client server code no w st :
  (Wuliu.GetStatusForNumber client server code no w).1 = Return st ->
  zeroOrBeijing (WuliuStatus.UpdatedAt st) /\
  Forall (fun item => zeroOrBeijing (WuliuStatusItem.Time item)) (WuliuStatus.Items st).
Proof.
  unfold Wuliu.GetStatusForNumber. io_unfold.
  destruct (Wuliu.request _ _ _ _) as [[err|ret] w']; [discriminate|].
  destruct (negb _); [discriminate|]. cbn [fst]. intros [= <-]. cbn. split.
  - apply ParseInLocation_zeroOrBeijing.
  - apply Forall_fmap, Forall_forall. intros entry _. unfold Wuliu.toItem. cbn.
    apply ParseInLocation_zeroOrBeijing.
Qed.

Lemma status_times_witness :
  exists st,
    (Wuliu.GetStatusForNumber wuliu0
       (always 200 (Json (traceOf "3" "2023-02-28  23:59:59"
                            [TraceItem.mk "2023-02-30 10:00:00" "已发出"])))
       "zto" "780098068058" world0).1 = Return st /\
    Time.day (WuliuStatus.UpdatedAt st) = 28 /\
    zeroOrBeijing (WuliuStatus.UpdatedAt st) /\
    Forall (fun item => WuliuStatusItem.Time item = Time.zero) (WuliuStatus.Items st).
Proof.
  eexists. split; [vm_compute; reflexivity|]. split; [reflexivity|]. split.
  - refine (proj1 (status_times wuliu0
              (always 200 (Json (traceOf "3" "2023-02-28  23:59:59"
                                   [TraceItem.mk "2023-02-30 10:00:00" "已发出"])))
              "zto" "780098068058" world0 _ _)).
    vm_compute. reflexivity.
  - repeat constructor.
Defined.

(** ** The query string that is signed tells the parameters apart *)

Lemma append_nil_r (s : string) : s +:+ "" = s.
Proof. induction s as [|c s IH]; [reflexivity|]. rewrite append_cons, IH. reflexivity. Qed.

Lemma chars_cons c s : chars (String c s) = c :: chars s.
Proof. reflexivity. Qed.

(** A text without a separator, followed by nothing or by the separator and
    more, can be cut in one way only. *)
Lemma cut_unique (sep : ascii) (a b ra rb : string) :
  sep ∉ chars a -> sep ∉ chars b ->
  (ra = "" \/ exists r, ra = String sep r) ->
  (rb = "" \/ exists r, rb = String sep r) ->
  a +:+ ra = b +:+ rb -> a = b /\ ra = rb.
Proof.
  revert b. induction a as [|x a IH]; intros b Ha Hb Hra Hrb Heq.
  - destruct b as [|y b]; [split; [reflexivity|exact Heq]|].
    exfalso. change ("" +:+ ra) with ra in Heq. rewrite append_cons in Heq.
    destruct Hra as [->|(r & ->)]; [discriminate Heq|].
    injection Heq as <- _. apply Hb. rewrite chars_cons. left.
  - destruct b as [|y b].
    + exfalso. change ("" +:+ rb) with rb in Heq. rewrite append_cons in Heq.
      destruct Hrb as [->|(r & ->)]; [discriminate Heq|].
      injection Heq as -> _. apply Ha. rewrite chars_cons. left.
    + rewrite !append_cons in Heq. injection Heq as <- Heq.
      rewrite chars_cons in Ha, Hb. apply not_elem_of_cons in Ha as [_ Ha].
      apply not_elem_of_cons in Hb as [_ Hb].
      destruct (IH b Ha Hb Hra Hrb Heq) as [-> ->]. split; reflexivity.
Qed.

Lemma Join_cons p l sep :
  Join (p :: l) sep = p +:+ match l with [] => "" | _ => sep +:+ Join l sep end.
Proof. destruct l; [symmetry; apply append_nil_r|reflexivity]. Qed.

Lemma Join_inj (l1 l2 : list string) :
  Forall (fun p => ("&"%char ∉ chars p) /\ p <> "") l1 ->
  Forall (fun p => ("&"%char ∉ chars p) /\ p <> "") l2 ->
  Join l1 "&" = Join l2 "&" -> l1 = l2.
Proof.
  intros H1. revert l2. induction H1 as [|p1 l1 [Hp1 Hne1] Hl1 IH]; intros l2 H2 Heq.
  - destruct H2 as [|p2 l2 [Hp2 Hne2] Hl2]; [reflexivity|].
    exfalso. rewrite Join_cons in Heq. destruct p2; [contradiction|discriminate Heq].
  - destruct H2 as [|p2 l2 [Hp2 Hne2] Hl2].
    + exfalso. rewrite Join_cons in Heq. destruct p1; [contradiction|discriminate Heq].
    + rewrite !Join_cons in Heq.
      apply (cut_unique "&") in Heq as [-> Hrest]; try assumption.
      * f_equal. destruct l1 as [|q1 l1], l2 as [|q2 l2]; try discriminate Hrest.
        -- reflexivity.
        -- apply IH; [exact Hl2|]. injection Hrest as Hrest. exact Hrest.
      * destruct l1; [left; reflexivity|right; eexists; reflexivity].
      * destruct l2; [left; reflexivity|right; eexists; reflexivity].
Qed.

Lemma urlEncode_without (sep : ascii) (s : string) :
  unreserved sep = false -> sep <> "%"%char -> sep ∉ chars (Market.urlEncode s).
Proof.
  intros Hun Hpct Hin. apply urlEncode_chars in Hin as [H| ->]; [congruence|contradiction].
Qed.

Lemma pair_without_amp (k v : string) :
  ("&"%char ∉ chars (Market.urlEncode k +:+ "=" +:+ Market.urlEncode v)) /\
  Market.urlEncode k +:+ "=" +:+ Market.urlEncode v <> "".
Proof.
  split.
  - rewrite !chars_app. rewrite !not_elem_of_app. repeat split.
    + apply urlEncode_without; [reflexivity|discriminate].
    + intros H. apply list_elem_of_singleton in H. discriminate H.
    + apply urlEncode_without; [reflexivity|discriminate].
  - intros H. apply (f_equal String.length) in H.
    destruct (Market.urlEncode k); discriminate.
Qed.

Lemma pair_inj (k1 v1 k2 v2 : string) :
  Market.urlEncode k1 +:+ "=" +:+ Market.urlEncode v1
  = Market.urlEncode k2 +:+ "=" +:+ Market.urlEncode v2 ->
  k1 = k2 /\ v1 = v2.
Proof.
  intros Heq.
  apply (cut_unique "=") in Heq as [Hk Hv].
  - injection Hv as Hv. split; apply urlEncode_inj; assumption.
  - apply urlEncode_without; [reflexivity|discriminate].
  - apply urlEncode_without; [reflexivity|discriminate].
  - right. eexists. reflexivity.
  - right. eexists. reflexivity.
Qed.

Lemma Get_single (m : gmap string string) k : Url.Get (single m) k = default "" (m !! k).
Proof. unfold Url.Get, single. rewrite lookup_fmap. destruct (m !! k); reflexivity. Qed.

Lemma elem_of_signed_keys (m : gmap string string) k :
  k ∈ sort_Strings (filter (fun key => key ≠ "Signature") (Url.keys (single m)))
  <-> k <> "Signature" /\ is_Some (m !! k).
Proof.
  unfold sort_Strings. rewrite merge_sort_Permutation, list_elem_of_filter, elem_of_keys.
  unfold single. rewrite lookup_fmap, fmap_is_Some. reflexivity.
Qed.

Lemma pairs_inj (m1 m2 : gmap string string) (l1 l2 : list string) :
  (fun key => Market.urlEncode key +:+ "=" +:+ Market.urlEncode (Url.Get (single m1) key)) <$> l1
  = (fun key => Market.urlEncode key +:+ "=" +:+ Market.urlEncode (Url.Get (single m2) key)) <$> l2 ->
  l1 = l2 /\ forall k, k ∈ l1 -> Url.Get (single m1) k = Url.Get (single m2) k.
Proof.
  revert l2. induction l1 as [|k1 l1 IH]; intros [|k2 l2] Heq; try discriminate Heq.
  - split; [reflexivity|]. intros k Hk. inversion Hk.
  - rewrite !fmap_cons in Heq. injection Heq as Hhead Htail.
    apply pair_inj in Hhead as [-> Hv]. destruct (IH l2 Htail) as [-> Hvals].
    split; [reflexivity|]. intros k Hk. apply elem_of_cons in Hk as [->|Hk]; auto.
Qed.

(** X17: the query string that is signed tells the parameters apart: two
    maps of parameters, each key with one value as [Set] leaves them, that
    give the same query string hold the same keys with the same values,
    the key [Signature] aside (it takes no part in the query string). *)
Theorem query_string_injective (m1 m2 : gmap string string) :
  Market.buildQueryString (single m1) = Market.buildQueryString (single m2) ->
  delete "Signature" m1 = delete "Signature" m2.
Proof.
  unfold Market.buildQueryString, Market.buildQueryStringFrom. intros Heq.
  apply Join_inj in Heq.
  - apply pairs_inj in Heq as [Hkeys Hvals].
    apply map_eq. intros k. destruct (decide (k = "Signature")) as [->|Hne].
    { rewrite !lookup_delete_eq. reflexivity. }
    rewrite !lookup_delete_ne by congruence.
    pose proof (elem_of_signed_keys m1 k) as H1.
    pose proof (elem_of_signed_keys m2 k) as H2.
    rewrite <- Hkeys in H2.
    destruct (m1 !! k) as [v1|] eqn:E1.
    + assert (Hin : k ∈ sort_Strings (filter (fun key => key ≠ "Signature")
                                             (Url.keys (single m1))))
        by (apply H1; split; [exact Hne|eauto]).
      specialize (Hvals k Hin). rewrite !Get_single, E1 in Hvals.
      apply H2 in Hin as [_ [v2 E2]]. rewrite E2 in Hvals |- *. simpl in Hvals.
      congruence.
    + destruct (m2 !! k) as [v2|] eqn:E2; [|reflexivity].
      exfalso. assert (Hin : k <> "Signature" /\ is_Some (Some v2)) by (split; eauto).
      apply H2, H1 in Hin as [_ [v Hv]]. discriminate Hv.
  - apply Forall_fmap, Forall_forall. intros k _. apply pair_without_amp.
  - apply Forall_fmap, Forall_forall. intros k _. apply pair_without_amp.
Qed.

Lemma query_string_injective_witness :
  delete "Signature" (<["Signature" := "old"]> {["Action" := "DescribeProduct"]} : gmap string string)
  = delete "Signature" ({["Action" := "DescribeProduct"]} : gmap string string).
Proof.
  apply query_string_injective. vm_compute. reflexivity.
Defined.
